(** * photoschronos: a shallow embedding of the date resolver, the metadata
    session and the per-file pipeline (src/date.py, src/exif.py,
    src/phockup.py), with the properties of the specification proved on it.

    Conventions of the embedding.
    - A Python [str] is a [string]: a sequence of code points below 256.
      On that range [\d] is exactly the ten ASCII digits, [.] is every
      character but the line feed, and the white space of [str.strip],
      [str.split] and [\s] is the set given by [is_space].
    - An exception is a value of [exn]; a function that may raise returns a
      [result].  [None] is [option]'s [None].
    - A [dict] is a [gmap]; the file system is a finite map from paths to
      regular files, directories being left out.
    - A loop that the source does not bound takes a [fuel]; what is proved
      of it holds for every fuel, or names the fuel that suffices. *)

From stdpp Require Import gmap strings list.
From Stdlib Require Import ZArith Ascii String Lia.

Open Scope string_scope.
Open Scope Z_scope.

(** ** Exceptions *)

Inductive exn : Type :=
| KeyError | ValueError | OverflowError | TypeError
| IndexError | AttributeError | JSONDecodeError | FileNotFoundError | BrokenPipeError.

Inductive result (A : Type) : Type :=
| Ok (a : A)
| Raise (e : exn).
Arguments Ok {A} a.
Arguments Raise {A} e.

#[global] Instance result_ret : MRet result := fun A a => Ok a.
#[global] Instance result_bind : MBind result := fun A B f m =>
  match m with Ok a => f a | Raise e => Raise e end.

#[global] Instance exn_eq_dec : EqDecision exn.
Proof. solve_decision. Defined.

(** ** Python strings *)

Module Py.

Definition LF : ascii := "010"%char.

Definition code (c : ascii) : Z := Z.of_N (N_of_ascii c).

Definition is_digit (c : ascii) : bool := (48 <=? code c) && (code c <=? 57).

Definition digit_val (c : ascii) : Z := code c - 48.

(** [str.isspace] on code points below 256. *)
Definition is_space (c : ascii) : bool :=
  let n := code c in
  ((9 <=? n) && (n <=? 13)) || ((28 <=? n) && (n <=? 32)) || (n =? 133) || (n =? 160).

(** Truthiness of a [str]. *)
Definition truthy (s : string) : bool :=
  match s with EmptyString => false | String _ _ => true end.

Definition startswith (s p : string) : bool := String.prefix p s.

Fixpoint endswith_from (n : nat) (s p : string) : bool :=
  match n with
  | O => String.eqb s p
  | S n' => match s with
            | EmptyString => false
            | String _ s' => endswith_from n' s' p
            end
  end.

(** [s.endswith(p)]. *)
Definition endswith (s p : string) : bool :=
  (String.length p <=? String.length s)%nat
  && endswith_from (String.length s - String.length p) s p.

(** [s.split(sep)] for a one-character separator: never the empty list. *)
Fixpoint split_on (sep : ascii) (s : string) : list string :=
  match s with
  | EmptyString => [EmptyString]
  | String c s' =>
      if Ascii.eqb c sep then EmptyString :: split_on sep s'
      else match split_on sep s' with
           | p :: ps => String c p :: ps
           | [] => [String c EmptyString]
           end
  end.

Fixpoint lstrip_by (space : ascii -> bool) (s : string) : string :=
  match s with
  | EmptyString => EmptyString
  | String c s' => if space c then lstrip_by space s' else s
  end.

Fixpoint rstrip_by (space : ascii -> bool) (s : string) : string :=
  match s with
  | EmptyString => EmptyString
  | String c s' =>
      match rstrip_by space s' with
      | EmptyString => if space c then EmptyString else String c EmptyString
      | r => String c r
      end
  end.

(** [s.strip()]. *)
Definition strip (s : string) : string := rstrip_by is_space (lstrip_by is_space s).

(** [s.split()]: the maximal runs of characters that are not white space.
    [cur] is the run being read. *)
Fixpoint split_ws_from (cur : option string) (s : string) : list string :=
  match s with
  | EmptyString => match cur with Some w => [w] | None => [] end
  | String c s' =>
      if is_space c
      then match cur with
           | Some w => w :: split_ws_from None s'
           | None => split_ws_from None s'
           end
      else split_ws_from (Some (match cur with
                                | Some w => w ++ String c EmptyString
                                | None => String c EmptyString
                                end)) s'
  end.

Definition split_ws (s : string) : list string := split_ws_from None s.

(** Digits of an [int] literal: single underscores between digits only. *)
Fixpoint int_digits (acc : Z) (after_digit : bool) (s : string) : option Z :=
  match s with
  | EmptyString => if after_digit then Some acc else None
  | String c s' =>
      if is_digit c then int_digits (acc * 10 + digit_val c) true s'
      else if Ascii.eqb c "_" && after_digit
           then match s' with
                | String d _ => if is_digit d then int_digits acc false s' else None
                | EmptyString => None
                end
           else None
  end.

(** The white space that [int] passes over at both ends: that of the C
    locale, and the two characters above 127 of [is_space]. *)
Definition is_int_space (c : ascii) : bool :=
  let n := code c in
  ((9 <=? n) && (n <=? 13)) || (n =? 32) || (n =? 133) || (n =? 160).

(** [int(s)]: white space stripped, an optional sign, decimal digits. *)
Definition int (s : string) : result Z :=
  let body := rstrip_by is_int_space (lstrip_by is_int_space s) in
  let '(negative, ds) :=
    match body with
    | String c r =>
        if Ascii.eqb c "-" then (true, r)
        else if Ascii.eqb c "+" then (false, r)
        else (false, body)
    | EmptyString => (false, body)
    end in
  match int_digits 0 false ds with
  | Some n => Ok (if negative then - n else n)
  | None => Raise ValueError
  end.

(** [c.lower()] on code points below 256: A-Z, and the Latin-1 capitals
    U+00C0..U+00DE except the multiplication sign U+00D7. *)
Definition lower_char (c : ascii) : ascii :=
  let n := code c in
  if ((65 <=? n) && (n <=? 90)) || ((192 <=? n) && (n <=? 222) && negb (n =? 215))
  then ascii_of_N (Z.to_N (n + 32)) else c.

Fixpoint lower (s : string) : string :=
  match s with
  | EmptyString => EmptyString
  | String c s' => String (lower_char c) (lower s')
  end.

(** [s.replace(old, new)] for a non-empty [old]: left to right, without
    overlap.  [skip] counts the characters of a match still to be passed. *)
Fixpoint replace_from (skip : nat) (old new s : string) : string :=
  match s with
  | EmptyString => EmptyString
  | String c s' =>
      match skip with
      | S k => replace_from k old new s'
      | O => if String.prefix old s
             then new ++ replace_from (String.length old - 1) old new s'
             else String c (replace_from 0 old new s')
      end
  end.

Definition replace (s old new : string) : string := replace_from 0 old new s.

(** [sep.join(l)]. *)
Definition join (sep : string) (l : list string) : string := String.concat sep l.

(** [f'{n:0{w}d}'] for a non-negative [n]: decimal, left-padded with zeros. *)
Fixpoint dec_digits (fuel : nat) (n : Z) (acc : string) : string :=
  match fuel with
  | O => acc
  | S f =>
      let acc' := String (ascii_of_N (Z.to_N (48 + n mod 10))) acc in
      if n <? 10 then acc' else dec_digits f (n / 10) acc'
  end.

Definition str_of_nonneg (n : Z) : string := dec_digits (S (Z.to_nat (Z.log2 n))) n "".

Fixpoint zeros (k : nat) : string :=
  match k with O => EmptyString | S k' => String "0" (zeros k') end.

Definition zfill (w : nat) (s : string) : string := zeros (w - String.length s) ++ s.

Definition fmt_d (w : nat) (n : Z) : string := zfill w (str_of_nonneg n).

End Py.

(** ** The [datetime] library: naive date-times of the proleptic Gregorian
    calendar, durations, [strptime] for the two layouts of the resolver and
    [strftime] for the directives of a directory format. *)

Module Datetime.

Record datetime : Type := mk_datetime {
  year : Z; month : Z; day : Z;
  hour : Z; minute : Z; second : Z; microsecond : Z
}.

#[global] Instance datetime_eq_dec : EqDecision datetime.
Proof. solve_decision. Defined.

(** A [timedelta] of whole seconds; it is falsy exactly when it is zero. *)
Definition timedelta : Type := Z.

Definition timedelta_hm (hours minutes : Z) : timedelta := hours * 3600 + minutes * 60.

Definition td_truthy (d : timedelta) : bool := negb (d =? 0).

Definition is_leap (y : Z) : bool :=
  (y mod 4 =? 0) && (negb (y mod 100 =? 0) || (y mod 400 =? 0)).

Definition DAYS_IN_MONTH : list Z := [31; 28; 31; 30; 31; 30; 31; 31; 30; 31; 30; 31].

Definition DAYS_BEFORE_MONTH : list Z := [0; 31; 59; 90; 120; 151; 181; 212; 243; 273; 304; 334].

Definition days_in_month (y m : Z) : Z :=
  if (m =? 2) && is_leap y then 29 else nth (Z.to_nat (m - 1)) DAYS_IN_MONTH 0.

Definition days_before_year (y : Z) : Z :=
  let p := y - 1 in p * 365 + p / 4 - p / 100 + p / 400.

Definition days_before_month (y m : Z) : Z :=
  nth (Z.to_nat (m - 1)) DAYS_BEFORE_MONTH 0 + (if (2 <? m) && is_leap y then 1 else 0).

(** [date.toordinal()]: 1 is 0001-01-01. *)
Definition ymd2ord (y m d : Z) : Z := days_before_year y + days_before_month y m + d.

Definition MAXORDINAL : Z := 3652059.

(** [date.fromordinal(n)]. *)
Definition ord2ymd (n : Z) : Z * Z * Z :=
  let n := n - 1 in
  let n400 := n / 146097 in let n := n mod 146097 in
  let n100 := n / 36524 in let n := n mod 36524 in
  let n4 := n / 1461 in let n := n mod 1461 in
  let n1 := n / 365 in let n := n mod 365 in
  let y := n400 * 400 + 1 + n100 * 100 + n4 * 4 + n1 in
  if (n1 =? 4) || (n100 =? 4) then (y - 1, 12, 31)
  else
    let leapyear := (n1 =? 3) && (negb (n4 =? 24) || (n100 =? 3)) in
    let m := Z.shiftr (n + 50) 5 in
    let preceding := nth (Z.to_nat (m - 1)) DAYS_BEFORE_MONTH 0
                     + (if (2 <? m) && leapyear then 1 else 0) in
    if n <? preceding
    then
      let m' := m - 1 in
      let preceding' := preceding - (nth (Z.to_nat (m' - 1)) DAYS_IN_MONTH 0
                                     + (if (m' =? 2) && leapyear then 1 else 0)) in
      (y, m', n - preceding' + 1)
    else (y, m, n - preceding + 1).

Definition fits_c_int (n : Z) : bool := (- 2147483648 <=? n) && (n <=? 2147483647).

Definition valid_date (y m d : Z) : bool :=
  (1 <=? y) && (y <=? 9999) && (1 <=? m) && (m <=? 12)
  && (1 <=? d) && (d <=? days_in_month y m).

Definition valid_time (H M S : Z) : bool :=
  (0 <=? H) && (H <=? 23) && (0 <=? M) && (M <=? 59) && (0 <=? S) && (S <=? 59).

(** [datetime(y, m, d, H, M, S)]: an argument outside a C int raises
    OverflowError, a field out of range raises ValueError. *)
Definition datetime_new (y m d H M S : Z) : result datetime :=
  if forallb fits_c_int [y; m; d; H; M; S]
  then if valid_date y m d && valid_time H M S
       then Ok (mk_datetime y m d H M S 0)
       else Raise ValueError
  else Raise OverflowError.

(** [t - delta]: OverflowError when the result leaves years 1..9999. *)
Definition sub_timedelta (t : datetime) (delta : timedelta) : result datetime :=
  let total := ymd2ord (year t) (month t) (day t) * 86400
               + hour t * 3600 + minute t * 60 + second t - delta in
  let days := total / 86400 in
  let rem := total mod 86400 in
  if (0 <? days) && (days <=? MAXORDINAL)
  then let '(y, m, d) := ord2ymd days in
       Ok (mk_datetime y m d (rem / 3600) ((rem mod 3600) / 60) (rem mod 60) (microsecond t))
  else Raise OverflowError.

(** Order of naive date-times ([<] on [datetime]). *)
Definition key (t : datetime) : list Z :=
  [year t; month t; day t; hour t; minute t; second t; microsecond t].

Fixpoint lex_lt (a b : list Z) : bool :=
  match a, b with
  | x :: a', y :: b' => (x <? y) || ((x =? y) && lex_lt a' b')
  | [], _ :: _ => true
  | _, [] => false
  end.

Definition dt_lt (a b : datetime) : bool := lex_lt (key a) (key b).

(** *** [strptime]

    [datetime.strptime] compiles the format to a regular expression, takes
    its first match at the head of the input (ordered choice, backtracking),
    rejects a match that leaves input over and builds the date-time from the
    fields.  A layout is the list of its directives; white space in a format
    stands for [\s+]. *)

Inductive directive : Type :=
| DirY | Dirm | Dird | DirH | DirM | DirS   (* %Y %m %d %H %M %S *)
| DirSpace                                    (* a run of white space *)
| DirLit (c : ascii).                         (* a punctuation character *)

Definition in_range (lo hi : ascii) (c : ascii) : bool :=
  (Py.code lo <=? Py.code c) && (Py.code c <=? Py.code hi).

(** A branch of an alternation: one predicate per character. *)
Fixpoint match_chars (ps : list (ascii -> bool)) (s : string) : option (string * string) :=
  match ps with
  | [] => Some (EmptyString, s)
  | p :: ps' =>
      match s with
      | String c s' =>
          if p c then match match_chars ps' s' with
                      | Some (m, r) => Some (String c m, r)
                      | None => None
                      end
          else None
      | EmptyString => None
      end
  end.

(** The branches that match at the head of [s], in the order of the
    alternation. *)
Definition branches (alts : list (list (ascii -> bool))) (s : string) : list (string * string) :=
  omap (fun ps => match_chars ps s) alts.

(** [\s+], longest run first. *)
Fixpoint spaces (s : string) : list (string * string) :=
  match s with
  | String c s' =>
      if Py.is_space c
      then map (fun '(m, r) => (String c m, r)) (spaces s') ++ [(String c EmptyString, s')]
      else []
  | EmptyString => []
  end.

Definition chr (c : ascii) : ascii -> bool := Ascii.eqb c.
Definition dig : ascii -> bool := Py.is_digit.

Definition candidates (d : directive) (s : string) : list (string * string) :=
  match d with
  | DirY => branches [[dig; dig; dig; dig]] s
  | Dirm => branches [[chr "1"; in_range "0" "2"]; [chr "0"; in_range "1" "9"]; [in_range "1" "9"]] s
  | Dird => branches [[chr "3"; in_range "0" "1"]; [in_range "1" "2"; dig]; [chr "0"; in_range "1" "9"];
                      [in_range "1" "9"]; [chr " "; in_range "1" "9"]] s
  | DirH => branches [[chr "2"; in_range "0" "3"]; [in_range "0" "1"; dig]; [dig]] s
  | DirM => branches [[in_range "0" "5"; dig]; [dig]] s
  | DirS => branches [[chr "6"; in_range "0" "1"]; [in_range "0" "5"; dig]; [dig]] s
  | DirSpace => spaces s
  | DirLit c => branches [[chr c]] s
  end.

(** The fields found so far; the defaults are those of [_strptime]. *)
Record fields : Type := mk_fields { fY : Z; fm : Z; fd : Z; fH : Z; fM : Z; fS : Z }.

Definition no_fields : fields := mk_fields 1900 1 1 0 0 0.

Definition num (s : string) : Z := match Py.int s with Ok n => n | Raise _ => 0 end.

Definition set_field (d : directive) (txt : string) (f : fields) : fields :=
  match d with
  | DirY => mk_fields (num txt) (fm f) (fd f) (fH f) (fM f) (fS f)
  | Dirm => mk_fields (fY f) (num txt) (fd f) (fH f) (fM f) (fS f)
  | Dird => mk_fields (fY f) (fm f) (num txt) (fH f) (fM f) (fS f)
  | DirH => mk_fields (fY f) (fm f) (fd f) (num txt) (fM f) (fS f)
  | DirM => mk_fields (fY f) (fm f) (fd f) (fH f) (num txt) (fS f)
  | DirS => mk_fields (fY f) (fm f) (fd f) (fH f) (fM f) (num txt)
  | DirSpace | DirLit _ => f
  end.

(** Every way the layout matches at the head of [s], best first. *)
Fixpoint matches (layout : list directive) (f : fields) (s : string) : list (fields * string) :=
  match layout with
  | [] => [(f, s)]
  | d :: layout' =>
      flat_map (fun '(txt, r) => matches layout' (set_field d txt f) r) (candidates d s)
  end.

(** [datetime.strptime(date, date_format)] for a layout in which no
    directive is repeated. *)
Definition strptime (date : string) (date_format : list directive) : result datetime :=
  match matches date_format no_fields date with
  | [] => Raise ValueError
  | (f, rest) :: _ =>
      if Py.truthy rest then Raise ValueError
      else datetime_new (fY f) (fm f) (fd f) (fH f) (fM f) (fS f)
  end.

(** *** [strftime]

    [date.strftime] for the directives a directory format is made of
    (%Y %y %b %m %B %j %d %U %W, and %%), in the C locale, the year in
    four digits; any other character after a percent sign is outside this
    model and is copied. *)

Definition month_names : list string :=
  ["January"; "February"; "March"; "April"; "May"; "June"; "July";
   "August"; "September"; "October"; "November"; "December"].

Definition month_name (m : Z) : string := nth (Z.to_nat (m - 1)) month_names "".

Definition yday (t : datetime) : Z := days_before_month (year t) (month t) + day t.

(** Days since Sunday. *)
Definition wday (t : datetime) : Z := ymd2ord (year t) (month t) (day t) mod 7.

Definition directive_text (c : ascii) (t : datetime) : string :=
  if Ascii.eqb c "Y" then Py.fmt_d 4 (year t)
  else if Ascii.eqb c "y" then Py.fmt_d 2 (year t mod 100)
  else if Ascii.eqb c "m" then Py.fmt_d 2 (month t)
  else if Ascii.eqb c "d" then Py.fmt_d 2 (day t)
  else if Ascii.eqb c "j" then Py.fmt_d 3 (yday t)
  else if Ascii.eqb c "B" then month_name (month t)
  else if Ascii.eqb c "b" then String.substring 0 3 (month_name (month t))
  else if Ascii.eqb c "U" then Py.fmt_d 2 ((yday t - 1 + 7 - wday t) / 7)
  else if Ascii.eqb c "W" then Py.fmt_d 2 ((yday t - 1 + 7 - (wday t + 6) mod 7) / 7)
  else if Ascii.eqb c "%" then "%"
  else String "%" (String c EmptyString).

Fixpoint strftime (fmt : string) (t : datetime) : string :=
  match fmt with
  | String "%" (String c r) => directive_text c t ++ strftime r t
  | String c r => String c (strftime r t)
  | EmptyString => EmptyString
  end.

End Datetime.

(** ** [os.path] on a POSIX host *)

Module OsPath.

Definition sep : string := "/".

(** Index of the last occurrence of [c] in [s]. *)
Fixpoint rfind_from (i : nat) (c : ascii) (s : string) : option nat :=
  match s with
  | EmptyString => None
  | String a s' =>
      match rfind_from (S i) c s' with
      | Some j => Some j
      | None => if Ascii.eqb a c then Some i else None
      end
  end.

Definition rfind (c : ascii) (s : string) : option nat := rfind_from 0 c s.

Definition drop (n : nat) (s : string) : string := String.substring n (String.length s - n) s.
Definition take (n : nat) (s : string) : string := String.substring 0 n s.

(** [os.path.basename(p)]. *)
Definition basename (p : string) : string :=
  match rfind "/" p with Some i => drop (S i) p | None => p end.

(** Is some character of [s] between positions [i] and [j] no dot?  The
    loop of [genericpath._splitext] over the leading dots of the name. *)
Fixpoint non_dot_between (i j : nat) (s : string) : bool :=
  match s with
  | EmptyString => false
  | String c s' =>
      match j with
      | O => false
      | S j' =>
          match i with
          | S i' => non_dot_between i' j' s'
          | O => if Ascii.eqb c "." then non_dot_between 0 j' s' else true
          end
      end
  end.

(** [os.path.splitext(p)]: the extension starts at the last dot of the last
    component, unless only dots precede it there. *)
Definition splitext (p : string) : string * string :=
  match rfind "." p with
  | Some dotIndex =>
      let filenameIndex := match rfind "/" p with Some i => S i | None => O end in
      if (filenameIndex <=? dotIndex)%nat && non_dot_between filenameIndex dotIndex p
      then (take dotIndex p, drop dotIndex p)
      else (p, EmptyString)
  | None => (p, EmptyString)
  end.

(** The component loop of [posixpath.normpath]; [new_comps] is kept
    reversed. *)
Fixpoint norm_comps (initial_slashes : nat) (comps new_comps : list string) : list string :=
  match comps with
  | [] => rev new_comps
  | comp :: comps' =>
      if String.eqb comp "" || String.eqb comp "." then norm_comps initial_slashes comps' new_comps
      else if negb (String.eqb comp "..")
              || ((initial_slashes =? 0)%nat && match new_comps with [] => true | _ => false end)
              || match new_comps with last :: _ => String.eqb last ".." | [] => false end
           then norm_comps initial_slashes comps' (comp :: new_comps)
           else norm_comps initial_slashes comps' (tl new_comps)
  end.

(** [os.path.normpath(path)]. *)
Definition normpath (path : string) : string :=
  if negb (Py.truthy path) then "."
  else
    let initial_slashes :=
      if Py.startswith path "/"
      then if Py.startswith path "//" && negb (Py.startswith path "///") then 2%nat else 1%nat
      else 0%nat in
    let comps := norm_comps initial_slashes (Py.split_on "/" path) [] in
    let path' := String.concat "/" comps in
    let path' := (match initial_slashes with O => "" | 1%nat => "/" | _ => "//" end) ++ path' in
    if Py.truthy path' then path' else ".".

End OsPath.

(** ** Values of a metadata record

    What the external tool prints and [json.loads] returns: the record of a
    file is an object whose fields are strings or numbers.  Numbers are the
    integers the tool emits under its numeric flag. *)

#[warnings="-register-all"]
Inductive json : Type :=
| JNull
| JBool (b : bool)
| JInt (n : Z)
| JStr (s : string)
| JArr (items : list json)
| JObj (members : list (string * json)).

(** Truthiness of the Python value. *)
Definition json_truthy (v : json) : bool :=
  match v with
  | JNull => false
  | JBool b => b
  | JInt n => negb (n =? 0)
  | JStr s => Py.truthy s
  | JArr l => match l with [] => false | _ => true end
  | JObj m => match m with [] => false | _ => true end
  end.

(** ** src/date.py *)

Module Date.
Import Datetime.

(** *** The regular expressions of the module *)

(** [.*] followed by [tail]: the longest run of characters other than the
    line feed after which [tail] matches. *)
Fixpoint greedy_dot {A : Type} (tail : string -> option A) (s : string) : option (string * A) :=
  match s with
  | String c s' =>
      if Ascii.eqb c Py.LF then option_map (pair EmptyString) (tail s)
      else match greedy_dot tail s' with
           | Some (g, a) => Some (String c g, a)
           | None => option_map (pair EmptyString) (tail s)
           end
  | EmptyString => option_map (pair EmptyString) (tail s)
  end.

(** [re.search]: the match at the leftmost position that has one. *)
Fixpoint search {A : Type} (at_head : string -> option A) (s : string) : option A :=
  match at_head s with
  | Some a => Some a
  | None => match s with
            | String _ s' => search at_head s'
            | EmptyString => None
            end
  end.

(** [\d{n}] at the head of [s]. *)
Fixpoint digits (n : nat) (s : string) : option (string * string) :=
  match n with
  | O => Some (EmptyString, s)
  | S n' =>
      match s with
      | String c s' =>
          if Py.is_digit c
          then match digits n' s' with
               | Some (m, r) => Some (String c m, r)
               | None => None
               end
          else None
      | EmptyString => None
      end
  end.

Definition is_sign (c : ascii) : bool := Ascii.eqb c "+" || Ascii.eqb c "-".

Record offset_groups : Type := mk_offset_groups {
  og_sign : ascii; og_hours : string; og_colon : string; og_minutes : string
}.

Definition og_text (g : offset_groups) : string :=
  String (og_sign g) (og_hours g ++ og_colon g ++ og_minutes g).

(** [([+-])(\d{2}):?(\d{2})] at the head of [s]: the groups and the rest.
    The colon is tried first, then its absence. *)
Definition offset_at (s : string) : option (offset_groups * string) :=
  match s with
  | String sg r0 =>
      if is_sign sg then
        match digits 2 r0 with
        | Some (hh, r1) =>
            let with_colon :=
              match r1 with
              | String c r2 =>
                  if Ascii.eqb c ":"
                  then match digits 2 r2 with
                       | Some (mm, r3) => Some (mk_offset_groups sg hh ":" mm, r3)
                       | None => None
                       end
                  else None
              | EmptyString => None
              end in
            match with_colon with
            | Some m => Some m
            | None =>
                match digits 2 r1 with
                | Some (mm, r3) => Some (mk_offset_groups sg hh "" mm, r3)
                | None => None
                end
            end
        | None => None
        end
      else None
  | EmptyString => None
  end.

(** The pattern [offset_search] at the head of [s]: group 1 is [.*],
    group 2 is [[+-]\d{2}:?\d{2}].  Returns group 1, group 2 and the rest. *)
Definition offset_text_at (r : string) : option (string * string) :=
  match offset_at r with
  | Some (g, rest) => Some (og_text g, rest)
  | None => None
  end.

Definition offset_search_at (s : string) : option (string * (string * string)) :=
  greedy_dot offset_text_at s.

(** [re.search(offset_search, s) is not None]. *)
Definition offset_search (s : string) : bool :=
  match search offset_search_at s with Some _ => true | None => false end.

(** [re.sub(offset_search, repl, s)]: every match, left to right, is
    replaced; the characters between matches are kept.  A match is never
    empty, so [fuel] above the length of [s] is never used up. *)
Fixpoint sub_fuel (fuel : nat) (repl : string -> string -> string) (s : string) : string :=
  match fuel with
  | O => s
  | S fuel' =>
      match offset_search_at s with
      | Some (g1, (g2, rest)) => repl g1 g2 ++ sub_fuel fuel' repl rest
      | None =>
          match s with
          | String c s' => String c (sub_fuel fuel' repl s')
          | EmptyString => EmptyString
          end
      end
  end.

Definition group1 (g1 g2 : string) : string := g1.
Definition group2 (g1 g2 : string) : string := g2.

Definition sub (repl : string -> string -> string) (s : string) : string :=
  sub_fuel (S (String.length s)) repl s.

(** *** [Date._parse_offset] *)

Definition sign_of (c : ascii) : Z := if Ascii.eqb c "+" then 1 else -1.

Definition _parse_offset (offset_str : json) : result (option timedelta) :=
  if negb (json_truthy offset_str) then Ok None
  else match offset_str with
       | JStr s =>
           match search offset_at s with
           | None => Ok None
           | Some (g, _) =>
               let sign := sign_of (og_sign g) in
               hours ← Py.int (og_hours g);
               minutes ← Py.int (og_minutes g);
               Ok (Some (timedelta_hm (sign * hours) (sign * minutes)))
           end
       | _ => Raise TypeError
       end.

(** *** [Date.parse] *)

Definition parse (date : string) : string :=
  let date := Py.replace date "YYYY" "%Y" in
  let date := Py.replace date "YY" "%y" in
  let date := Py.replace date "m" "%b" in
  let date := Py.replace date "MM" "%m" in
  let date := Py.replace date "M" "%B" in
  let date := Py.replace date "DDD" "%j" in
  let date := Py.replace date "DD" "%d" in
  let date := Py.replace date "U" "%U" in
  let date := Py.replace date "W" "%W" in
  let date := Py.replace date "\" OsPath.sep in
  let date := Py.replace date "/" OsPath.sep in
  date.

(** *** [Date.build] *)

Definition getitem (d : gmap string Z) (k : string) : result Z :=
  match d !! k with Some v => Ok v | None => Raise KeyError end.

(** [d[k] if d.get(k) else 0]. *)
Definition get_or_zero (d : gmap string Z) (k : string) : Z :=
  match d !! k with Some v => if v =? 0 then 0 else v | None => 0 end.

Definition build (date_object : gmap string Z) : result datetime :=
  y ← getitem date_object "year";
  m ← getitem date_object "month";
  d ← getitem date_object "day";
  datetime_new y m d (get_or_zero date_object "hour")
               (get_or_zero date_object "minute") (get_or_zero date_object "second").

(** *** The resolved date

    The dictionary with keys 'date', 'subseconds' and 'offset'.  [offset] is
    [None] both when the key is missing and when it holds [None]: every
    reader goes through [.get('offset') is None]. *)

Record ResolvedDate : Type := mk_resolved {
  date : option datetime;
  subseconds : string;
  offset : option timedelta
}.

#[global] Instance ResolvedDate_eq_dec : EqDecision ResolvedDate.
Proof. solve_decision. Defined.

(** [{'date': None, 'subseconds': ''}] *)
Definition unknown_date : ResolvedDate := mk_resolved None "" None.

(** [a or b] on optional durations. *)
Definition or_else (a b : option timedelta) : option timedelta :=
  match a with
  | Some d => if td_truthy d then a else b
  | None => b
  end.

Definition layout_colon : list directive :=   (* '%Y:%m:%d %H:%M:%S' *)
  [DirY; DirLit ":"; Dirm; DirLit ":"; Dird; DirSpace; DirH; DirLit ":"; DirM; DirLit ":"; DirS].

Definition layout_hyphen : list directive :=  (* '%Y-%m-%d %H:%M:%S' *)
  [DirY; DirLit "-"; Dirm; DirLit "-"; Dird; DirSpace; DirH; DirLit ":"; DirM; DirLit ":"; DirS].

(** The loop over the layouts: the first that parses wins, a ValueError
    moves on to the next. *)
Fixpoint parse_layouts (date : string) (layouts : list (list directive))
  : result (option datetime) :=
  match layouts with
  | [] => Ok None
  | fmt :: layouts' =>
      match strptime date fmt with
      | Ok t => Ok (Some t)
      | Raise ValueError => parse_layouts date layouts'
      | Raise e => Raise e
      end
  end.

(** *** [Date.from_datestring] *)

Definition from_datestring (datestr : string) : result ResolvedDate :=
  let datestr_parts := Py.split_on "." datestr in
  let date := hd EmptyString datestr_parts in
  let subseconds := nth 1 datestr_parts EmptyString in
  let offset : option timedelta := None in
  '(date, offset) ←
    (if offset_search date
     then offset ← _parse_offset (JStr (sub group2 date));
          Ok (sub group1 date, offset)
     else Ok (date, offset));
  '(subseconds, offset) ←
    (if offset_search subseconds
     then found ← _parse_offset (JStr (sub group2 subseconds));
          Ok (sub group1 subseconds, or_else found offset)
     else Ok (subseconds, offset));
  parsed_date_time ← parse_layouts date [layout_colon; layout_hyphen];
  parsed_date_time ←
    match parsed_date_time, offset with
    | Some t, Some d =>
        if td_truthy d then t' ← sub_timedelta t d; Ok (Some t') else Ok (Some t)
    | _, _ => Ok parsed_date_time
    end;
  Ok (mk_resolved parsed_date_time subseconds offset).

(** *** [Date.from_filename] and [Date.from_timestamp] *)

(** A compiled pattern, as [from_filename] uses it: [search] gives the named
    groups of the match, a group that took no part in it holding [None]. *)
Definition regex : Type := string -> option (list (string * option string)).

Definition one_of (cs : string) (c : ascii) : bool :=
  existsb (Ascii.eqb c) (list_ascii_of_string cs).

(** The tail of the default pattern, after its leading [.*]: a separator,
    eight digits, an optional separator, six digits. *)
Definition stamp_at (s : string) : option (list (string * option string)) :=
  match s with
  | String c r0 =>
      if one_of "_-" c then
        '(year, r1) ← digits 4 r0;
        '(month, r2) ← digits 2 r1;
        '(day, r3) ← digits 2 r2;
        let time_at r :=
          '(hour, r4) ← digits 2 r;
          '(minute, r5) ← digits 2 r4;
          '(second, _) ← digits 2 r5;
          Some [("year", Some year); ("month", Some month); ("day", Some day);
                ("hour", Some hour); ("minute", Some minute); ("second", Some second)] in
        let with_sep :=
          match r3 with
          | String c' r3' => if one_of "_-" c' then time_at r3' else None
          | EmptyString => None
          end in
        match with_sep with
        | Some m => Some m
        | None => time_at r3
        end
      else None
  | EmptyString => None
  end.

Definition default_regex : regex :=
  search (fun s => option_map snd (greedy_dot stamp_at s)).

(** [dict([a, int(x)] for a, x in groups.items())] *)
Fixpoint ints_of (groups : list (string * string)) : result (list (string * Z)) :=
  match groups with
  | [] => Ok []
  | (a, x) :: groups' =>
      n ← Py.int x;
      rest ← ints_of groups';
      Ok ((a, n) :: rest)
  end.

(** [matches.groupdict(default='0')] *)
Definition groupdict (default : string) (m : list (string * option string))
  : list (string * string) :=
  map (fun '(a, x) => (a, from_option id default x)) m.

Section WithFileSystem.

(** [datetime.fromtimestamp(os.path.getmtime(path))] *)
Variable mtime_datetime : string -> result datetime.

Definition from_timestamp (filename : string) : result ResolvedDate :=
  date ← mtime_datetime filename;
  Ok (mk_resolved (Some date) "" None).

(** The [if matches:] block: the date built from the groups of the match;
    a KeyError or ValueError on the way leaves it [None]. *)
Definition pattern_date (regex : regex) (name : string) : result (option datetime) :=
  match regex name with
  | Some m =>
      let attempt :=
        match_dir ← ints_of (groupdict "0" m);
        build (list_to_map match_dir) in
      match attempt with
      | Ok date => Ok (Some date)
      | Raise KeyError | Raise ValueError => Ok None
      | Raise e => Raise e
      end
  | None => Ok None
  end.

(** Returns [None] when it falls off its end. *)
Definition from_filename (filename : string) (user_regex : option regex) (timestamp : bool)
  : result (option ResolvedDate) :=
  let regex := from_option id default_regex user_regex in
  found ← pattern_date regex (OsPath.basename filename);
  match found with
  | Some date => Ok (Some (mk_resolved (Some date) "" None))
  | None =>
      if timestamp then r ← from_timestamp filename; Ok (Some r)
      else Ok None
  end.

(** *** [Date.from_exif] *)

Definition default_keys : list string :=
  ["SubSecCreateDate"; "SubSecDateTimeOriginal"; "CreateDate";
   "DateTimeOriginal"; "MediaCreateDate"].

Definition tz_keys : list string := ["OffsetTimeOriginal"; "OffsetTimeDigitized"; "TimeZone"].

(** [key in exif and isinstance(exif[key], str) and not
    exif[key].startswith('0000')] *)
Definition usable (v : option json) : option string :=
  match v with
  | Some (JStr s) => if Py.startswith s "0000" then None else Some s
  | _ => None
  end.

(** The loop over the candidate fields. *)
Fixpoint scan (exif : gmap string json) (keys : list string) : option string :=
  match keys with
  | [] => None
  | key :: keys' =>
      match usable (exif !! key) with
      | Some datestr => Some datestr
      | None => scan exif keys'
      end
  end.

(** The loop over the time-zone fields: the first that gives a non-zero
    offset is subtracted and recorded. *)
Fixpoint apply_timezone (exif : gmap string json) (t : datetime) (keys : list string)
  : result (datetime * option timedelta) :=
  match keys with
  | [] => Ok (t, None)
  | tz_key :: keys' =>
      offset ← match exif !! tz_key with
               | Some v => if json_truthy v then _parse_offset v else Ok None
               | None => Ok None
               end;
      match offset with
      | Some d =>
          if td_truthy d then t' ← sub_timedelta t d; Ok (t', Some d)
          else apply_timezone exif t keys'
      | None => apply_timezone exif t keys'
      end
  end.

Definition keys_of (date_field : option string) : list string :=
  match date_field with
  | Some f => if Py.truthy f then Py.split_ws f else default_keys
  | None => default_keys
  end.

(** [self] is the file name the resolver was built with, if any. *)
Definition from_exif (self_filename : option string) (exif : gmap string json)
    (timestamp : bool) (user_regex : option regex) (date_field : option string)
  : result (option ResolvedDate) :=
  let keys := keys_of date_field in
  let datestr := scan exif keys in
  parsed_date ←
    match datestr with
    | Some s => if Py.truthy s && negb (Py.startswith s "0000")
                then from_datestring s else Ok unknown_date
    | None => Ok unknown_date
    end;
  parsed_date ←
    match date parsed_date, offset parsed_date with
    | Some t, None =>
        '(t', off) ← apply_timezone exif t tz_keys;
        Ok (mk_resolved (Some t') (subseconds parsed_date) off)
    | _, _ => Ok parsed_date
    end;
  match date parsed_date with
  | Some _ => Ok (Some parsed_date)
  | None =>
      match self_filename with
      | Some f => if Py.truthy f then from_filename f user_regex timestamp
                  else Ok (Some (mk_resolved None (subseconds parsed_date) None))
      | None => Ok (Some (mk_resolved None (subseconds parsed_date) None))
      end
  end.

End WithFileSystem.

End Date.

(** ** src/exif.py: the persistent session *)

Module Exif.

Definition NL : string := String Py.LF "".

(** The worker process, seen from the session: its input stream may be
    closed or broken (a write raises BrokenPipeError); [stdin] collects what
    was written, [stdout] holds the lines it will still print, each with its
    line feed; the end of the list is the end of the stream.  The output
    stream itself is open. *)
Record process : Type := mk_process {
  stdin_closed : bool;
  stdin_broken : bool;
  stdin : list string;
  stdout : list string
}.

(** [_ExiftoolSession]: [_process] is [None] when the worker did not
    start. *)
Record session : Type := mk_session {
  _process : option process;
  _token : Z
}.

(** [obj[0]] on a value that [json.loads] returned. *)
Definition subscript0 (v : json) : result json :=
  match v with
  | JArr (x :: _) => Ok x
  | JArr [] => Raise IndexError
  | JStr (String c _) => Ok (JStr (String c ""))
  | JStr EmptyString => Raise IndexError
  | JObj _ => Raise KeyError
  | JNull | JBool _ | JInt _ => Raise TypeError
  end.

(** The [for line in stdout] loop: the lines before the first one that is
    the token once stripped, and the lines left in the stream. *)
Fixpoint read_until (token : string) (lines chunks : list string) : list string * list string :=
  match lines with
  | [] => (chunks, [])
  | line :: rest =>
      if String.eqb (Py.strip line) token then (chunks, rest)
      else read_until token rest (chunks ++ [line])%list
  end.

Section WithLibraries.

(** [json.loads], [os.path.abspath] and [shlex.quote]. *)
Variable json_loads : string -> result json.
Variable abspath : string -> string.
Variable shlex_quote : string -> string.

Definition _quote_filename (filename : string) : string :=
  shlex_quote (abspath filename).

Definition _build_payload (filename token : string) : string :=
  let filename := abspath filename in
  Py.join NL ["-fast2"; "-n"; "-time:all"; "-mimetype"; "-j";
              _quote_filename filename; "-echo3"; token; "-execute" ++ NL].

(** [_ExiftoolSession.fetch]: what it returns or raises, and the session
    after it. *)
Definition fetch (self : session) (filename : string) : result (option json) * session :=
  match _process self with
  | None => (Ok None, self)
  | Some p =>
      if stdin_closed p then (Ok None, self)
      else
        let count := _token self + 1 in
        let token := "__PHOCKUP_END__" ++ Py.str_of_nonneg count ++ "__" in
        if stdin_broken p then (Ok None, mk_session (Some p) count)
        else
          let '(chunks, rest) := read_until token (stdout p) [] in
          let p' := mk_process (stdin_closed p) (stdin_broken p)
                               (stdin p ++ [_build_payload filename token])%list rest in
          let self' := mk_session (Some p') count in
          let data := Py.strip (Py.join "" chunks) in
          if negb (Py.truthy data) then (Ok None, self')
          else
            match (v ← json_loads data; subscript0 v) with
            | Ok record => (Ok (Some record), self')
            | Raise JSONDecodeError | Raise IndexError => (Ok None, self')
            | Raise e => (Raise e, self')
            end
  end.

End WithLibraries.

(** *** A reading of [json.loads]

    The JSON grammar as the decoder of the standard library accepts it, on
    texts of code points below 256.  Numbers with a fraction or an exponent,
    NaN and the infinities, and escapes of code points from 256 on lie
    outside the values of this model: [Outside].  So does a text on which
    the recursion, bounded by [fuel], would not come to its end. *)

Inductive parsed (A : Type) : Type :=
| Parsed (a : A) (rest : string)
| Malformed
| Outside.
Arguments Parsed {A} a rest.
Arguments Malformed {A}.
Arguments Outside {A}.

Definition DQUOTE : ascii := "034"%char.
Definition BACKSLASH : ascii := "092"%char.

Definition is_json_space (c : ascii) : bool :=
  Ascii.eqb c " " || Ascii.eqb c "009" || Ascii.eqb c "010" || Ascii.eqb c "013".

Fixpoint skip_ws (s : string) : string :=
  match s with
  | String c r => if is_json_space c then skip_ws r else s
  | EmptyString => s
  end.

Definition hex_val (c : ascii) : option Z :=
  let n := Py.code c in
  if (48 <=? n) && (n <=? 57) then Some (n - 48)
  else if (65 <=? n) && (n <=? 70) then Some (n - 55)
  else if (97 <=? n) && (n <=? 102) then Some (n - 87)
  else None.

Definition hex4 (s : string) : option (Z * string) :=
  match s with
  | String a (String b (String c (String d r))) =>
      match hex_val a, hex_val b, hex_val c, hex_val d with
      | Some x, Some y, Some z, Some w => Some (((x * 16 + y) * 16 + z) * 16 + w, r)
      | _, _, _, _ => None
      end
  | _ => None
  end.

Definition char_of (n : Z) : ascii := ascii_of_N (Z.to_N n).

Definition simple_escape (c : ascii) : option ascii :=
  if Ascii.eqb c DQUOTE then Some DQUOTE
  else if Ascii.eqb c BACKSLASH then Some BACKSLASH
  else if Ascii.eqb c "/" then Some "/"%char
  else if Ascii.eqb c "b" then Some (char_of 8)
  else if Ascii.eqb c "f" then Some (char_of 12)
  else if Ascii.eqb c "n" then Some (char_of 10)
  else if Ascii.eqb c "r" then Some (char_of 13)
  else if Ascii.eqb c "t" then Some (char_of 9)
  else None.

(** The characters of a string after its opening quote. *)
Fixpoint scan_string (fuel : nat) (s : string) : parsed string :=
  match fuel with
  | O => Outside
  | S fuel' =>
      match s with
      | EmptyString => Malformed
      | String c r =>
          if Ascii.eqb c DQUOTE then Parsed EmptyString r
          else if Ascii.eqb c BACKSLASH then
            match r with
            | EmptyString => Malformed
            | String e r' =>
                if Ascii.eqb e "u" then
                  match hex4 r' with
                  | Some (n, r'') =>
                      if n <? 256 then
                        match scan_string fuel' r'' with
                        | Parsed t rest => Parsed (String (char_of n) t) rest
                        | other => other
                        end
                      else Outside
                  | None => Malformed
                  end
                else
                  match simple_escape e with
                  | Some x =>
                      match scan_string fuel' r' with
                      | Parsed t rest => Parsed (String x t) rest
                      | other => other
                      end
                  | None => Malformed
                  end
            end
          else if Py.code c <? 32 then Malformed
          else match scan_string fuel' r with
               | Parsed t rest => Parsed (String c t) rest
               | other => other
               end
      end
  end.

Fixpoint take_digits (s : string) : string * string :=
  match s with
  | String c r =>
      if Py.is_digit c then let '(d, rest) := take_digits r in (String c d, rest)
      else (EmptyString, s)
  | EmptyString => (EmptyString, s)
  end.

Definition digits_value (d : string) : Z :=
  fold_left (fun acc c => acc * 10 + Py.digit_val c) (list_ascii_of_string d) 0.

(** The integer part at the head of [s]: an optional minus sign, then a
    zero or a run of digits that does not begin with a zero. *)
Definition integer_part (s : string) : option (Z * string) :=
  let '(negative, body) :=
    match s with
    | String c r => if Ascii.eqb c "-" then (true, r) else (false, s)
    | EmptyString => (false, s)
    end in
  match body with
  | String c r =>
      if Ascii.eqb c "0" then Some (0, r)
      else if Py.is_digit c then
        let '(d, rest) := take_digits body in
        Some (if negative then - digits_value d else digits_value d, rest)
      else None
  | EmptyString => None
  end.

(** Does a fraction or an exponent follow the integer part? *)
Definition fraction_follows (s : string) : bool :=
  match s with
  | String c (String d r) =>
      (Ascii.eqb c "." && Py.is_digit d)
      || ((Ascii.eqb c "e" || Ascii.eqb c "E")
          && (Py.is_digit d
              || ((Ascii.eqb d "+" || Ascii.eqb d "-")
                  && match r with String x _ => Py.is_digit x | EmptyString => false end)))
  | _ => false
  end.

Definition literal (word : string) (v : json) (s : string) : parsed json :=
  if String.prefix word s
  then Parsed v (String.substring (String.length word) (String.length s - String.length word) s)
  else Malformed.

(** A dictionary keeps one value per key, the last one read. *)
Fixpoint dict_set (k : string) (v : json) (members : list (string * json))
  : list (string * json) :=
  match members with
  | [] => [(k, v)]
  | (k', v') :: rest =>
      if String.eqb k k' then (k', v) :: rest else (k', v') :: dict_set k v rest
  end.

Fixpoint scan_once (fuel : nat) (s : string) : parsed json :=
  match fuel with
  | O => Outside
  | S fuel' =>
      match s with
      | EmptyString => Malformed
      | String c r =>
          if Ascii.eqb c DQUOTE then
            match scan_string (String.length s) r with
            | Parsed t rest => Parsed (JStr t) rest
            | Malformed => Malformed
            | Outside => Outside
            end
          else if Ascii.eqb c "{" then
            let r := skip_ws r in
            match r with
            | String c' r' =>
                if Ascii.eqb c' "}" then Parsed (JObj []) r'
                else scan_members fuel' r []
            | EmptyString => Malformed
            end
          else if Ascii.eqb c "[" then
            let r := skip_ws r in
            match r with
            | String c' r' =>
                if Ascii.eqb c' "]" then Parsed (JArr []) r'
                else scan_items fuel' r []
            | EmptyString => Malformed
            end
          else if Ascii.eqb c "n" then literal "null" JNull s
          else if Ascii.eqb c "t" then literal "true" (JBool true) s
          else if Ascii.eqb c "f" then literal "false" (JBool false) s
          else
            match integer_part s with
            | Some (n, rest) => if fraction_follows rest then Outside else Parsed (JInt n) rest
            | None =>
                if String.prefix "NaN" s || String.prefix "Infinity" s
                   || String.prefix "-Infinity" s
                then Outside else Malformed
            end
      end
  end
(** The members of an object from a key on; [acc] holds those read. *)
with scan_members (fuel : nat) (s : string) (acc : list (string * json)) : parsed json :=
  match fuel with
  | O => Outside
  | S fuel' =>
      match s with
      | String c r =>
          if Ascii.eqb c DQUOTE then
            match scan_string (String.length s) r with
            | Parsed k rest =>
                match skip_ws rest with
                | String colon rest' =>
                    if Ascii.eqb colon ":" then
                      match scan_once fuel' (skip_ws rest') with
                      | Parsed v rest'' =>
                          let acc := dict_set k v acc in
                          match skip_ws rest'' with
                          | String d after =>
                              if Ascii.eqb d "}" then Parsed (JObj acc) after
                              else if Ascii.eqb d "," then scan_members fuel' (skip_ws after) acc
                              else Malformed
                          | EmptyString => Malformed
                          end
                      | other => other
                      end
                    else Malformed
                | EmptyString => Malformed
                end
            | Malformed => Malformed
            | Outside => Outside
            end
          else Malformed
      | EmptyString => Malformed
      end
  end
(** The items of an array from a value on; [acc] holds those read. *)
with scan_items (fuel : nat) (s : string) (acc : list json) : parsed json :=
  match fuel with
  | O => Outside
  | S fuel' =>
      match scan_once fuel' s with
      | Parsed v rest =>
          let acc := (acc ++ [v])%list in
          match skip_ws rest with
          | String d after =>
              if Ascii.eqb d "]" then Parsed (JArr acc) after
              else if Ascii.eqb d "," then scan_items fuel' (skip_ws after) acc
              else Malformed
          | EmptyString => Malformed
          end
      | other => other
      end
  end.

(** [json.loads(s)]: [None] when the text lies outside the model. *)
Definition loads (s : string) : option (result json) :=
  match scan_once (2 * String.length s + 2) (skip_ws s) with
  | Parsed v rest =>
      match skip_ws rest with
      | EmptyString => Some (Ok v)
      | String _ _ => Some (Raise JSONDecodeError)
      end
  | Malformed => Some (Raise JSONDecodeError)
  | Outside => None
  end.

End Exif.

(** ** src/phockup.py

    The file system is a finite map from paths to regular files; creating
    and removing directories is left out.  A progress line of the log is an
    [event]. *)

Module Phockup.
Import Datetime.

Record file : Type := mk_file { content : string; st_mtime : Z }.

Definition st_size (f : file) : nat := String.length (content f).

#[global] Instance file_eq_dec : EqDecision file.
Proof. solve_decision. Defined.

Inductive file_kind : Type := Image | Video.

#[global] Instance file_kind_eq_dec : EqDecision file_kind.
Proof. solve_decision. Defined.

Inductive event : Type :=
| SkippedType (filename : string)            (* => skipped, file is .. but looking for .. *)
| SkippedUnknown (filename : string)         (* => skipped, unknown date EXIF information *)
| SkippedRange (filename : string)           (* => skipped: date .. is older/newer than .. *)
| SkippedMissing (filename : string)         (* => skipped, no such file or directory *)
| DeletedDuplicate (filename target : string)  (* => deleted, duplicated file .. *)
| SkippedDuplicate (filename target : string)  (* => skipped, duplicated file .. *)
| Transferred (filename target : string)     (* => target *)
| Companion (original target : string)       (* original => target *)
| CompanionExists (target : string).         (* Skipping companion copy, target exists *)

Definition MEDIA_EXTENSIONS : list string :=
  [".jpg"; ".jpeg"; ".jpe"; ".png"; ".gif"; ".bmp"; ".tif"; ".tiff";
   ".heic"; ".heif"; ".avif"; ".jxl"; ".dng"; ".cr2"; ".cr3"; ".nef";
   ".arw"; ".orf"; ".raf"; ".rw2"; ".srw"; ".pef"; ".mp4"; ".mov";
   ".m4v"; ".avi"; ".mts"; ".m2ts"; ".3gp"; ".mkv"].

Definition PAIRED_VIDEO_MAP : list (string * list string) :=
  [(".heic", [".mov"; ".mp4"]); (".heif", [".mov"; ".mp4"]); (".jpg", [".mov"; ".mp4"]);
   (".jpeg", [".mov"; ".mp4"]); (".dng", [".mov"; ".mp4"]); (".raf", [".mov"; ".mp4"])].

Definition SIDECAR_EXTENSIONS : list string := [".xmp"; ".aae"; ".json"].

Definition mem (x : string) (l : list string) : bool := existsb (String.eqb x) l.

(** The attributes of the object that the per-file code reads. *)
Record config : Type := mk_config {
  output_dir : string;
  output_prefix : option string;
  output_suffix : option string;
  no_date_dir : string;
  dir_format : string;
  move : bool;
  link : bool;
  original_filenames : bool;
  date_regex : option Date.regex;
  timestamp : bool;
  date_field : option string;
  skip_unknown : bool;
  movedel : bool;
  dry_run : bool;
  from_date : option datetime;
  to_date : option datetime;
  file_type : option file_kind
}.

(** The counters, the file system and the log. *)
Record state : Type := mk_state {
  fs : gmap string file;
  files_processed : Z;
  duplicates_found : Z;
  unknown_found : Z;
  files_moved : Z;
  files_copied : Z;
  log : list event
}.

Definition set_fs (st : state) (fs' : gmap string file) : state :=
  mk_state fs' (files_processed st) (duplicates_found st) (unknown_found st)
           (files_moved st) (files_copied st) (log st).

Definition add_log (st : state) (e : event) : state :=
  mk_state (fs st) (files_processed st) (duplicates_found st) (unknown_found st)
           (files_moved st) (files_copied st) (log st ++ [e])%list.

Definition incr_processed (st : state) : state :=
  mk_state (fs st) (files_processed st + 1) (duplicates_found st) (unknown_found st)
           (files_moved st) (files_copied st) (log st).

Definition incr_duplicates (st : state) : state :=
  mk_state (fs st) (files_processed st) (duplicates_found st + 1) (unknown_found st)
           (files_moved st) (files_copied st) (log st).

Definition incr_unknown (st : state) : state :=
  mk_state (fs st) (files_processed st) (duplicates_found st) (unknown_found st + 1)
           (files_moved st) (files_copied st) (log st).

Definition incr_moved (st : state) : state :=
  mk_state (fs st) (files_processed st) (duplicates_found st) (unknown_found st)
           (files_moved st + 1) (files_copied st) (log st).

Definition incr_copied (st : state) : state :=
  mk_state (fs st) (files_processed st) (duplicates_found st) (unknown_found st)
           (files_moved st) (files_copied st + 1) (log st).

(** *** File operations *)

Definition isfile (files : gmap string file) (path : string) : bool :=
  match files !! path with Some _ => true | None => false end.

(** [os.stat] *)
Definition stat (files : gmap string file) (path : string) : result file :=
  match files !! path with Some f => Ok f | None => Raise FileNotFoundError end.

(** [os.remove] *)
Definition remove (files : gmap string file) (path : string) : result (gmap string file) :=
  match files !! path with
  | Some _ => Ok (delete path files)
  | None => Raise FileNotFoundError
  end.

(** [shutil.move] to a path that is no directory: the file goes with its
    content and times. *)
Definition shutil_move (files : gmap string file) (src dst : string)
  : result (gmap string file) :=
  match files !! src with
  | Some f => Ok (<[dst := f]> (delete src files))
  | None => Raise FileNotFoundError
  end.

(** [Phockup.copy_file]: the content, then [shutil.copystat]. *)
Definition copy_file (files : gmap string file) (source destination : string)
  : result (gmap string file) :=
  match files !! source with
  | Some f => Ok (<[destination := f]> files)
  | None => Raise FileNotFoundError
  end.

(** [os.link] *)
Definition os_link (files : gmap string file) (src dst : string)
  : result (gmap string file) :=
  match files !! src with
  | Some f => Ok (<[dst := f]> files)
  | None => Raise FileNotFoundError
  end.

(** [filecmp.cmp(a, b, shallow=False)] on two regular files. *)
Definition filecmp (a b : file) : bool := String.eqb (content a) (content b).

(** *** [Phockup.get_file_type] *)

(** A literal at the head of [s] in which a dot stands for any character but
    the line feed; the rest of [s]. *)
Fixpoint dotted (pat s : string) : option string :=
  match pat with
  | EmptyString => Some s
  | String p pat' =>
      match s with
      | String c s' =>
          if (Ascii.eqb p "." && negb (Ascii.eqb c Py.LF)) || (negb (Ascii.eqb p ".") && Ascii.eqb p c)
          then dotted pat' s' else None
      | EmptyString => None
      end
  end.

(** The dollar sign: the end of the string, or just before a last line
    feed. *)
Definition at_end (s : string) : bool :=
  String.eqb s "" || String.eqb s (String Py.LF "").

(** At least [n] characters other than the line feed, then the end. *)
Fixpoint line_to_end (n : nat) (s : string) : bool :=
  match s with
  | String c s' =>
      if Ascii.eqb c Py.LF then (n =? 0)%nat && at_end s
      else line_to_end (Nat.pred n) s'
  | EmptyString => (n =? 0)%nat
  end.

Definition get_file_type (mimetype : string) : option file_kind :=
  let image :=
    match dotted "image/" mimetype with
    | Some r => line_to_end 1 r
    | None => false
    end
    || match dotted "application/vnd.adobe.photoshop" mimetype with
       | Some r => at_end r
       | None => false
       end in
  if image then Some Image
  else match dotted "video/" mimetype with
       | Some r => if line_to_end 0 r then Some Video else None
       | None => None
       end.

Definition should_inspect_exif (filename : string) : bool :=
  mem (Py.lower (snd (OsPath.splitext filename))) MEDIA_EXTENSIONS.

(** *** [Phockup.get_output_dir] and [Phockup.get_file_name]

    The date handed to them: [None], the empty list of a file that is no
    media, or the dictionary of the resolver. *)

Inductive date_arg : Type :=
| DateNone
| DateEmptyList
| DateDict (r : Date.ResolvedDate).

Definition somes (l : list (option string)) : list string := omap id l.

Definition get_output_dir (self : config) (date : date_arg) : result string :=
  let in_no_date_dir :=
    [Some (output_dir self); output_prefix self; Some (no_date_dir self); output_suffix self] in
  path ←
    match date with
    | DateNone | DateEmptyList => Ok in_no_date_dir        (* TypeError, caught *)
    | DateDict r =>
        match Date.date r with
        | Some t => Ok [Some (output_dir self); output_prefix self;
                        Some (strftime (dir_format self) t); output_suffix self]
        | None => Raise AttributeError
        end
    end;
  Ok (OsPath.normpath (Py.join OsPath.sep (somes path))).

Definition get_file_name (self : config) (original_filename : string) (date : date_arg)
  : result string :=
  if original_filenames self then Ok (OsPath.basename original_filename)
  else
    match date with
    | DateNone | DateEmptyList => Ok (OsPath.basename original_filename)   (* TypeError, caught *)
    | DateDict r =>
        match Date.date r with
        | Some t =>
            let filename :=
              [Py.fmt_d 4 (year t); Py.fmt_d 2 (month t); Py.fmt_d 2 (day t); "-";
               Py.fmt_d 2 (hour t); Py.fmt_d 2 (minute t); Py.fmt_d 2 (second t)] in
            let filename :=
              if Py.truthy (Date.subseconds r)
              then (filename ++ [Date.subseconds r])%list else filename in
            Ok (Py.join "" filename ++ snd (OsPath.splitext original_filename))
        | None => Raise AttributeError
        end
    end.

Section WithWorld.

(** [Exif(filename).data()]: the record of the file, if the tool gave one. *)
Variable exif_data_of : string -> option (gmap string json).

(** [datetime.fromtimestamp] *)
Variable fromtimestamp : Z -> datetime.

Definition mtime_datetime (files : gmap string file) (path : string) : result datetime :=
  f ← stat files path; Ok (fromtimestamp (st_mtime f)).

Definition date_arg_of (date : option Date.ResolvedDate) : date_arg :=
  match date with Some r => DateDict r | None => DateNone end.

(** *** [Phockup.get_file_name_and_path]

    Returns output, target_file_name, target_file_path, target_file_type and
    date. *)
Definition get_file_name_and_path (self : config) (files : gmap string file) (filename : string)
  : result (string * string * string * option file_kind * option Date.ResolvedDate) :=
  let exif_data := if should_inspect_exif filename then exif_data_of filename else None in
  target_file_type ←
    match exif_data with
    | Some exif =>
        match exif !! "MIMEType" with
        | Some (JStr mimetype) => Ok (get_file_type mimetype)
        | Some _ => Raise TypeError
        | None => Ok None
        end
    | None => Ok None
    end;
  '(output, target_file_name, date) ←
    match target_file_type, exif_data with
    | Some _, Some exif =>
        date ← Date.from_exif (mtime_datetime files) (Some filename) exif
                              (timestamp self) (date_regex self) (date_field self);
        output ← get_output_dir self (date_arg_of date);
        target_file_name ← get_file_name self filename (date_arg_of date);
        let target_file_name :=
          if original_filenames self then target_file_name else Py.lower target_file_name in
        Ok (output, target_file_name, date)
    | _, _ =>
        output ← get_output_dir self DateEmptyList;
        Ok (output, OsPath.basename filename, None)
    end;
  let target_file_path := Py.join OsPath.sep [output; target_file_name] in
  Ok (output, target_file_name, target_file_path, target_file_type, date).

(** *** [Phockup._transfer_companion] and [Phockup.process_sidecars] *)

Definition _transfer_companion (self : config) (st : state) (original target_path : string)
  : result state :=
  let st := add_log st (Companion original target_path) in
  if dry_run self then Ok st
  else if isfile (fs st) target_path then Ok (add_log st (CompanionExists target_path))
  else
    fs' ← (if move self then shutil_move (fs st) original target_path
           else if link self then os_link (fs st) original target_path
           else copy_file (fs st) original target_path);
    Ok (set_fs st fs').

(** The loops of [process_sidecars]: each candidate that is a file is
    transferred. *)
Fixpoint transfer_all (self : config) (st : state) (output : string)
    (candidates : list (string * string)) : result state :=
  match candidates with
  | [] => Ok st
  | (original, target) :: rest =>
      st ← (if isfile (fs st) original
            then _transfer_companion self st original (Py.join OsPath.sep [output; target])
            else Ok st);
      transfer_all self st output rest
  end.

Definition paired_exts (ext : string) : list string :=
  match List.find (fun p => String.eqb (fst p) ext) PAIRED_VIDEO_MAP with
  | Some (_, exts) => exts
  | None => []
  end.

Definition process_sidecars (self : config) (st : state)
    (original_filename file_name : string) (suffix : Z) (output : string) : result state :=
  let suffix_str := if 1 <? suffix then "-" ++ Py.str_of_nonneg suffix else "" in
  let base_no_ext := fst (OsPath.splitext original_filename) in
  let dest_base_no_ext := fst (OsPath.splitext file_name) in
  (* a dictionary: of two equal keys the second value stays *)
  let second := (base_no_ext ++ ".xmp", dest_base_no_ext ++ suffix_str ++ ".xmp") in
  let xmp_candidates :=
    if String.eqb (original_filename ++ ".xmp") (base_no_ext ++ ".xmp")
    then [second]
    else [(original_filename ++ ".xmp", file_name ++ suffix_str ++ ".xmp"); second] in
  st ← transfer_all self st output xmp_candidates;
  st ← transfer_all self st output
         (map (fun ext => (base_no_ext ++ ext, dest_base_no_ext ++ suffix_str ++ ext))
              SIDECAR_EXTENSIONS);
  let ext := Py.lower (snd (OsPath.splitext original_filename)) in
  transfer_all self st output
    (map (fun companion_ext =>
            (base_no_ext ++ companion_ext, dest_base_no_ext ++ suffix_str ++ companion_ext))
         (paired_exts ext)).

(** *** [Phockup.process_file] *)

(** The variable [file_date] of the loop: the result of the resolver, and
    from the first pass that reads it, the instant of that result. *)
Inductive file_date_var : Type :=
| FdNone
| FdDict (r : Date.ResolvedDate)
| FdInstant (t : option datetime).

(** The sizes agree and the times agree or the contents do. *)
Definition is_duplicate (source_stats target_stats : file) : bool :=
  (st_size source_stats =? st_size target_stats)%nat
  && ((st_mtime source_stats =? st_mtime target_stats)
      || filecmp source_stats target_stats).

(** [a < b] where [a] may be [None]: TypeError then. *)
Definition instant_lt (a : option datetime) (b : datetime) : result bool :=
  match a with Some t => Ok (dt_lt t b) | None => Raise TypeError end.

Definition instant_gt (a : option datetime) (b : datetime) : result bool :=
  match a with Some t => Ok (dt_lt b t) | None => Raise TypeError end.

(** One pass of the [while True] loop ends the loop or goes round again. *)
Inductive step : Type :=
| Break (st : state)
| Continue (file_date : file_date_var) (suffix : Z) (target_file : string).

Definition disambiguated (target_file_path : string) (suffix : Z) : string :=
  let target_split := OsPath.splitext target_file_path in
  fst target_split ++ "-" ++ Py.str_of_nonneg suffix ++ snd target_split.

(** The checks at the head of a pass: the file-type filter, the
    unknown-date filter and the date range.  They end the loop or let the
    pass go on, [file_date] then holding the instant. *)
Inductive filtered : Type :=
| Stop (st : state)
| Pass (file_date : file_date_var).

Definition filters (self : config) (filename output : string)
    (target_file_type : option file_kind) (st : state) (file_date : file_date_var)
  : result filtered :=
  if match file_type self with
     | Some wanted => negb (bool_decide (Some wanted = target_file_type))
     | None => false
     end
  then Ok (Stop (add_log st (SkippedType filename)))
  else
    let in_no_date_dir := Py.endswith output (no_date_dir self) in
    let date_unknown :=
      match file_date with FdNone | FdInstant None => true | _ => false end
      || in_no_date_dir in
    if skip_unknown self && in_no_date_dir
    then Ok (Stop (add_log (incr_unknown st) (SkippedUnknown filename)))
    else if negb date_unknown
    then
      let t := match file_date with
               | FdDict r => Date.date r
               | FdInstant t => t
               | FdNone => None
               end in
      older ← match from_date self with
              | Some bound => instant_lt t bound
              | None => Ok false
              end;
      newer ← match to_date self with
              | Some bound => instant_gt t bound
              | None => Ok false
              end;
      if older || newer then Ok (Stop (add_log st (SkippedRange filename)))
      else Ok (Pass (FdInstant t))
    else Ok (Pass file_date).

(** The rest of a pass: a file at the destination is a duplicate of the
    source, or the next name is tried; a free destination takes the file. *)
Definition place (self : config) (filename output target_file_name target_file_path : string)
    (st : state) (file_date : file_date_var) (suffix : Z) (target_file : string)
  : result step :=
  if isfile (fs st) target_file
  then
    match (source_stats ← stat (fs st) filename;
           target_stats ← stat (fs st) target_file;
           Ok (source_stats, target_stats)) with
    | Ok (source_stats, target_stats) =>
        if is_duplicate source_stats target_stats
        then
          if movedel self && move self && skip_unknown self
          then
            st' ← (if negb (dry_run self)
                   then fs' ← remove (fs st) filename; Ok (set_fs st fs')
                   else Ok st);
            Ok (Break (add_log (incr_duplicates st') (DeletedDuplicate filename target_file)))
          else
            Ok (Break (add_log (incr_duplicates st) (SkippedDuplicate filename target_file)))
        else
          Ok (Continue file_date (suffix + 1) (disambiguated target_file_path (suffix + 1)))
    | Raise FileNotFoundError => Ok (Break (add_log st (SkippedMissing filename)))
    | Raise e => Raise e
    end
  else
    let transferred (st : state) : result step :=
      st ← process_sidecars self (add_log st (Transferred filename target_file))
                            filename target_file_name suffix output;
      Ok (Break st) in
    let attempt (st : state) (action : result (gmap string file)) : result step :=
      match action with
      | Ok fs' => transferred (set_fs st fs')
      | Raise FileNotFoundError => Ok (Break (add_log st (SkippedMissing filename)))
      | Raise e => Raise e
      end in
    if move self
    then
      let st := incr_moved st in
      if negb (dry_run self) then attempt st (shutil_move (fs st) filename target_file)
      else transferred st
    else if link self && negb (dry_run self)
    then
      fs' ← os_link (fs st) filename target_file;
      transferred (set_fs st fs')
    else
      let st := incr_copied st in
      if negb (dry_run self) then attempt st (copy_file (fs st) filename target_file)
      else transferred st.

Definition loop_body (self : config) (filename output target_file_name target_file_path : string)
    (target_file_type : option file_kind)
    (st : state) (file_date : file_date_var) (suffix : Z) (target_file : string)
  : result step :=
  checked ← filters self filename output target_file_type st file_date;
  match checked with
  | Stop st' => Ok (Break st')
  | Pass file_date =>
      place self filename output target_file_name target_file_path st file_date suffix target_file
  end.

(** The loop, for at most [fuel] passes; [None] when they do not suffice. *)
Fixpoint loop (fuel : nat) (self : config)
    (filename output target_file_name target_file_path : string)
    (target_file_type : option file_kind)
    (st : state) (file_date : file_date_var) (suffix : Z) (target_file : string)
  : option (result state) :=
  match fuel with
  | O => None
  | S fuel' =>
      match loop_body self filename output target_file_name target_file_path
                      target_file_type st file_date suffix target_file with
      | Ok (Break st') => Some (Ok st')
      | Ok (Continue file_date' suffix' target_file') =>
          loop fuel' self filename output target_file_name target_file_path
               target_file_type st file_date' suffix' target_file'
      | Raise e => Some (Raise e)
      end
  end.

Definition process_file (fuel : nat) (self : config) (st : state) (filename : string)
  : option (result state) :=
  if Py.endswith filename ".xmp" then Some (Ok st)
  else
    match get_file_name_and_path self (fs st) filename with
    | Raise e => Some (Raise e)
    | Ok (output, target_file_name, target_file_path, target_file_type, file_date) =>
        let suffix := 1 in
        let target_file := target_file_path in
        match loop fuel self filename output target_file_name target_file_path
                   target_file_type st
                   (match file_date with Some r => FdDict r | None => FdNone end)
                   suffix target_file with
        | Some (Ok st') => Some (Ok (incr_processed st'))
        | other => other
        end
    end.

End WithWorld.

End Phockup.

(** ** src/exif.py: the class [Exif]

    The persistent session first, then one run of the tool for the file. *)

Module ExifData.
Import Exif.

Section WithTool.

(** [json.loads], [os.path.abspath] and [shlex.quote]. *)
Variable json_loads : string -> result json.
Variable abspath : string -> string.
Variable shlex_quote : string -> string.

(** [subprocess.Popen] of the worker: [None] when it raises OSError. *)
Variable popen : option process.

(** [check_output(command, shell=True).decode('UTF-8')]: [None] when the
    command fails (CalledProcessError) or its output is no UTF-8
    (UnicodeDecodeError). *)
Variable check_output : string -> option string.

(** [_ExiftoolSession()] *)
Definition _ExiftoolSession : session := mk_session popen 0.

(** The session of the module, [None] until it is first asked for: the
    session to use and the session of the module from then on. *)
Definition _get_persistent_session (_persistent_session : option session)
  : session * option session :=
  match _persistent_session with
  | Some s => (s, _persistent_session)
  | None => (_ExiftoolSession, Some _ExiftoolSession)
  end.

Definition get_exif_command (filename : string) : string :=
  "exiftool -fast2 -n -time:all -mimetype -j " ++ shlex_quote (abspath filename).

(** [exif is None]: no answer, or the JSON value null. *)
Definition is_none (exif : option json) : bool :=
  match exif with
  | None | Some JNull => true
  | Some _ => false
  end.

(** [self.filename] is the absolute path of the file. *)
Definition _data_fallback (self_filename : string) : result (option json) :=
  match check_output (get_exif_command self_filename) with
  | Some data =>
      match (v ← json_loads data; subscript0 v) with
      | Ok exif => Ok (Some exif)
      | Raise JSONDecodeError => Ok None
      | Raise e => Raise e
      end
  | None => Ok None
  end.

Definition _data_from_session (_persistent_session : option session) (self_filename : string)
  : result (option json) * option session :=
  let '(session, _) := _get_persistent_session _persistent_session in
  let '(exif, session) := fetch json_loads abspath shlex_quote session self_filename in
  (exif, Some session).

(** [Exif(filename).data()]: the record, and the session of the module
    after the call. *)
Definition data (_persistent_session : option session) (filename : string)
  : result (option json) * option session :=
  let self_filename := abspath filename in
  let '(exif, _persistent_session) := _data_from_session _persistent_session self_filename in
  match exif with
  | Ok found =>
      if is_none found then (_data_fallback self_filename, _persistent_session)
      else (Ok found, _persistent_session)
  | Raise e => (Raise e, _persistent_session)
  end.

End WithTool.

End ExifData.

(** ** src/phockup.py: the date range of the constructor

    The options from_date and to_date, when given, are read as the first
    and the last second of their day. *)

Module PhockupInit.
Import Datetime.

(** [Date.strptime(f"{self.from_date} 00:00:00", "%Y-%m-%d %H:%M:%S")] *)
Definition from_date (arg : option string) : result (option datetime) :=
  match arg with
  | Some s => t ← strptime (s ++ " 00:00:00") Date.layout_hyphen; Ok (Some t)
  | None => Ok None
  end.

(** [Date.strptime(f"{self.to_date} 23:59:59", "%Y-%m-%d %H:%M:%S")] *)
Definition to_date (arg : option string) : result (option datetime) :=
  match arg with
  | Some s => t ← strptime (s ++ " 23:59:59") Date.layout_hyphen; Ok (Some t)
  | None => Ok None
  end.

End PhockupInit.

(** * Properties *)

(** ** Strings *)

Module StringFacts.

#[local] Arguments String.append : simpl nomatch.

Lemma append_nil_r (s : string) : s ++ "" = s.
Proof. induction s as [|c s IH]; simpl; [reflexivity | now rewrite IH]. Qed.

Lemma append_assoc (a b c : string) : (a ++ b) ++ c = a ++ (b ++ c).
Proof. induction a as [|x a IH]; simpl; [reflexivity | now rewrite IH]. Qed.

(** Does [c] occur in [s]? *)
Fixpoint has_char (c : ascii) (s : string) : bool :=
  match s with
  | EmptyString => false
  | String a s' => Ascii.eqb a c || has_char c s'
  end.

Lemma has_char_app c a b : has_char c (a ++ b) = has_char c a || has_char c b.
Proof.
  induction a as [|x a IH]; simpl; [reflexivity|].
  rewrite IH. now rewrite orb_assoc.
Qed.

Lemma split_on_absent sep s : has_char sep s = false -> Py.split_on sep s = [s].
Proof.
  induction s as [|c s IH]; simpl; [reflexivity|].
  intros H. apply orb_false_iff in H as [Hc Hs].
  rewrite Hc, (IH Hs). reflexivity.
Qed.

Lemma split_on_first sep a b :
  has_char sep a = false ->
  Py.split_on sep (a ++ String sep b) = a :: Py.split_on sep b.
Proof.
  induction a as [|c a IH]; simpl.
  - intros _. now rewrite Ascii.eqb_refl.
  - intros H. apply orb_false_iff in H as [Hc Ha].
    rewrite Hc, (IH Ha). reflexivity.
Qed.

Lemma digit_code c : Py.is_digit c = true -> 48 <= Py.code c <= 57.
Proof. unfold Py.is_digit. intros H. apply andb_true_iff in H as [H1 H2]. lia. Qed.

Lemma digit_neq c (x : ascii) :
  Py.is_digit c = true -> Py.is_digit x = false -> Ascii.eqb c x = false.
Proof.
  intros Hc Hx. apply Ascii.eqb_neq. intros ->. congruence.
Qed.

Lemma digit_not_space c : Py.is_digit c = true -> Py.is_int_space c = false.
Proof.
  intros H. apply digit_code in H. unfold Py.is_int_space.
  repeat (apply orb_false_iff; split); try apply andb_false_iff; lia.
Qed.

End StringFacts.

(** ** The date resolver *)

Module DateFacts.
Import Datetime Date StringFacts.

#[local] Arguments String.append : simpl nomatch.

(** A signed HH:MM or HHMM offset, as a timestamp carries it. *)
Record offset_text : Type := mk_offset_text {
  ot_sign : ascii;
  ot_h1 : ascii; ot_h2 : ascii;
  ot_colon : bool;
  ot_m1 : ascii; ot_m2 : ascii
}.

Definition well_formed (o : offset_text) : bool :=
  is_sign (ot_sign o)
  && Py.is_digit (ot_h1 o) && Py.is_digit (ot_h2 o)
  && Py.is_digit (ot_m1 o) && Py.is_digit (ot_m2 o).

Definition colon_text (b : bool) : string := if b then ":" else "".

Definition render (o : offset_text) : string :=
  String (ot_sign o) (String (ot_h1 o) (String (ot_h2 o)
    (colon_text (ot_colon o) ++ String (ot_m1 o) (String (ot_m2 o) "")))).

Definition two (a b : ascii) : Z := 10 * Py.digit_val a + Py.digit_val b.

(** The duration the offset denotes: the sign applies to hours and minutes. *)
Definition seconds_of (o : offset_text) : timedelta :=
  timedelta_hm (sign_of (ot_sign o) * two (ot_h1 o) (ot_h2 o))
               (sign_of (ot_sign o) * two (ot_m1 o) (ot_m2 o)).

Definition groups_of (o : offset_text) : offset_groups :=
  mk_offset_groups (ot_sign o) (String (ot_h1 o) (String (ot_h2 o) ""))
                   (colon_text (ot_colon o)) (String (ot_m1 o) (String (ot_m2 o) "")).

Lemma well_formed_inv o :
  well_formed o = true ->
  is_sign (ot_sign o) = true /\ Py.is_digit (ot_h1 o) = true /\ Py.is_digit (ot_h2 o) = true
  /\ Py.is_digit (ot_m1 o) = true /\ Py.is_digit (ot_m2 o) = true.
Proof.
  unfold well_formed. intros H.
  repeat (apply andb_true_iff in H as [H ?]). auto.
Qed.

Lemma og_text_groups_of o : og_text (groups_of o) = render o.
Proof. destruct o as [sg h1 h2 [] m1 m2]; reflexivity. Qed.

Lemma int_two_digits a b :
  Py.is_digit a = true -> Py.is_digit b = true ->
  Py.int (String a (String b "")) = Ok (two a b).
Proof.
  intros Ha Hb. unfold Py.int. simpl.
  rewrite (digit_not_space a Ha). simpl. rewrite (digit_not_space b Hb).
  rewrite (digit_neq a "-" Ha eq_refl), (digit_neq a "+" Ha eq_refl).
  simpl. rewrite Ha, Hb. unfold two. f_equal. lia.
Qed.

Lemma offset_at_render o rest :
  well_formed o = true ->
  offset_at (render o ++ rest) = Some (groups_of o, rest).
Proof.
  intros H. apply well_formed_inv in H as (Hs & H1 & H2 & H3 & H4).
  destruct o as [sg h1 h2 c m1 m2]; simpl in *.
  unfold offset_at, render, groups_of; simpl.
  rewrite Hs, H1, H2. destruct c; simpl.
  - rewrite H3, H4. reflexivity.
  - rewrite (digit_neq m1 ":" H3 eq_refl), H3, H4. reflexivity.
Qed.

Lemma sign_not_digit c : is_sign c = true -> Py.is_digit c = false.
Proof.
  unfold is_sign. intros H. apply orb_true_iff in H as [H|H];
    apply Ascii.eqb_eq in H; subst; reflexivity.
Qed.

Lemma search_head {A : Type} (at_head : string -> option A) s a :
  at_head s = Some a -> search at_head s = Some a.
Proof. intros H. destruct s; simpl; now rewrite H. Qed.

Lemma render_truthy o : Py.truthy (render o) = true.
Proof. reflexivity. Qed.

Lemma parse_offset_render o :
  well_formed o = true ->
  _parse_offset (JStr (render o)) = Ok (Some (seconds_of o)).
Proof.
  intros H. unfold _parse_offset.
  assert (Hat := offset_at_render o "" H). rewrite append_nil_r in Hat.
  apply well_formed_inv in H as (Hs & H1 & H2 & H3 & H4).
  change (json_truthy (JStr (render o))) with true. cbv beta iota delta [negb].
  rewrite (search_head _ _ _ Hat). simpl.
  rewrite (int_two_digits _ _ H1 H2). simpl.
  rewrite (int_two_digits _ _ H3 H4). reflexivity.
Qed.

(** *** The definitions at work *)

Example parse_directory_format : parse "YYYY/MM/DD" = "%Y/%m/%d".
Proof. reflexivity. Qed.

Example strptime_colon_layout :
  strptime "2017:01:01 01:01:01" layout_colon = Ok (mk_datetime 2017 1 1 1 1 1 0).
Proof. reflexivity. Qed.

Example strptime_no_such_day : strptime "2017-02-29 01:01:01" layout_hyphen = Raise ValueError.
Proof. reflexivity. Qed.

Example parse_offset_west : _parse_offset (JStr "-0730") = Ok (Some (- 27000)).
Proof. reflexivity. Qed.

Example parse_offset_no_match : _parse_offset (JStr "Z") = Ok None.
Proof. reflexivity. Qed.

Example int_literals :
  Py.int " -1_0 " = Ok (- 10) /\ Py.int "+07" = Ok 7 /\ Py.int "1__0" = Raise ValueError
  /\ Py.int (String "028" "5") = Raise ValueError /\ Py.int (String "160" "5") = Ok 5.
Proof. repeat split. Qed.

Example parse_offset_number : _parse_offset (JInt 2) = Raise TypeError.
Proof. reflexivity. Qed.

Example offset_taken_off_the_text :
  sub group1 "2017-01-01 01:01:01-0700" = "2017-01-01 01:01:01"
  /\ sub group2 "2017-01-01 01:01:01-0700" = "-0700"
  /\ offset_search "2017-01-01 01:01:01" = false.
Proof. repeat split. Qed.

Example date_from_camera_name :
  pattern_date default_regex "IMG_20160915_123456.jpg"
  = Ok (Some (mk_datetime 2016 9 15 12 34 56 0)).
Proof. reflexivity. Qed.

Example no_thirteenth_month :
  pattern_date default_regex "IMG_20161315_123456.jpg" = Ok None.
Proof. reflexivity. Qed.

Example before_the_first_year :
  from_datestring "0001:01:01 00:00:00+02:00" = Raise OverflowError.
Proof. reflexivity. Qed.

(** *** Where the offset pattern matches *)

Fixpoint all_chars (p : ascii -> bool) (s : string) : bool :=
  match s with
  | EmptyString => true
  | String c s' => p c && all_chars p s'
  end.

Definition no_sign (s : string) : bool := all_chars (fun c => negb (is_sign c)) s.

Lemma offset_text_at_no_sign c s : is_sign c = false -> offset_text_at (String c s) = None.
Proof. intros H. unfold offset_text_at, offset_at. now rewrite H. Qed.

Lemma greedy_dot_no_sign s : no_sign s = true -> greedy_dot offset_text_at s = None.
Proof.
  induction s as [|c s IH]; [reflexivity|].
  unfold no_sign; simpl. intros H. apply andb_true_iff in H as [Hc Hs].
  apply negb_true_iff in Hc.
  rewrite (IH Hs), (offset_text_at_no_sign c s Hc).
  now destruct (Ascii.eqb c Py.LF).
Qed.

Lemma digit_not_sign c : Py.is_digit c = true -> is_sign c = false.
Proof.
  intros H. destruct (is_sign c) eqn:E; [|reflexivity].
  apply sign_not_digit in E. congruence.
Qed.

Lemma sign_not_LF c : is_sign c = true -> Ascii.eqb c Py.LF = false.
Proof.
  unfold is_sign. intros H. apply orb_true_iff in H as [H|H];
    apply Ascii.eqb_eq in H; subst; reflexivity.
Qed.

Lemma greedy_dot_fallback {A : Type} (tail : string -> option A) c s :
  Ascii.eqb c Py.LF = false -> greedy_dot tail s = None ->
  greedy_dot tail (String c s) = option_map (pair "") (tail (String c s)).
Proof. intros Hc Hs. cbn [greedy_dot]. now rewrite Hc, Hs. Qed.

(** The offset after its sign. *)
Definition render_tail (o : offset_text) : string :=
  String (ot_h1 o) (String (ot_h2 o)
    (colon_text (ot_colon o) ++ String (ot_m1 o) (String (ot_m2 o) ""))).

Lemma render_tail_no_sign o : well_formed o = true -> no_sign (render_tail o) = true.
Proof.
  intros H. apply well_formed_inv in H as (Hs & H1 & H2 & H3 & H4).
  unfold no_sign, render_tail.
  destruct (ot_colon o); simpl;
    rewrite (digit_not_sign _ H1), (digit_not_sign _ H2),
            (digit_not_sign _ H3), (digit_not_sign _ H4); reflexivity.
Qed.

(** At the head of the offset itself the pattern matches the whole offset
    with an empty first group: no later position starts a match. *)
Lemma offset_search_at_render o :
  well_formed o = true ->
  offset_search_at (render o) = Some ("", (render o, "")).
Proof.
  intros H. pose proof (offset_at_render o "" H) as Hat. rewrite append_nil_r in Hat.
  pose proof (well_formed_inv o H) as (Hs & _).
  assert (Hhere : offset_text_at (render o) = Some (render o, "")).
  { unfold offset_text_at. now rewrite Hat, og_text_groups_of. }
  unfold offset_search_at.
  change (render o) with (String (ot_sign o) (render_tail o)) at 1.
  rewrite (greedy_dot_fallback _ _ _ (sign_not_LF _ Hs)
             (greedy_dot_no_sign _ (render_tail_no_sign o H))).
  change (String (ot_sign o) (render_tail o)) with (render o).
  now rewrite Hhere.
Qed.

(** A trailing offset after a one-line text: the first group is the text,
    the second the offset, and nothing is left. *)
Lemma offset_search_at_trailing d o :
  has_char Py.LF d = false -> well_formed o = true ->
  offset_search_at (d ++ render o) = Some (d, (render o, "")).
Proof.
  intros Hd Ho. induction d as [|c d IH].
  - now apply offset_search_at_render.
  - simpl in Hd. apply orb_false_iff in Hd as [Hc Hd].
    unfold offset_search_at in *. simpl. rewrite Hc, (IH Hd). reflexivity.
Qed.

Lemma offset_search_trailing d o :
  has_char Py.LF d = false -> well_formed o = true ->
  offset_search (d ++ render o) = true.
Proof.
  intros Hd Ho. unfold offset_search.
  now rewrite (search_head _ _ _ (offset_search_at_trailing d o Hd Ho)).
Qed.

Lemma sub_fuel_empty n repl : sub_fuel n repl "" = "".
Proof. destruct n; reflexivity. Qed.

Lemma sub_trailing repl d o :
  has_char Py.LF d = false -> well_formed o = true ->
  sub repl (d ++ render o) = repl d (render o).
Proof.
  intros Hd Ho. unfold sub. cbn [sub_fuel].
  rewrite (offset_search_at_trailing d o Hd Ho), sub_fuel_empty.
  apply append_nil_r.
Qed.

(** *** The substitution never runs out of fuel *)

Lemma digits_split n : forall s m r, digits n s = Some (m, r) -> s = m ++ r.
Proof.
  induction n as [|n IH]; intros s m r H; simpl in H.
  - now injection H as <- <-.
  - destruct s as [|c s]; [discriminate|].
    destruct (Py.is_digit c); [|discriminate].
    destruct (digits n s) as [[m' r']|] eqn:E; [|discriminate].
    injection H as <- <-. simpl. now rewrite (IH _ _ _ E).
Qed.

Lemma offset_at_split s g rest : offset_at s = Some (g, rest) -> s = og_text g ++ rest.
Proof.
  unfold offset_at. destruct s as [|sg r0]; [discriminate|].
  destruct (is_sign sg); [|discriminate].
  destruct (digits 2 r0) as [[hh r1]|] eqn:Eh; [|discriminate].
  apply digits_split in Eh. subst r0.
  assert (Hplain : forall g rest,
            match digits 2 r1 with
            | Some (mm, r3) => Some (mk_offset_groups sg hh "" mm, r3)
            | None => None
            end = Some (g, rest) ->
            String sg (hh ++ r1) = og_text g ++ rest).
  { intros g' rest' H. destruct (digits 2 r1) as [[mm r3]|] eqn:Em; [|discriminate].
    injection H as <- <-. apply digits_split in Em. subst r1.
    unfold og_text. simpl. now rewrite !append_assoc. }
  destruct r1 as [|c r2]; [apply Hplain|].
  destruct (Ascii.eqb c ":") eqn:Ec; [|apply Hplain].
  destruct (digits 2 r2) as [[mm r3]|] eqn:Em; [|apply Hplain].
  intros [= <- <-]. apply digits_split in Em. subst r2.
  apply Ascii.eqb_eq in Ec. subst c.
  unfold og_text. simpl. now rewrite !append_assoc.
Qed.

Lemma greedy_dot_split {A : Type} (tail : string -> option A) : forall s g a,
  greedy_dot tail s = Some (g, a) -> exists r, s = g ++ r /\ tail r = Some a.
Proof.
  assert (Hhere : forall s g a, option_map (pair "") (tail s) = Some (g, a) ->
                                exists r, s = g ++ r /\ tail r = Some a).
  { intros s g a H. destruct (tail s) as [a'|] eqn:E; [|discriminate].
    injection H as <- <-. exists s. auto. }
  induction s as [|c s IH]; intros g a H; simpl in H.
  - now apply Hhere.
  - destruct (Ascii.eqb c Py.LF); [now apply Hhere|].
    destruct (greedy_dot tail s) as [[g' a']|] eqn:E; [|now apply Hhere].
    injection H as <- <-. destruct (IH _ _ eq_refl) as (r & -> & Hr).
    exists r. auto.
Qed.

Lemma length_append a b : String.length (a ++ b) = (String.length a + String.length b)%nat.
Proof. induction a as [|c a IH]; simpl; [reflexivity | now rewrite IH]. Qed.

(** A match of the pattern splits the text and is not empty. *)
Lemma offset_search_at_split s g1 g2 rest :
  offset_search_at s = Some (g1, (g2, rest)) ->
  s = g1 ++ g2 ++ rest /\ (String.length rest < String.length s)%nat.
Proof.
  unfold offset_search_at. intros H.
  apply greedy_dot_split in H as (r & -> & Hr).
  unfold offset_text_at in Hr. destruct (offset_at r) as [[g rest']|] eqn:E; [|discriminate].
  injection Hr as <- <-. apply offset_at_split in E. subst r.
  split; [reflexivity|]. rewrite !length_append. unfold og_text. simpl. lia.
Qed.

Lemma sub_fuel_enough repl : forall n m s,
  (String.length s < n)%nat -> (String.length s < m)%nat ->
  sub_fuel n repl s = sub_fuel m repl s.
Proof.
  induction n as [|n IH]; intros m s Hn Hm; [lia|].
  destruct m as [|m]; [lia|]. cbn [sub_fuel].
  destruct (offset_search_at s) as [[g1 [g2 rest]]|] eqn:E.
  - apply offset_search_at_split in E as [_ Hlen].
    f_equal. apply IH; lia.
  - destruct s as [|c s']; [reflexivity|]. simpl in Hn, Hm.
    f_equal. apply IH; lia.
Qed.

(** [re.sub] as the recursion it is: at a match the replacement, then the
    rest; elsewhere one character, then the rest. *)
Lemma sub_unfold repl s :
  sub repl s
  = match offset_search_at s with
    | Some (g1, (g2, rest)) => repl g1 g2 ++ sub repl rest
    | None =>
        match s with
        | String c s' => String c (sub repl s')
        | EmptyString => EmptyString
        end
    end.
Proof.
  unfold sub at 1. cbn [sub_fuel].
  destruct (offset_search_at s) as [[g1 [g2 rest]]|] eqn:E.
  - apply offset_search_at_split in E as [_ Hlen].
    f_equal. apply sub_fuel_enough; lia.
  - destruct s as [|c s']; [reflexivity|]. reflexivity.
Qed.

(** *** [from_datestring] on its two components *)

(** The instant of a date/time text read with no regard for offsets. *)
Definition naive (date : string) : result (option datetime) :=
  parse_layouts date [layout_colon; layout_hyphen].

(** The instant moved by the recorded offset, as [from_datestring] does it:
    a zero offset moves nothing. *)
Definition minus_offset (t : option datetime) (off : option timedelta)
  : result (option datetime) :=
  match t, off with
  | Some t, Some d => if td_truthy d then t' ← sub_timedelta t d; Ok (Some t') else Ok (Some t)
  | _, _ => Ok t
  end.

Definition resolved_with (date subseconds : string) (off : option timedelta)
  : result ResolvedDate :=
  t ← naive date;
  t' ← minus_offset t off;
  Ok (mk_resolved t' subseconds off).

(** What [from_datestring] does once the string is split. *)
Definition resolve_parts (date subseconds : string) : result ResolvedDate :=
  '(date, off) ←
    (if offset_search date
     then off ← _parse_offset (JStr (sub group2 date)); Ok (sub group1 date, off)
     else Ok (date, None));
  '(subseconds, off) ←
    (if offset_search subseconds
     then found ← _parse_offset (JStr (sub group2 subseconds));
          Ok (sub group1 subseconds, or_else found off)
     else Ok (subseconds, off));
  resolved_with date subseconds off.

Lemma from_datestring_no_dot date :
  has_char "." date = false ->
  from_datestring date = resolve_parts date "".
Proof.
  intros H. unfold from_datestring. rewrite (split_on_absent _ _ H). reflexivity.
Qed.

Lemma from_datestring_dot date subseconds :
  has_char "." date = false -> has_char "." subseconds = false ->
  from_datestring (date ++ String "." subseconds) = resolve_parts date subseconds.
Proof.
  intros Hd Hs. unfold from_datestring.
  rewrite (split_on_first _ _ _ Hd), (split_on_absent _ _ Hs). reflexivity.
Qed.

Lemma render_no_dot o : well_formed o = true -> has_char "." (render o) = false.
Proof.
  intros H. apply well_formed_inv in H as (Hs & H1 & H2 & H3 & H4).
  assert (Hsd : Ascii.eqb (ot_sign o) "." = false).
  { unfold is_sign in Hs. apply orb_true_iff in Hs as [E|E];
      apply Ascii.eqb_eq in E; rewrite E; reflexivity. }
  unfold render. destruct (ot_colon o); simpl;
    rewrite Hsd, (digit_neq _ "." H1 eq_refl), (digit_neq _ "." H2 eq_refl),
            (digit_neq _ "." H3 eq_refl), (digit_neq _ "." H4 eq_refl); reflexivity.
Qed.

Lemma no_dot_trailing d o :
  has_char "." d = false -> well_formed o = true -> has_char "." (d ++ render o) = false.
Proof. intros Hd Ho. now rewrite has_char_app, Hd, (render_no_dot o Ho). Qed.

(** The four shapes of a timestamp: an offset after the date/time text or
    not, an offset after the sub-second digits or not. *)
Lemma resolve_parts_offsets d s o1 o2 :
  has_char Py.LF d = false -> has_char Py.LF s = false ->
  well_formed o1 = true -> well_formed o2 = true ->
  resolve_parts (d ++ render o1) (s ++ render o2)
  = resolved_with d s (or_else (Some (seconds_of o2)) (Some (seconds_of o1))).
Proof.
  intros Hd Hs H1 H2. unfold resolve_parts.
  rewrite (offset_search_trailing d o1 Hd H1), (offset_search_trailing s o2 Hs H2).
  rewrite !(sub_trailing _ d o1 Hd H1), !(sub_trailing _ s o2 Hs H2).
  unfold group1, group2.
  rewrite (parse_offset_render o1 H1), (parse_offset_render o2 H2). reflexivity.
Qed.

Lemma resolve_parts_primary d s o1 :
  has_char Py.LF d = false -> well_formed o1 = true -> offset_search s = false ->
  resolve_parts (d ++ render o1) s = resolved_with d s (Some (seconds_of o1)).
Proof.
  intros Hd H1 Hs. unfold resolve_parts.
  rewrite (offset_search_trailing d o1 Hd H1), Hs.
  rewrite !(sub_trailing _ d o1 Hd H1). unfold group1, group2.
  rewrite (parse_offset_render o1 H1). reflexivity.
Qed.

Lemma resolve_parts_subseconds d s o2 :
  offset_search d = false -> has_char Py.LF s = false -> well_formed o2 = true ->
  resolve_parts d (s ++ render o2) = resolved_with d s (or_else (Some (seconds_of o2)) None).
Proof.
  intros Hd Hs H2. unfold resolve_parts.
  rewrite Hd, (offset_search_trailing s o2 Hs H2).
  rewrite !(sub_trailing _ s o2 Hs H2). unfold group1, group2.
  rewrite (parse_offset_render o2 H2). reflexivity.
Qed.

(** *** The scan of the candidate fields *)

Lemma scan_none exif keys :
  scan exif keys = None <-> Forall (fun k => usable (exif !! k) = None) keys.
Proof.
  induction keys as [|k keys IH]; simpl.
  - split; [constructor | reflexivity].
  - destruct (usable (exif !! k)) eqn:E.
    + split; [discriminate | intros H; inversion H; congruence].
    + rewrite IH. split; [now constructor | intros H; now inversion H].
Qed.










(** *** Offsets in the timestamp *)

Definition t_2017 : datetime := mk_datetime 2017 1 1 1 1 1 0.

(** A trailing offset after the date/time text alone is recorded and
    subtracted, be it zero or not. *)
Lemma primary_offset_recorded d o :
  has_char "." d = false -> has_char Py.LF d = false -> well_formed o = true ->
  from_datestring (d ++ render o) = resolved_with d "" (Some (seconds_of o)).
Proof.
  intros Hdot Hlf Ho.
  rewrite (from_datestring_no_dot _ (no_dot_trailing d o Hdot Ho)).
  now apply resolve_parts_primary.
Qed.

(** A non-zero trailing offset after the sub-second digits, the date/time
    text carrying none, is recorded and subtracted. *)
Lemma subsecond_offset_recorded d s o :
  has_char "." d = false -> offset_search d = false ->
  has_char "." s = false -> has_char Py.LF s = false ->
  well_formed o = true -> seconds_of o <> 0 ->
  from_datestring (d ++ String "." (s ++ render o)) = resolved_with d s (Some (seconds_of o)).
Proof.
  intros Hd Hnone Hs Hlf Ho Hnz.
  rewrite (from_datestring_dot _ _ Hd (no_dot_trailing s o Hs Ho)).
  rewrite (resolve_parts_subseconds d s o Hnone Hlf Ho).
  unfold or_else, td_truthy. apply Z.eqb_neq in Hnz. now rewrite Hnz.
Qed.

(** Once the string carried an offset that was recorded, [from_exif] leaves
    the time-zone fields of the record alone. *)
Lemma recorded_offset_not_reapplied mt self exif timestamp user_regex date_field s t sub off :
  scan exif (keys_of date_field) = Some s ->
  Py.truthy s = true -> Py.startswith s "0000" = false ->
  from_datestring s = Ok (mk_resolved (Some t) sub (Some off)) ->
  from_exif mt self exif timestamp user_regex date_field
  = Ok (Some (mk_resolved (Some t) sub (Some off))).
Proof.
  intros Hscan Ht Hz Hfd. unfold from_exif.
  rewrite Hscan, Ht, Hz, Hfd. reflexivity.
Qed.

(** C1. At the timestamp 2017:01:01 01:01:01.123+00:00 the offset after the
    sub-second digits is lost: [from_datestring] returns the naive instant
    with no offset recorded, and [from_exif] then subtracts the record's
    OffsetTimeOriginal of two hours from an instant that already carried its
    own offset.  With the same offset after the date/time text the record's
    field is left alone. *)
Theorem zero_subsecond_offset_applied_twice :
  let exif (datestr : string) : gmap string json :=
    <["OffsetTimeOriginal" := JStr "+02:00"]> {[ "CreateDate" := JStr datestr ]} in
  naive "2017:01:01 01:01:01" = Ok (Some t_2017)
  /\ from_datestring "2017:01:01 01:01:01.123+00:00" = Ok (mk_resolved (Some t_2017) "123" None)
  /\ (forall mt self timestamp user_regex,
        from_exif mt self (exif "2017:01:01 01:01:01.123+00:00") timestamp user_regex None
        = Ok (Some (mk_resolved (Some (mk_datetime 2016 12 31 23 1 1 0)) "123" (Some 7200))))
  /\ (forall mt self timestamp user_regex,
        from_exif mt self (exif "2017:01:01 01:01:01+00:00.123") timestamp user_regex None
        = Ok (Some (mk_resolved (Some t_2017) "123" (Some 0)))).
Proof.
  intros exif. repeat split; intros; vm_compute; reflexivity.
Qed.

(** C9. A well-formed offset of value zero after the sub-second digits is
    dropped: with an offset after the date/time text, that one is recorded
    and subtracted; with none there, no offset is recorded and the instant is
    the naive one. *)
Theorem zero_subsecond_offset_discarded d s o2 :
  has_char "." d = false -> has_char "." s = false -> has_char Py.LF s = false ->
  well_formed o2 = true -> seconds_of o2 = 0 ->
  (forall o1, has_char Py.LF d = false -> well_formed o1 = true ->
     from_datestring ((d ++ render o1) ++ String "." (s ++ render o2))
     = resolved_with d s (Some (seconds_of o1)))
  /\ (offset_search d = false ->
      from_datestring (d ++ String "." (s ++ render o2))
      = (t ← naive d; Ok (mk_resolved t s None))).
Proof.
  intros Hd Hs Hlf H2 Hz. split.
  - intros o1 Hdlf H1.
    rewrite (from_datestring_dot _ _ (no_dot_trailing d o1 Hd H1) (no_dot_trailing s o2 Hs H2)).
    rewrite (resolve_parts_offsets d s o1 o2 Hdlf Hlf H1 H2).
    unfold or_else, td_truthy. now rewrite Hz.
  - intros Hnone.
    rewrite (from_datestring_dot _ _ Hd (no_dot_trailing s o2 Hs H2)).
    rewrite (resolve_parts_subseconds d s o2 Hnone Hlf H2).
    unfold or_else, td_truthy. rewrite Hz. simpl.
    unfold resolved_with. destruct (naive d) as [[t|]|e]; reflexivity.
Qed.

Definition plus_0000 : offset_text := mk_offset_text "+" "0" "0" true "0" "0".
Definition minus_0000 : offset_text := mk_offset_text "-" "0" "0" false "0" "0".
Definition plus_0200 : offset_text := mk_offset_text "+" "0" "2" true "0" "0".
Definition plus_0300 : offset_text := mk_offset_text "+" "0" "3" true "0" "0".

Lemma zero_subsecond_offset_discarded_witness :
  from_datestring "2017:01:01 01:01:01+02:00.123-0000"
  = Ok (mk_resolved (Some (mk_datetime 2016 12 31 23 1 1 0)) "123" (Some 7200))
  /\ from_datestring "2017:01:01 01:01:01.123-0000"
     = Ok (mk_resolved (Some t_2017) "123" None).
Proof.
  destruct (zero_subsecond_offset_discarded "2017:01:01 01:01:01" "123" minus_0000
              eq_refl eq_refl eq_refl eq_refl eq_refl) as [Hboth Hsub].
  split.
  - exact (Hboth plus_0200 eq_refl eq_refl).
  - exact (Hsub eq_refl).
Defined.

(** C2, as the code has it.  When both the date/time text and the sub-second
    digits carry a trailing offset and the latter is not zero, the offset
    after the sub-second digits is the one recorded and subtracted. *)
Theorem subsecond_offset_takes_precedence d s o1 o2 :
  has_char "." d = false -> has_char Py.LF d = false ->
  has_char "." s = false -> has_char Py.LF s = false ->
  well_formed o1 = true -> well_formed o2 = true ->
  seconds_of o2 <> 0 ->
  from_datestring ((d ++ render o1) ++ String "." (s ++ render o2))
  = resolved_with d s (Some (seconds_of o2)).
Proof.
  intros Hd Hdlf Hs Hslf H1 H2 Hnz.
  rewrite (from_datestring_dot _ _ (no_dot_trailing d o1 Hd H1) (no_dot_trailing s o2 Hs H2)).
  rewrite (resolve_parts_offsets d s o1 o2 Hdlf Hslf H1 H2).
  unfold or_else, td_truthy. apply Z.eqb_neq in Hnz. now rewrite Hnz.
Qed.

Lemma subsecond_offset_takes_precedence_witness :
  from_datestring "2017:01:01 01:01:01+02:00.123+03:00"
  = Ok (mk_resolved (Some (mk_datetime 2016 12 31 22 1 1 0)) "123" (Some 10800)).
Proof.
  exact (subsecond_offset_takes_precedence "2017:01:01 01:01:01" "123" plus_0200 plus_0300
           eq_refl eq_refl eq_refl eq_refl eq_refl eq_refl ltac:(discriminate)).
Defined.

(** C2 as stated fails: at 2017:01:01 01:01:01+02:00.123+03:00 both
    components carry an offset and the one of the date/time text, two hours,
    is present; yet three hours are recorded and subtracted. *)
Lemma primary_offset_does_not_win :
  _parse_offset (JStr "+02:00") = Ok (Some 7200)
  /\ exists r,
       from_datestring "2017:01:01 01:01:01+02:00.123+03:00" = Ok r
       /\ offset r = Some 10800
       /\ offset r <> Some 7200
       /\ date r = Some (mk_datetime 2016 12 31 22 1 1 0)
       /\ date r <> Some (mk_datetime 2016 12 31 23 1 1 0).
Proof.
  split; [reflexivity|].
  eexists. split; [vm_compute; reflexivity|].
  repeat split; simpl; congruence.
Qed.

(** *** Dates from file names *)

Lemma digits_spec n : forall s m r,
  digits n s = Some (m, r) -> all_chars Py.is_digit m = true /\ String.length m = n.
Proof.
  induction n as [|n IH]; intros s m r H; simpl in H.
  - injection H as <- _. split; reflexivity.
  - destruct s as [|c s]; [discriminate|].
    destruct (Py.is_digit c) eqn:Ec; [|discriminate].
    destruct (digits n s) as [[m' r']|] eqn:E; [|discriminate].
    injection H as <- _. destruct (IH _ _ _ E) as [H1 H2].
    split; simpl; [now rewrite Ec, H1 | now rewrite H2].
Qed.

Lemma lstrip_digits m :
  all_chars Py.is_digit m = true -> Py.lstrip_by Py.is_int_space m = m.
Proof.
  destruct m as [|c m]; [reflexivity|]. simpl. intros H.
  apply andb_true_iff in H as [Hc _]. now rewrite (digit_not_space c Hc).
Qed.

Lemma rstrip_digits m :
  all_chars Py.is_digit m = true -> Py.rstrip_by Py.is_int_space m = m.
Proof.
  induction m as [|c m IH]; [reflexivity|]. simpl. intros H.
  apply andb_true_iff in H as [Hc Hm]. rewrite (IH Hm), (digit_not_space c Hc).
  now destruct m.
Qed.

Lemma digit_val_range c : Py.is_digit c = true -> 0 <= Py.digit_val c <= 9.
Proof. intros H. apply digit_code in H. unfold Py.digit_val. lia. Qed.

Lemma int_digits_bound : forall s acc b,
  all_chars Py.is_digit s = true -> (b = true \/ s <> "") -> 0 <= acc ->
  exists v, Py.int_digits acc b s = Some v
            /\ 0 <= v < (acc + 1) * 10 ^ Z.of_nat (String.length s).
Proof.
  induction s as [|c s IH]; intros acc b Hs Hb Hacc.
  - destruct Hb as [-> | Hb]; [|congruence]. exists acc. simpl. split; [reflexivity | lia].
  - simpl in Hs. apply andb_true_iff in Hs as [Hc Hs]. simpl Py.int_digits. rewrite Hc.
    pose proof (digit_val_range c Hc) as Hv.
    destruct (IH (acc * 10 + Py.digit_val c) true Hs (or_introl eq_refl)) as (v & Ev & Hr); [lia|].
    exists v. split; [exact Ev|].
    replace (Z.of_nat (String.length (String c s))) with (Z.succ (Z.of_nat (String.length s)))
      by (simpl; lia).
    rewrite Z.pow_succ_r by lia.
    assert (0 < 10 ^ Z.of_nat (String.length s)) by (apply Z.pow_pos_nonneg; lia).
    nia.
Qed.

Lemma int_of_digits m :
  all_chars Py.is_digit m = true -> m <> "" ->
  exists v, Py.int m = Ok v /\ 0 <= v < 10 ^ Z.of_nat (String.length m).
Proof.
  intros Hm Hne. unfold Py.int.
  rewrite (lstrip_digits m Hm), (rstrip_digits m Hm).
  destruct m as [|c m]; [congruence|].
  pose proof Hm as Hm'. simpl in Hm'. apply andb_true_iff in Hm' as [Hc _].
  rewrite (digit_neq c "-" Hc eq_refl), (digit_neq c "+" Hc eq_refl).
  destruct (int_digits_bound (String c m) 0 false Hm (or_intror Hne)) as (v & Ev & Hr); [lia|].
  rewrite Ev. exists v. split; [reflexivity | lia].
Qed.

(** Groups that are one to four digits each, as a pattern over digits of a
    camera file name yields them. *)
Definition short_digits (x : option string) : Prop :=
  forall ds, x = Some ds ->
    all_chars Py.is_digit ds = true /\ ds <> "" /\ (String.length ds <= 4)%nat.

Definition small (v : Z) : Prop := 0 <= v < 10000.

Lemma small_fits v : small v -> fits_c_int v = true.
Proof. unfold small, fits_c_int. intros H. apply andb_true_iff. split; lia. Qed.

Lemma ints_of_short m :
  Forall (fun g => short_digits (snd g)) m ->
  exists l, ints_of (groupdict "0" m) = Ok l /\ Forall (fun p => small (snd p)) l.
Proof.
  induction m as [|[a x] m IH]; intros H.
  - exists []. split; [reflexivity | constructor].
  - inversion H as [|? ? Hx Hm]; subst. destruct (IH Hm) as (l & El & Hl).
    assert (Hint : exists v, Py.int (from_option id "0" x) = Ok v /\ small v).
    { destruct x as [ds|]; simpl.
      - destruct (Hx ds eq_refl) as (Hd & Hne & Hlen).
        destruct (int_of_digits ds Hd Hne) as (v & Ev & Hr).
        exists v. split; [exact Ev|]. unfold small. split; [lia|].
        eapply Z.lt_le_trans; [apply Hr|].
        change 10000 with (10 ^ 4). apply Z.pow_le_mono_r; lia.
      - exists 0. split; [reflexivity | unfold small; lia]. }
    destruct Hint as (v & Ev & Hv).
    exists ((a, v) :: l).
    change (groupdict "0" ((a, x) :: m)) with ((a, from_option id "0" x) :: groupdict "0" m).
    cbn [ints_of]. rewrite Ev, El. cbn [mbind result_bind].
    split; [reflexivity | constructor; auto].
Qed.

Lemma lookup_small (l : list (string * Z)) k v :
  Forall (fun p => small (snd p)) l ->
  (list_to_map l : gmap string Z) !! k = Some v -> small v.
Proof.
  intros Hl Hk. apply elem_of_list_to_map_2 in Hk.
  rewrite Forall_forall in Hl. exact (Hl (k, v) Hk).
Qed.

Lemma get_or_zero_small (l : list (string * Z)) k :
  Forall (fun p => small (snd p)) l -> small (get_or_zero (list_to_map l) k).
Proof.
  intros Hl. unfold get_or_zero.
  destruct ((list_to_map l : gmap string Z) !! k) as [v|] eqn:E; [|unfold small; lia].
  destruct (v =? 0); [unfold small; lia | eapply lookup_small; eauto].
Qed.

Lemma build_small (l : list (string * Z)) :
  Forall (fun p => small (snd p)) l ->
  build (list_to_map l) = Raise KeyError
  \/ build (list_to_map l) = Raise ValueError
  \/ exists t, build (list_to_map l) = Ok t.
Proof.
  intros Hl. unfold build, getitem.
  destruct ((list_to_map l : gmap string Z) !! "year") as [y|] eqn:Ey; [|now left].
  destruct ((list_to_map l : gmap string Z) !! "month") as [m|] eqn:Em; [|now left].
  destruct ((list_to_map l : gmap string Z) !! "day") as [d|] eqn:Ed; [|now left].
  cbn [mbind result_bind]. unfold datetime_new.
  cbn [forallb].
  rewrite (small_fits y (lookup_small l _ _ Hl Ey)), (small_fits m (lookup_small l _ _ Hl Em)),
          (small_fits d (lookup_small l _ _ Hl Ed)),
          !(small_fits _ (get_or_zero_small l _ Hl)).
  cbn [andb].
  match goal with |- context [if ?b then _ else _] => destruct b end; eauto.
Qed.

(** A pattern whose groups are short runs of digits never makes
    [pattern_date] raise. *)
Lemma pattern_date_short (rx : regex) name :
  (forall m, rx name = Some m -> Forall (fun g => short_digits (snd g)) m) ->
  exists found, pattern_date rx name = Ok found.
Proof.
  intros H. unfold pattern_date. destruct (rx name) as [m|]; [|eauto].
  destruct (ints_of_short m (H m eq_refl)) as (l & El & Hl).
  rewrite El. cbn [mbind result_bind].
  destruct (build_small l Hl) as [E | [E | [t E]]]; rewrite E; eauto.
Qed.

Lemma greedy_dot_inv {A : Type} (tail : string -> option A) : forall s g a,
  greedy_dot tail s = Some (g, a) -> exists r, tail r = Some a.
Proof.
  assert (Hhere : forall s g a, option_map (pair "") (tail s) = Some (g, a) ->
                                exists r, tail r = Some a).
  { intros s g a H. destruct (tail s) as [a'|] eqn:E; [|discriminate].
    injection H as _ <-. eauto. }
  induction s as [|c s IH]; intros g a H; simpl in H.
  - eauto.
  - destruct (Ascii.eqb c Py.LF); [eauto|].
    destruct (greedy_dot tail s) as [[g' a']|] eqn:E; [|eauto].
    injection H as _ <-. eauto.
Qed.

Lemma search_inv {A : Type} (at_head : string -> option A) : forall s a,
  search at_head s = Some a -> exists r, at_head r = Some a.
Proof.
  induction s as [|c s IH]; intros a H; simpl in H.
  - destruct (at_head "") eqn:E; [injection H as <-; eauto | discriminate].
  - destruct (at_head (String c s)) eqn:E; [injection H as <-; eauto | eauto].
Qed.

Lemma short_digits_of n s m r :
  digits n s = Some (m, r) -> (0 < n <= 4)%nat -> short_digits (Some m).
Proof.
  intros H Hn ds [= <-]. destruct (digits_spec n s m r H) as [Hd Hl].
  repeat split; [exact Hd | | lia].
  intros ->. simpl in Hl. lia.
Qed.

Lemma stamp_at_short s m :
  stamp_at s = Some m -> Forall (fun g => short_digits (snd g)) m.
Proof.
  unfold stamp_at. intros H.
  destruct s as [|c r0]; [discriminate|].
  destruct (one_of "_-" c); [|discriminate].
  destruct (digits 4 r0) as [[y r1]|] eqn:Ey; [|discriminate]. cbn [mbind option_bind] in H.
  destruct (digits 2 r1) as [[mo r2]|] eqn:Emo; [|discriminate]. cbn [mbind option_bind] in H.
  destruct (digits 2 r2) as [[d r3]|] eqn:Ed; [|discriminate]. cbn [mbind option_bind] in H.
  assert (Htime : forall r m',
    ('(hour, r4) ← digits 2 r;
     '(minute, r5) ← digits 2 r4;
     '(second, _) ← digits 2 r5;
     Some [("year", Some y); ("month", Some mo); ("day", Some d);
           ("hour", Some hour); ("minute", Some minute); ("second", Some second)]) = Some m' ->
    Forall (fun g => short_digits (snd g)) m').
  { intros r m' Hm.
    destruct (digits 2 r) as [[h r4]|] eqn:Eh; [|discriminate]. cbn [mbind option_bind] in Hm.
    destruct (digits 2 r4) as [[mi r5]|] eqn:Emi; [|discriminate]. cbn [mbind option_bind] in Hm.
    destruct (digits 2 r5) as [[se r6]|] eqn:Ese; [|discriminate]. cbn [mbind option_bind] in Hm.
    injection Hm as <-.
    repeat (apply List.Forall_cons; [simpl; eapply short_digits_of; eauto; lia|]).
    apply List.Forall_nil. }
  destruct r3 as [|c' r3'].
  - eapply Htime; eauto.
  - destruct (one_of "_-" c').
    + match type of H with
      | match ?x with _ => _ end = _ => destruct x eqn:E
      end; [injection H as <-; eapply Htime; eauto | eapply Htime; eauto].
    + eapply Htime; eauto.
Qed.

Lemma default_regex_short name m :
  default_regex name = Some m -> Forall (fun g => short_digits (snd g)) m.
Proof.
  unfold default_regex. intros H.
  apply search_inv in H as (r & H).
  destruct (greedy_dot stamp_at r) as [[g a]|] eqn:E; [|discriminate].
  injection H as <-. apply greedy_dot_inv in E as (r' & E).
  eapply stamp_at_short; eauto.
Qed.

(** With the default pattern the file name never makes the resolver raise. *)
Lemma pattern_date_default_total name :
  exists found, pattern_date default_regex name = Ok found.
Proof. apply pattern_date_short. intros m. apply default_regex_short. Qed.

(** *** No date anywhere *)

(** A file system in which no file has a modification time. *)
Definition no_files : string -> result datetime := fun _ => Raise FileNotFoundError.

Lemma from_exif_unusable mt self exif timestamp user_regex date_field :
  Forall (fun k => usable (exif !! k) = None) (keys_of date_field) ->
  from_exif mt self exif timestamp user_regex date_field
  = match self with
    | Some f => if Py.truthy f then from_filename mt f user_regex timestamp
                else Ok (Some unknown_date)
    | None => Ok (Some unknown_date)
    end.
Proof.
  intros H. apply scan_none in H. unfold from_exif. rewrite H. reflexivity.
Qed.




End DateFacts.

(** ** The per-file pipeline *)

Module PhockupFacts.
Import Datetime Phockup StringFacts.
Import DateFacts (t_2017).

#[local] Arguments String.append : simpl nomatch.

(** *** The definitions at work *)

Example splitext_last_dot : OsPath.splitext "/in/a.tar.gz" = ("/in/a.tar", ".gz").
Proof. reflexivity. Qed.

Example splitext_leading_dot : OsPath.splitext "/in/.profile" = ("/in/.profile", "").
Proof. reflexivity. Qed.

Example normpath_folds : OsPath.normpath "/out//a/../b/./c/" = "/out/b/c".
Proof. reflexivity. Qed.

Example mime_types :
  get_file_type "image/jpeg" = Some Image /\ get_file_type "video/mp4" = Some Video
  /\ get_file_type "application/vnd.adobe.photoshop" = Some Image
  /\ get_file_type "image/" = None /\ get_file_type "text/plain" = None.
Proof. repeat split. Qed.

Example second_name : disambiguated "/out/2017/01/01/20170101-010101.jpg" 2
                      = "/out/2017/01/01/20170101-010101-2.jpg".
Proof. reflexivity. Qed.

(** *** The skip check *)


(** *** Duplicates *)






(** *** Counters and transfers *)

(** Two states that differ in the log at most. *)
Definition same_but_log (st st' : state) : Prop :=
  fs st' = fs st
  /\ files_processed st' = files_processed st
  /\ duplicates_found st' = duplicates_found st
  /\ unknown_found st' = unknown_found st
  /\ files_moved st' = files_moved st
  /\ files_copied st' = files_copied st.

Lemma same_but_log_refl st : same_but_log st st.
Proof. repeat split. Qed.

Lemma same_but_log_trans a b c : same_but_log a b -> same_but_log b c -> same_but_log a c.
Proof.
  unfold same_but_log. intros (?&?&?&?&?&?) (?&?&?&?&?&?).
  repeat split; congruence.
Qed.

Lemma same_but_log_add st e : same_but_log st (add_log st e).
Proof. repeat split. Qed.

Lemma transfer_all_dry_run self output :
  dry_run self = true ->
  forall pairs st,
    exists st', transfer_all self st output pairs = Ok st' /\ same_but_log st st'.
Proof.
  intros Hdry pairs. induction pairs as [|[original target] rest IH]; intros st.
  - exists st. split; [reflexivity | apply same_but_log_refl].
  - cbn [transfer_all]. unfold _transfer_companion. rewrite Hdry.
    destruct (isfile (fs st) original); cbn [mbind result_bind].
    + destruct (IH (add_log st (Companion original (Py.join OsPath.sep [output; target]))))
        as (st' & E & Hs).
      exists st'. split; [exact E|].
      eapply same_but_log_trans; [apply same_but_log_add | exact Hs].
    + apply IH.
Qed.

Lemma process_sidecars_dry_run self st original_filename file_name suffix output :
  dry_run self = true ->
  exists st', process_sidecars self st original_filename file_name suffix output = Ok st'
              /\ same_but_log st st'.
Proof.
  intros Hdry. unfold process_sidecars.
  match goal with
  | |- context [transfer_all self st output ?c] =>
      destruct (transfer_all_dry_run self output Hdry c st) as (st1 & E1 & H1)
  end.
  rewrite E1. cbn [mbind result_bind].
  match goal with
  | |- context [transfer_all self st1 output ?c] =>
      destruct (transfer_all_dry_run self output Hdry c st1) as (st2 & E2 & H2)
  end.
  rewrite E2. cbn [mbind result_bind].
  match goal with
  | |- context [transfer_all self st2 output ?c] =>
      destruct (transfer_all_dry_run self output Hdry c st2) as (st3 & E3 & H3)
  end.
  exists st3. split; [exact E3|].
  eapply same_but_log_trans; [exact H1|]. eapply same_but_log_trans; eauto.
Qed.

(** C10. When the checks let the file through and the destination is free,
    the counter goes up before the transfer: a move or a copy whose source is
    gone ends as skipped with files_moved or files_copied raised by one and
    the file system untouched, and a dry run raises files_moved (under move)
    or files_copied (otherwise, link mode included) and touches no file. *)
Theorem counted_before_transfer self filename output target_file_name target_file_path
    target_file_type st file_date file_date' suffix target_file :
  filters self filename output target_file_type st file_date = Ok (Pass file_date') ->
  fs st !! target_file = None ->
  let body := loop_body self filename output target_file_name target_file_path
                        target_file_type st file_date suffix target_file in
  (move self = true -> dry_run self = false -> fs st !! filename = None ->
   body = Ok (Break (add_log (incr_moved st) (SkippedMissing filename))))
  /\ (move self = false -> link self = false -> dry_run self = false ->
      fs st !! filename = None ->
      body = Ok (Break (add_log (incr_copied st) (SkippedMissing filename))))
  /\ (dry_run self = true ->
      exists st', body = Ok (Break st')
                  /\ fs st' = fs st
                  /\ files_moved st' = files_moved st + (if move self then 1 else 0)
                  /\ files_copied st' = files_copied st + (if move self then 0 else 1)).
Proof.
  intros Hf Ht body. subst body. unfold loop_body. rewrite Hf. cbn [mbind result_bind].
  unfold place, isfile. rewrite Ht.
  split; [|split].
  - intros Hm Hd Hs. rewrite Hm, Hd. cbn [negb]. unfold shutil_move.
    cbn [fs incr_moved]. now rewrite Hs.
  - intros Hm Hl Hd Hs. rewrite Hm, Hl, Hd. cbn [negb andb]. unfold copy_file.
    cbn [fs incr_copied]. now rewrite Hs.
  - intros Hd. rewrite Hd. cbn [negb andb]. rewrite andb_false_r.
    destruct (move self).
    + destruct (process_sidecars_dry_run self
                  (add_log (incr_moved st) (Transferred filename target_file))
                  filename target_file_name suffix output Hd) as (st' & E & Hs).
      rewrite E. cbn [mbind result_bind]. exists st'. split; [reflexivity|].
      destruct Hs as (H1 & _ & _ & _ & H5 & H6). rewrite H1, H5, H6. cbn.
      repeat split; lia.
    + destruct (process_sidecars_dry_run self
                  (add_log (incr_copied st) (Transferred filename target_file))
                  filename target_file_name suffix output Hd) as (st' & E & Hs).
      rewrite E. cbn [mbind result_bind]. exists st'. split; [reflexivity|].
      destruct Hs as (H1 & _ & _ & _ & H5 & H6). rewrite H1, H5, H6. cbn.
      repeat split; lia.
Qed.

(** *** Destinations *)

(** An absolute, normalised path, as [os.path.abspath] returns it and the
    constructor keeps it without a final separator: a separator before each
    component, no component empty, a dot or two dots.  The root is the empty
    list. *)
Definition clean_component (c : string) : Prop :=
  has_char "/" c = false /\ c <> "" /\ c <> "." /\ c <> "..".

Fixpoint path_of (comps : list string) : string :=
  match comps with
  | [] => ""
  | c :: rest => "/" ++ c ++ path_of rest
  end.

Lemma split_on_cons_sep s : Py.split_on "/" (String "/" s) = "" :: Py.split_on "/" s.
Proof. reflexivity. Qed.

Lemma path_then_sep rest tail : exists y, path_of rest ++ String "/" tail = String "/" y.
Proof. destruct rest; eexists; reflexivity. Qed.

Lemma split_on_path comps tail :
  Forall clean_component comps ->
  Py.split_on "/" (path_of comps ++ String "/" tail)
  = ("" :: comps ++ Py.split_on "/" tail)%list.
Proof.
  induction comps as [|c rest IH]; intros H.
  - reflexivity.
  - inversion H as [|? ? Hc Hrest]; subst. destruct Hc as (Hc & _).
    specialize (IH Hrest).
    destruct (path_then_sep rest tail) as [y Ey].
    assert (E : path_of (c :: rest) ++ String "/" tail = String "/" (c ++ String "/" y)).
    { change (path_of (c :: rest) ++ String "/" tail)
        with (String "/" ((c ++ path_of rest) ++ String "/" tail)).
      now rewrite append_assoc, Ey. }
    rewrite E, split_on_cons_sep, (split_on_first "/" c y Hc).
    rewrite Ey, split_on_cons_sep in IH. injection IH as IH. now rewrite IH.
Qed.

Definition kept (c : string) : bool :=
  negb (String.eqb c "" || String.eqb c ".") && negb (String.eqb c "..").

Lemma clean_kept c : clean_component c -> kept c = true.
Proof.
  intros (_ & H1 & H2 & H3). unfold kept.
  apply String.eqb_neq in H1, H2, H3. now rewrite H1, H2, H3.
Qed.

Lemma norm_comps_kept n comps : forall acc,
  forallb kept comps = true ->
  OsPath.norm_comps n comps acc = (rev acc ++ comps)%list.
Proof.
  induction comps as [|c rest IH]; intros acc H; cbn [OsPath.norm_comps].
  - now rewrite app_nil_r.
  - cbn [forallb] in H. apply andb_true_iff in H as [Hc Hrest].
    unfold kept in Hc. apply andb_true_iff in Hc as [H1 H2].
    apply negb_true_iff in H1. rewrite H1, H2. cbn [orb].
    rewrite (IH _ Hrest). cbn [rev]. now rewrite <- app_assoc.
Qed.

Lemma concat_path comps t ts :
  "/" ++ String.concat "/" (comps ++ t :: ts)%list
  = path_of comps ++ "/" ++ String.concat "/" (t :: ts).
Proof.
  induction comps as [|c rest IH]; [reflexivity|].
  cbn [path_of]. rewrite !append_assoc. rewrite <- IH.
  destruct rest; reflexivity.
Qed.

Lemma forallb_kept_clean comps : Forall clean_component comps -> forallb kept comps = true.
Proof.
  induction 1 as [|c rest Hc _ IH]; [reflexivity|].
  cbn [forallb]. now rewrite (clean_kept c Hc), IH.
Qed.


Lemma forallb_app_kept a b : forallb kept (a ++ b)%list = forallb kept a && forallb kept b.
Proof. apply forallb_app. Qed.

Lemma no_double_slash comps tail :
  Forall clean_component comps -> Py.startswith tail "/" = false ->
  Py.startswith (path_of comps ++ String "/" tail) "//" = false.
Proof.
  intros H Ht. unfold Py.startswith in *. destruct comps as [|c rest].
  - change (path_of [] ++ String "/" tail) with (String "/" tail).
    cbn [String.prefix]. destruct (ascii_dec "/" "/"); [exact Ht | reflexivity].
  - inversion H as [|? ? (Hc & Hne & _) _]; subst.
    destruct c as [|a c']; [congruence|].
    change (path_of (String a c' :: rest) ++ String "/" tail)
      with (String "/" (String a ((c' ++ path_of rest) ++ String "/" tail))).
    cbn [String.prefix]. destruct (ascii_dec "/" "/"); [|reflexivity].
    destruct (ascii_dec "/" a) as [<-|]; [|reflexivity].
    cbn in Hc. discriminate.
Qed.

(** A relative tail of clean components under a clean root is left as it is
    by [normpath]. *)
Lemma normpath_under_root comps tail t ts :
  Forall clean_component comps ->
  Py.split_on "/" tail = t :: ts -> forallb kept (t :: ts) = true ->
  tail = String.concat "/" (t :: ts) -> Py.startswith tail "/" = false ->
  OsPath.normpath (path_of comps ++ "/" ++ tail) = path_of comps ++ "/" ++ tail.
Proof.
  intros Hc Hsplit Hkept Htail Hrel.
  change ("/" ++ tail) with (String "/" tail).
  unfold OsPath.normpath.
  destruct (path_then_sep comps tail) as [y Ey].
  assert (Htruthy : Py.truthy (path_of comps ++ String "/" tail) = true) by now rewrite Ey.
  assert (Hslash : Py.startswith (path_of comps ++ String "/" tail) "/" = true).
  { rewrite Ey. unfold Py.startswith. cbn [String.prefix].
    destruct (ascii_dec "/" "/"); [now destruct y | congruence]. }
  rewrite Htruthy, Hslash, (no_double_slash comps tail Hc Hrel). cbn [negb andb].
  rewrite (split_on_path comps tail Hc), Hsplit.
  cbn [OsPath.norm_comps String.eqb orb].
  rewrite norm_comps_kept
    by (rewrite forallb_app_kept, (forallb_kept_clean comps Hc); exact Hkept).
  cbn [rev app]. rewrite concat_path, <- Htail.
  change ("/" ++ tail) with (String "/" tail). now rewrite Ey.
Qed.


Lemma lower_app a b : Py.lower (a ++ b) = Py.lower a ++ Py.lower b.
Proof. induction a as [|c a IH]; simpl; [reflexivity | now rewrite IH]. Qed.

(** C8. A media file whose date resolves to 2017:01:01 01:01:01, with no
    offset and no sub-seconds, under the directory format YYYY/MM/DD, no
    prefix, no suffix and computed names: the destination directory is
    2017/01/01 under the output root, the file name 20170101-010101 followed
    by the extension of the file in lower case. *)
Theorem dated_destination exif_data_of fromtimestamp self files filename exif mimetype kind root :
  dir_format self = Date.parse "YYYY/MM/DD" ->
  output_prefix self = None -> output_suffix self = None ->
  original_filenames self = false ->
  output_dir self = path_of root -> Forall clean_component root ->
  should_inspect_exif filename = true ->
  exif_data_of filename = Some exif ->
  exif !! "MIMEType" = Some (JStr mimetype) -> get_file_type mimetype = Some kind ->
  Date.from_exif (mtime_datetime fromtimestamp files) (Some filename) exif
                 (timestamp self) (date_regex self) (date_field self)
  = Ok (Some (Date.mk_resolved (Some t_2017) "" None)) ->
  let output := output_dir self ++ "/2017/01/01" in
  let target_file_name := "20170101-010101" ++ Py.lower (snd (OsPath.splitext filename)) in
  get_file_name_and_path exif_data_of fromtimestamp self files filename
  = Ok (output, target_file_name, output ++ "/" ++ target_file_name, Some kind,
        Some (Date.mk_resolved (Some t_2017) "" None)).
Proof.
  intros Hfmt Hpre Hsuf Horig Hroot Hclean Hmedia Hexif Hmime Hkind Hdate output name.
  unfold get_file_name_and_path.
  rewrite Hmedia, Hexif, Hmime, Hkind. cbn [mbind result_bind].
  rewrite Hdate. cbn [mbind result_bind date_arg_of].
  unfold get_output_dir, get_file_name. cbn [Date.date Date.subseconds].
  rewrite Hfmt, Hpre, Hsuf, Horig. cbn [mbind result_bind Py.truthy].
  replace (strftime (Date.parse "YYYY/MM/DD") t_2017) with "2017/01/01" by reflexivity.
  replace (Py.join "" [Py.fmt_d 4 (year t_2017); Py.fmt_d 2 (month t_2017);
                       Py.fmt_d 2 (day t_2017); "-"; Py.fmt_d 2 (hour t_2017);
                       Py.fmt_d 2 (minute t_2017); Py.fmt_d 2 (second t_2017)])
    with "20170101-010101" by reflexivity.
  rewrite lower_app.
  change (Py.lower "20170101-010101") with "20170101-010101". fold name.
  change (somes [Some (output_dir self); None; Some "2017/01/01"; None])
    with [output_dir self; "2017/01/01"].
  change (Py.join OsPath.sep [output_dir self; "2017/01/01"])
    with (output_dir self ++ "/" ++ "2017/01/01").
  rewrite Hroot.
  rewrite (normpath_under_root root "2017/01/01" "2017" ["01"; "01"] Hclean
             eq_refl eq_refl eq_refl eq_refl).
  subst output. rewrite Hroot. reflexivity.
Qed.


(** *** A run on a small tree *)

(** [datetime.fromtimestamp] on a host whose local time is UTC, for a time
    in whole seconds. *)
Definition fromtimestamp_utc (ts : Z) : datetime :=
  let '(y, m, d) := ord2ymd (719163 + ts / 86400) in
  let rem := ts mod 86400 in
  mk_datetime y m d (rem / 3600) ((rem mod 3600) / 60) (rem mod 60) 0.

(** The tool knows one picture, taken on the first of January 2017. *)
Definition tool (filename : string) : option (gmap string json) :=
  if String.eqb filename "/in/IMG_0001.JPG"
  then Some (<["MIMEType" := JStr "image/jpeg"]>
               {[ "CreateDate" := JStr "2017:01:01 01:01:01" ]})
  else None.

Definition copying : config :=
  mk_config "/out" None None "unknown" (Date.parse "YYYY/MM/DD")
            false false false None false None false false false None None None.

Definition moving (dry : bool) : config :=
  mk_config "/out" None None "unknown" (Date.parse "YYYY/MM/DD")
            true false false None false None true true dry None None None.

Definition picture : file := mk_file "pixels" 1483232461.

Definition tree : state :=
  mk_state (<["/in/IMG_0001.JPG" := picture]>
              (<["/in/IMG_0001.aae" := mk_file "edits" 1483232500]>
                 {[ "/in/IMG_0001.xmp" := mk_file "tags" 1483232500 ]}))
           0 0 0 0 0 [].



Lemma dated_destination_witness :
  get_file_name_and_path tool fromtimestamp_utc copying (fs tree) "/in/IMG_0001.JPG"
  = Ok ("/out/2017/01/01", "20170101-010101.jpg", "/out/2017/01/01/20170101-010101.jpg",
        Some Image, Some (Date.mk_resolved (Some t_2017) "" None)).
Proof.
  apply (dated_destination tool fromtimestamp_utc copying (fs tree) "/in/IMG_0001.JPG"
           (<["MIMEType" := JStr "image/jpeg"]> {[ "CreateDate" := JStr "2017:01:01 01:01:01" ]})
           "image/jpeg" Image ["out"]); try reflexivity.
  repeat constructor; discriminate.
Defined.



(** The source has vanished from the tree. *)
Definition emptied : state := mk_state ∅ 0 0 0 0 0 [].

Lemma counted_before_transfer_witness :
  loop_body (moving false) "/in/IMG_0001.JPG" "/out/2017/01/01" "20170101-010101.jpg"
            "/out/2017/01/01/20170101-010101.jpg" (Some Image) emptied
            (FdDict (Date.mk_resolved (Some t_2017) "" None)) 1
            "/out/2017/01/01/20170101-010101.jpg"
  = Ok (Break (add_log (incr_moved emptied) (SkippedMissing "/in/IMG_0001.JPG")))
  /\ loop_body copying "/in/IMG_0001.JPG" "/out/2017/01/01" "20170101-010101.jpg"
               "/out/2017/01/01/20170101-010101.jpg" (Some Image) emptied
               (FdDict (Date.mk_resolved (Some t_2017) "" None)) 1
               "/out/2017/01/01/20170101-010101.jpg"
     = Ok (Break (add_log (incr_copied emptied) (SkippedMissing "/in/IMG_0001.JPG")))
  /\ exists st',
       loop_body (moving true) "/in/IMG_0001.JPG" "/out/2017/01/01" "20170101-010101.jpg"
                 "/out/2017/01/01/20170101-010101.jpg" (Some Image) tree
                 (FdDict (Date.mk_resolved (Some t_2017) "" None)) 1
                 "/out/2017/01/01/20170101-010101.jpg" = Ok (Break st')
       /\ fs st' = fs tree
       /\ files_moved st' = files_moved tree + 1
       /\ files_copied st' = files_copied tree + 0.
Proof.
  split; [|split].
  - refine (proj1 (counted_before_transfer (moving false) "/in/IMG_0001.JPG"
      "/out/2017/01/01" "20170101-010101.jpg" "/out/2017/01/01/20170101-010101.jpg"
      (Some Image) emptied (FdDict (Date.mk_resolved (Some t_2017) "" None))
      (FdInstant (Some t_2017)) 1 "/out/2017/01/01/20170101-010101.jpg"
      eq_refl eq_refl) eq_refl eq_refl eq_refl).
  - refine (proj1 (proj2 (counted_before_transfer copying "/in/IMG_0001.JPG"
      "/out/2017/01/01" "20170101-010101.jpg" "/out/2017/01/01/20170101-010101.jpg"
      (Some Image) emptied (FdDict (Date.mk_resolved (Some t_2017) "" None))
      (FdInstant (Some t_2017)) 1 "/out/2017/01/01/20170101-010101.jpg"
      eq_refl eq_refl)) eq_refl eq_refl eq_refl eq_refl).
  - refine (proj2 (proj2 (counted_before_transfer (moving true) "/in/IMG_0001.JPG"
      "/out/2017/01/01" "20170101-010101.jpg" "/out/2017/01/01/20170101-010101.jpg"
      (Some Image) tree (FdDict (Date.mk_resolved (Some t_2017) "" None))
      (FdInstant (Some t_2017)) 1 "/out/2017/01/01/20170101-010101.jpg"
      eq_refl eq_refl)) eq_refl).
Defined.

End PhockupFacts.

(** ** The metadata session *)

Module ExifFacts.
Import Exif.

Example loads_record :
  loads ("[{" ++ String DQUOTE ("n" ++ String DQUOTE ": -1, ")
              ++ String DQUOTE ("n" ++ String DQUOTE ": [2, true, null]}] "))
  = Some (Ok (JArr [JObj [("n", JArr [JInt 2; JBool true; JNull])]])).
Proof. reflexivity. Qed.

Example loads_trailing_comma : loads "[1,]" = Some (Raise JSONDecodeError).
Proof. reflexivity. Qed.

Example loads_fraction : loads "[1.5]" = None.
Proof. reflexivity. Qed.





(** The library functions for the examples: [json.loads] as read above,
    the texts outside that reading counted as malformed (none of the texts
    below is one); paths are absolute already and need no quoting. *)
Definition read_json (s : string) : result json :=
  match loads s with Some r => r | None => Raise JSONDecodeError end.

Definition worker (lines : list string) : session :=
  mk_session (Some (mk_process false false [] lines)) 0.



End ExifFacts.

(** * Further properties

    ** Decimal text and paths *)

Module TextFacts.
Import StringFacts DateFacts.

#[local] Arguments String.append : simpl nomatch.

Lemma append_inv_head a x y : a ++ x = a ++ y -> x = y.
Proof. induction a as [|c a IH]; simpl; [auto | intros [= H]; auto]. Qed.

Lemma substring_all s : String.substring 0 (String.length s) s = s.
Proof. induction s as [|c s IH]; simpl; [reflexivity | now rewrite IH]. Qed.

Lemma take_drop n : forall s, OsPath.take n s ++ OsPath.drop n s = s.
Proof.
  unfold OsPath.take, OsPath.drop.
  induction n as [|n IH]; intros s.
  - rewrite Nat.sub_0_r, substring_all. now destruct s.
  - destruct s as [|c s]; [reflexivity|]. simpl. now rewrite IH.
Qed.

(** [os.path.splitext] cuts the path in two. *)
Lemma splitext_parts p : fst (OsPath.splitext p) ++ snd (OsPath.splitext p) = p.
Proof.
  unfold OsPath.splitext. destruct (OsPath.rfind "." p) as [i|]; [|apply append_nil_r].
  destruct (_ && _); [apply take_drop | apply append_nil_r].
Qed.

Lemma drop_cons n c s : OsPath.drop (S n) (String c s) = OsPath.drop n s.
Proof. reflexivity. Qed.

Lemma rfind_from_drop c : forall s i j,
  OsPath.rfind_from i c s = Some j ->
  (i <= j)%nat /\ exists e, OsPath.drop (j - i) s = String c e.
Proof.
  induction s as [|a s IH]; intros i j H; [discriminate|].
  cbn [OsPath.rfind_from] in H.
  destruct (OsPath.rfind_from (S i) c s) as [j'|] eqn:E.
  - injection H as <-. destruct (IH _ _ E) as (Hle & e & He).
    split; [lia|]. exists e.
    replace (j' - i)%nat with (S (j' - S i)) by lia. now rewrite drop_cons.
  - destruct (Ascii.eqb a c) eqn:Ea; [|discriminate]. injection H as <-.
    apply Ascii.eqb_eq in Ea. subst a. split; [lia|]. exists s.
    rewrite Nat.sub_diag. unfold OsPath.drop. now rewrite Nat.sub_0_r, substring_all.
Qed.

(** The extension that [os.path.splitext] cuts off is empty or begins
    with a dot. *)
Lemma splitext_ext_dot p :
  snd (OsPath.splitext p) = "" \/ exists e, snd (OsPath.splitext p) = String "." e.
Proof.
  unfold OsPath.splitext. destruct (OsPath.rfind "." p) as [i|] eqn:E; [|now left].
  destruct (_ && _); [|now left]. right. cbn [snd].
  apply rfind_from_drop in E as (_ & e & He). rewrite Nat.sub_0_r in He. eauto.
Qed.

Lemma code_inj a b : Py.code a = Py.code b -> a = b.
Proof.
  unfold Py.code. intros H. apply N2Z.inj in H.
  rewrite <- (ascii_N_embedding a), <- (ascii_N_embedding b). now rewrite H.
Qed.

(** The number that a run of decimal digits writes. *)
Fixpoint decimal (s : string) : Z :=
  match s with
  | EmptyString => 0
  | String c r => Py.digit_val c * 10 ^ Z.of_nat (String.length r) + decimal r
  end.

(** The digit of a number below ten. *)
Definition digit_of (m : Z) : ascii := ascii_of_N (Z.to_N (48 + m)).

Lemma digit_of_code m : 0 <= m <= 9 -> Py.code (digit_of m) = 48 + m.
Proof. intros H. unfold Py.code, digit_of. rewrite N_ascii_embedding; lia. Qed.

Lemma digit_of_val m : 0 <= m <= 9 -> Py.digit_val (digit_of m) = m.
Proof. intros H. unfold Py.digit_val. rewrite digit_of_code; lia. Qed.

Lemma digit_of_digit m : 0 <= m <= 9 -> Py.is_digit (digit_of m) = true.
Proof.
  intros H. unfold Py.is_digit. rewrite digit_of_code by lia.
  apply andb_true_iff. split; apply Z.leb_le; lia.
Qed.

Lemma mod_digit n : 0 <= n mod 10 <= 9.
Proof. pose proof (Z.mod_pos_bound n 10). lia. Qed.

Lemma dec_digits_decimal fuel : forall n acc,
  0 <= n < 10 ^ Z.of_nat fuel ->
  decimal (Py.dec_digits fuel n acc) = n * 10 ^ Z.of_nat (String.length acc) + decimal acc.
Proof.
  induction fuel as [|fuel IH]; intros n acc Hn.
  - simpl in Hn. assert (n = 0) by lia. subst. simpl. lia.
  - cbn [Py.dec_digits]. cbv zeta. fold (digit_of (n mod 10)).
    destruct (n <? 10) eqn:Hlt.
    + apply Z.ltb_lt in Hlt. cbn [decimal]. rewrite (digit_of_val _ (mod_digit n)).
      rewrite Z.mod_small by lia. reflexivity.
    + apply Z.ltb_ge in Hlt. rewrite IH.
      * cbn [decimal String.length]. rewrite (digit_of_val _ (mod_digit n)).
        rewrite Nat2Z.inj_succ, Z.pow_succ_r by lia.
        pose proof (Z.div_mod n 10 ltac:(lia)) as Hdm.
        set (q := n / 10) in *. set (r := n mod 10) in *.
        set (w := 10 ^ Z.of_nat (String.length acc)). rewrite Hdm. ring.
      * rewrite Nat2Z.inj_succ, Z.pow_succ_r in Hn by lia.
        split; [apply Z.div_pos; lia | apply Z.div_lt_upper_bound; lia].
Qed.

Lemma dec_digits_acc fuel : forall n acc,
  Py.dec_digits fuel n acc = Py.dec_digits fuel n "" ++ acc.
Proof.
  induction fuel as [|fuel IH]; intros n acc; [reflexivity|].
  cbn [Py.dec_digits]. cbv zeta. destruct (n <? 10); [reflexivity|].
  rewrite IH. rewrite (IH _ (String _ "")). rewrite append_assoc. reflexivity.
Qed.

Lemma dec_digits_all fuel : forall n acc,
  all_chars Py.is_digit acc = true -> all_chars Py.is_digit (Py.dec_digits fuel n acc) = true.
Proof.
  induction fuel as [|fuel IH]; intros n acc Hacc; [exact Hacc|].
  cbn [Py.dec_digits]. cbv zeta. fold (digit_of (n mod 10)).
  assert (Hnext : all_chars Py.is_digit (String (digit_of (n mod 10)) acc) = true).
  { cbn [all_chars]. now rewrite (digit_of_digit _ (mod_digit n)). }
  destruct (n <? 10); [exact Hnext | now apply IH].
Qed.

Lemma dec_digits_length fuel : forall n acc w,
  0 <= n < 10 ^ Z.of_nat (S w) ->
  (String.length acc < String.length (Py.dec_digits (S fuel) n acc)
   <= S w + String.length acc)%nat.
Proof.
  induction fuel as [|fuel IH]; intros n acc w Hn.
  - cbn [Py.dec_digits]. cbv zeta. destruct (n <? 10); cbn [String.length]; lia.
  - cbn [Py.dec_digits]. cbv zeta. fold (digit_of (n mod 10)).
    destruct (n <? 10) eqn:Hlt; [cbn [String.length]; lia|].
    apply Z.ltb_ge in Hlt. destruct w as [|w]; [simpl in Hn; lia|].
    assert (Hq : 0 <= n / 10 < 10 ^ Z.of_nat (S w)).
    { rewrite (Nat2Z.inj_succ (S w)), Z.pow_succ_r in Hn by lia.
      split; [apply Z.div_pos; lia | apply Z.div_lt_upper_bound; lia]. }
    pose proof (IH (n / 10) (String (digit_of (n mod 10)) acc) w Hq) as H.
    cbn [Py.dec_digits] in H. cbv zeta in H. cbn [String.length] in H. lia.
Qed.

Lemma str_fuel n : 0 <= n -> 0 <= n < 10 ^ Z.of_nat (S (Z.to_nat (Z.log2 n))).
Proof.
  intros Hn. split; [exact Hn|].
  rewrite Nat2Z.inj_succ, Z2Nat.id by apply Z.log2_nonneg.
  destruct (Z.eq_dec n 0) as [->|Hne]; [reflexivity|].
  pose proof (Z.log2_spec n ltac:(lia)) as [_ Hlog].
  eapply Z.lt_le_trans; [exact Hlog|].
  apply Z.pow_le_mono_l. lia.
Qed.

Lemma str_tail_decimal n tail :
  0 <= n ->
  decimal (Py.str_of_nonneg n ++ tail) = n * 10 ^ Z.of_nat (String.length tail) + decimal tail.
Proof.
  intros Hn. unfold Py.str_of_nonneg. rewrite <- dec_digits_acc.
  apply dec_digits_decimal, str_fuel, Hn.
Qed.

Lemma str_decimal n : 0 <= n -> decimal (Py.str_of_nonneg n) = n.
Proof.
  intros Hn. rewrite <- (append_nil_r (Py.str_of_nonneg n)), str_tail_decimal by exact Hn.
  simpl. lia.
Qed.

Lemma str_all n : all_chars Py.is_digit (Py.str_of_nonneg n) = true.
Proof. apply dec_digits_all. reflexivity. Qed.

Lemma str_length n w :
  0 <= n < 10 ^ Z.of_nat (S w) -> (0 < String.length (Py.str_of_nonneg n) <= S w)%nat.
Proof.
  intros Hn. pose proof (dec_digits_length (Z.to_nat (Z.log2 n)) n "" w Hn) as H.
  cbn [String.length] in H. unfold Py.str_of_nonneg. lia.
Qed.

(** *** Numbers in a fixed width *)

Lemma zeros_length k : String.length (Py.zeros k) = k.
Proof. induction k as [|k IH]; simpl; [reflexivity | now rewrite IH]. Qed.

Lemma all_chars_app p a b : all_chars p (a ++ b) = all_chars p a && all_chars p b.
Proof. induction a as [|c a IH]; simpl; [reflexivity | now rewrite IH, andb_assoc]. Qed.

Lemma zeros_all k : all_chars Py.is_digit (Py.zeros k) = true.
Proof. induction k as [|k IH]; simpl; [reflexivity | exact IH]. Qed.

Lemma zeros_decimal k s : decimal (Py.zeros k ++ s) = decimal s.
Proof.
  induction k as [|k IH]; [reflexivity|].
  cbn [Py.zeros String.append decimal]. rewrite IH.
  change (Py.digit_val "0") with 0. lia.
Qed.

(** A number below ten to the power of the width fills the width with
    digits that write it. *)
Lemma fmt_d_spec w n :
  0 <= n < 10 ^ Z.of_nat (S w) ->
  String.length (Py.fmt_d (S w) n) = S w
  /\ all_chars Py.is_digit (Py.fmt_d (S w) n) = true
  /\ decimal (Py.fmt_d (S w) n) = n.
Proof.
  intros Hn. unfold Py.fmt_d, Py.zfill. pose proof (str_length n w Hn) as Hlen.
  split; [|split].
  - rewrite length_append, zeros_length. lia.
  - now rewrite all_chars_app, zeros_all, str_all.
  - rewrite zeros_decimal. apply str_decimal. lia.
Qed.

(** *** [int] on digits *)

Lemma int_digits_decimal : forall s acc,
  all_chars Py.is_digit s = true ->
  Py.int_digits acc true s = Some (acc * 10 ^ Z.of_nat (String.length s) + decimal s).
Proof.
  induction s as [|c s IH]; intros acc Hs.
  - simpl. f_equal. lia.
  - simpl in Hs. apply andb_true_iff in Hs as [Hc Hs].
    cbn [Py.int_digits]. rewrite Hc, (IH _ Hs). f_equal.
    cbn [decimal String.length]. rewrite Nat2Z.inj_succ, Z.pow_succ_r by lia. ring.
Qed.

Lemma int_decimal s :
  all_chars Py.is_digit s = true -> s <> "" -> Py.int s = Ok (decimal s).
Proof.
  intros Hs Hne. unfold Py.int. rewrite (lstrip_digits s Hs), (rstrip_digits s Hs).
  destruct s as [|c s]; [congruence|].
  pose proof Hs as Hs'. simpl in Hs'. apply andb_true_iff in Hs' as [Hc Hr].
  rewrite (digit_neq c "-" Hc eq_refl), (digit_neq c "+" Hc eq_refl).
  cbn [Py.int_digits]. rewrite Hc, (int_digits_decimal s _ Hr). reflexivity.
Qed.

End TextFacts.

(** ** The date resolver, beyond the claims *)

Module DateExtras.
Import Datetime Date StringFacts.
Import DateFacts.

#[local] Arguments String.append : simpl nomatch.

(** *** [_parse_offset] on strings *)

(** The groups of a match are a sign and twice two digits. *)
Lemma offset_at_groups s g rest :
  offset_at s = Some (g, rest) ->
  all_chars Py.is_digit (og_hours g) = true /\ String.length (og_hours g) = 2%nat
  /\ all_chars Py.is_digit (og_minutes g) = true /\ String.length (og_minutes g) = 2%nat.
Proof.
  unfold offset_at. destruct s as [|sg r0]; [discriminate|].
  destruct (is_sign sg); [|discriminate].
  destruct (digits 2 r0) as [[hh r1]|] eqn:Eh; [|discriminate].
  destruct (digits_spec _ _ _ _ Eh) as [Hh1 Hh2].
  assert (Hplain : forall g rest,
            match digits 2 r1 with
            | Some (mm, r3) => Some (mk_offset_groups sg hh "" mm, r3)
            | None => None
            end = Some (g, rest) ->
            all_chars Py.is_digit (og_hours g) = true /\ String.length (og_hours g) = 2%nat
            /\ all_chars Py.is_digit (og_minutes g) = true
            /\ String.length (og_minutes g) = 2%nat).
  { intros g' rest' H. destruct (digits 2 r1) as [[mm r3]|] eqn:Em; [|discriminate].
    injection H as <- <-. destruct (digits_spec _ _ _ _ Em). simpl. auto. }
  destruct r1 as [|c r2]; [apply Hplain|].
  destruct (Ascii.eqb c ":"); [|apply Hplain].
  destruct (digits 2 r2) as [[mm r3]|] eqn:Em; [|apply Hplain].
  intros [= <- <-]. destruct (digits_spec _ _ _ _ Em). simpl. auto.
Qed.

Lemma two_digit_int m :
  all_chars Py.is_digit m = true -> String.length m = 2%nat ->
  exists v, Py.int m = Ok v /\ 0 <= v <= 99.
Proof.
  intros Hd Hl. assert (Hne : m <> "") by (intros ->; discriminate).
  destruct (int_of_digits m Hd Hne) as (v & Ev & Hv). rewrite Hl in Hv.
  exists v. split; [exact Ev|]. change (10 ^ Z.of_nat 2) with 100 in Hv. lia.
Qed.

Lemma search_no_sign s : no_sign s = true -> search offset_at s = None.
Proof.
  induction s as [|c s IH]; [reflexivity|].
  unfold no_sign. simpl. intros H. apply andb_true_iff in H as [Hc Hs].
  apply negb_true_iff in Hc. unfold offset_at at 1. rewrite Hc. now apply IH.
Qed.

Lemma parse_offset_bounded (s : string) :
  exists o, _parse_offset (JStr s) = Ok o
            /\ forall d, o = Some d -> - 362340 <= d <= 362340.
Proof.
  unfold _parse_offset. destruct (negb (json_truthy (JStr s))).
  - exists None. split; [reflexivity | discriminate].
  - destruct (search offset_at s) as [[g rest]|] eqn:E.
    + apply search_inv in E as (r & E).
      destruct (offset_at_groups _ _ _ E) as (H1 & H2 & H3 & H4).
      destruct (two_digit_int _ H1 H2) as (h & Eh & Hh).
      destruct (two_digit_int _ H3 H4) as (m & Em & Hm).
      rewrite Eh. cbn [mbind result_bind]. rewrite Em. cbn [mbind result_bind].
      eexists. split; [reflexivity|]. intros d [= <-].
      unfold timedelta_hm, sign_of. destruct (Ascii.eqb (og_sign g) "+"); lia.
    + exists None. split; [reflexivity | discriminate].
Qed.

(** X1. On a string, [_parse_offset] never raises: it returns nothing or a
    duration of at most 99 hours and 99 minutes either way, and it returns
    nothing for every string without a plus or minus sign. *)
Theorem parse_offset_on_strings (s : string) :
  (exists o, _parse_offset (JStr s) = Ok o
             /\ forall d, o = Some d -> - 362340 <= d <= 362340)
  /\ (no_sign s = true -> _parse_offset (JStr s) = Ok None).
Proof.
  split; [apply parse_offset_bounded|].
  intros H. unfold _parse_offset. destruct (negb (json_truthy (JStr s))); [reflexivity|].
  now rewrite (search_no_sign s H).
Qed.

Lemma parse_offset_on_strings_witness :
  _parse_offset (JStr "UTC, no offset") = Ok None.
Proof. exact (proj2 (parse_offset_on_strings "UTC, no offset") eq_refl). Defined.

(** *** What [strptime] and [from_datestring] can raise *)

Lemma lstrip_by_length p s : (String.length (Py.lstrip_by p s) <= String.length s)%nat.
Proof.
  induction s as [|c s IH]; simpl; [lia|]. destruct (p c); simpl; lia.
Qed.

Lemma rstrip_by_length p s : (String.length (Py.rstrip_by p s) <= String.length s)%nat.
Proof.
  induction s as [|c s IH]; simpl; [lia|].
  destruct (Py.rstrip_by p s) as [|a r]; [destruct (p c)|]; simpl in *; lia.
Qed.

Lemma int_digits_some_bound : forall s acc b v,
  Py.int_digits acc b s = Some v -> 0 <= acc ->
  0 <= v < (acc + 1) * 10 ^ Z.of_nat (String.length s).
Proof.
  induction s as [|c s IH]; intros acc b v H Hacc; simpl in H.
  - destruct b; [|discriminate]. injection H as <-. simpl. lia.
  - replace (Z.of_nat (String.length (String c s))) with (Z.succ (Z.of_nat (String.length s)))
      by (simpl; lia).
    rewrite Z.pow_succ_r by lia.
    assert (0 < 10 ^ Z.of_nat (String.length s)) by (apply Z.pow_pos_nonneg; lia).
    destruct (Py.is_digit c) eqn:Ec.
    + pose proof (digit_val_range c Ec).
      apply IH in H; [|lia]. nia.
    + destruct (Ascii.eqb c "_" && b); [|discriminate].
      destruct s as [|d s']; [discriminate|].
      destruct (Py.is_digit d); [|discriminate].
      apply IH in H; [|lia]. nia.
Qed.

(** An [int] read off a short text is small. *)
Lemma int_bound s v :
  Py.int s = Ok v -> Z.abs v < 10 ^ Z.of_nat (String.length s).
Proof.
  unfold Py.int.
  set (body := Py.rstrip_by Py.is_int_space (Py.lstrip_by Py.is_int_space s)).
  assert (Hbody : (String.length body <= String.length s)%nat).
  { subst body. etransitivity; [apply rstrip_by_length | apply lstrip_by_length]. }
  assert (Hmono : forall n, (n <= String.length s)%nat ->
                            10 ^ Z.of_nat n <= 10 ^ Z.of_nat (String.length s)).
  { intros n Hn. apply Z.pow_le_mono_r; lia. }
  assert (Hcase : forall (negative : bool) ds,
            (String.length ds <= String.length s)%nat ->
            match Py.int_digits 0 false ds with
            | Some n => Ok (if negative then - n else n)
            | None => Raise ValueError
            end = Ok v -> Z.abs v < 10 ^ Z.of_nat (String.length s)).
  { intros negative ds Hlen H.
    destruct (Py.int_digits 0 false ds) as [n|] eqn:E; [|discriminate].
    apply int_digits_some_bound in E; [|lia]. specialize (Hmono _ Hlen).
    injection H as <-. destruct negative; lia. }
  destruct body as [|c r]; [apply (Hcase false); simpl; lia|].
  simpl in Hbody.
  destruct (Ascii.eqb c "-"); [apply (Hcase true); lia|].
  destruct (Ascii.eqb c "+"); [apply (Hcase false); lia|].
  apply (Hcase false). simpl. lia.
Qed.

Definition modest (v : Z) : Prop := - 10000 < v < 10000.

Lemma num_modest txt : (String.length txt <= 4)%nat -> modest (num txt).
Proof.
  intros Hl. unfold num, modest. destruct (Py.int txt) as [v|e] eqn:E; [|lia].
  apply int_bound in E.
  assert (10 ^ Z.of_nat (String.length txt) <= 10 ^ 4) by (apply Z.pow_le_mono_r; lia).
  change (10 ^ 4) with 10000 in *. lia.
Qed.

Lemma match_chars_length ps : forall s m r,
  match_chars ps s = Some (m, r) -> String.length m = List.length ps.
Proof.
  induction ps as [|p ps IH]; intros s m r H; simpl in H.
  - now injection H as <- _.
  - destruct s as [|c s]; [discriminate|]. destruct (p c); [|discriminate].
    destruct (match_chars ps s) as [[m' r']|] eqn:E; [|discriminate].
    injection H as <- _. simpl. now rewrite (IH _ _ _ E).
Qed.

Lemma branches_short alts s txt r :
  Forall (fun ps => (List.length ps <= 4)%nat) alts ->
  In (txt, r) (branches alts s) -> (String.length txt <= 4)%nat.
Proof.
  intros Hall Hin. unfold branches in Hin.
  apply list_elem_of_In, list_elem_of_omap in Hin as (ps & Hps & Hm).
  apply match_chars_length in Hm. rewrite Hm.
  rewrite List.Forall_forall in Hall. apply Hall. now apply list_elem_of_In.
Qed.

Definition modest_fields (f : fields) : Prop :=
  modest (fY f) /\ modest (fm f) /\ modest (fd f)
  /\ modest (fH f) /\ modest (fM f) /\ modest (fS f).

Lemma set_field_modest d s txt r f :
  In (txt, r) (candidates d s) -> modest_fields f -> modest_fields (set_field d txt f).
Proof.
  intros Hin (HY & Hm & Hd & HH & HM & HS).
  destruct d; unfold modest_fields; cbn [set_field fY fm fd fH fM fS];
    try tauto;
    (assert (Hl : (String.length txt <= 4)%nat)
       by (eapply branches_short; [|exact Hin];
           repeat (apply List.Forall_cons; [simpl; lia|]); apply List.Forall_nil));
    pose proof (num_modest txt Hl); tauto.
Qed.

Lemma matches_modest layout : forall f s f' r,
  In (f', r) (matches layout f s) -> modest_fields f -> modest_fields f'.
Proof.
  induction layout as [|d layout IH]; intros f s f' r Hin Hf; simpl in Hin.
  - destruct Hin as [[= <- _]|[]]. exact Hf.
  - apply in_flat_map in Hin as ([txt r0] & Hc & Hin).
    eapply IH; [exact Hin|]. eapply set_field_modest; eauto.
Qed.

Lemma modest_fits v : modest v -> fits_c_int v = true.
Proof. unfold modest, fits_c_int. intros H. apply andb_true_iff. split; lia. Qed.

Lemma datetime_new_valid y m d H M S t :
  datetime_new y m d H M S = Ok t ->
  t = mk_datetime y m d H M S 0 /\ valid_date y m d = true /\ valid_time H M S = true.
Proof.
  unfold datetime_new. destruct (forallb fits_c_int [y; m; d; H; M; S]); [|discriminate].
  destruct (valid_date y m d && valid_time H M S) eqn:E; [|discriminate].
  apply andb_true_iff in E as [E1 E2]. intros [= <-]. auto.
Qed.

(** The instant is a date of the calendar and a time of the day. *)
Definition valid (t : datetime) : Prop :=
  valid_date (year t) (month t) (day t) = true
  /\ valid_time (hour t) (minute t) (second t) = true.

Lemma strptime_outcomes_aux (date : string) (date_format : list directive) :
  (forall e, strptime date date_format = Raise e -> e = ValueError)
  /\ (forall t, strptime date date_format = Ok t -> valid t /\ microsecond t = 0).
Proof.
  unfold strptime.
  destruct (matches date_format no_fields date) as [|[f rest] l] eqn:E.
  - split; [now intros e [= <-] | discriminate].
  - destruct (Py.truthy rest); [split; [now intros e [= <-] | discriminate]|].
    assert (Hm : modest_fields f).
    { eapply (matches_modest date_format no_fields date f rest).
      - rewrite E. now left.
      - repeat split; unfold modest; simpl; lia. }
    destruct Hm as (HY & Hm & Hd & HH & HM & HS).
    split.
    + intros e. unfold datetime_new. cbn [forallb].
      rewrite !modest_fits by assumption. cbn [andb].
      destruct (valid_date _ _ _ && valid_time _ _ _); [discriminate | now intros [= <-]].
    + intros t Ht. apply datetime_new_valid in Ht as (-> & H1 & H2).
      split; [split; assumption | reflexivity].
Qed.

(** X2. Whatever the layout and the text, [strptime] raises nothing but
    ValueError, and an instant it returns is a date of the calendar with a
    time of the day. *)
Theorem strptime_outcomes (date : string) (date_format : list directive) :
  (forall e, strptime date date_format = Raise e -> e = ValueError)
  /\ (forall t, strptime date date_format = Ok t -> valid t /\ microsecond t = 0).
Proof. apply strptime_outcomes_aux. Qed.

Lemma strptime_outcomes_witness :
  valid (mk_datetime 2017 1 1 1 1 1 0) /\ microsecond (mk_datetime 2017 1 1 1 1 1 0) = 0.
Proof.
  exact (proj2 (strptime_outcomes "2017:01:01 01:01:01" layout_colon)
               (mk_datetime 2017 1 1 1 1 1 0) eq_refl).
Defined.

Lemma parse_layouts_total date layouts :
  exists t, parse_layouts date layouts = Ok t.
Proof.
  induction layouts as [|fmt layouts IH]; simpl; [eauto|].
  destruct (strptime date fmt) as [t|e] eqn:E; [eauto|].
  rewrite (proj1 (strptime_outcomes_aux date fmt) e E). exact IH.
Qed.


Lemma sub_timedelta_raises t d e : sub_timedelta t d = Raise e -> e = OverflowError.
Proof.
  unfold sub_timedelta.
  match goal with |- context [if ?b then _ else _] => destruct b end.
  - destruct (ord2ymd _) as [[? ?] ?]. discriminate.
  - now intros [= <-].
Qed.

Lemma resolved_with_raises date subseconds off e :
  resolved_with date subseconds off = Raise e -> e = OverflowError.
Proof.
  unfold resolved_with, naive.
  destruct (parse_layouts_total date [layout_colon; layout_hyphen]) as [t ->].
  cbn [mbind result_bind]. unfold minus_offset.
  destruct t as [t|]; [|discriminate]. destruct off as [d|]; [|discriminate].
  destruct (td_truthy d); [|discriminate].
  destruct (sub_timedelta t d) as [t'|e'] eqn:Es; [discriminate|].
  apply sub_timedelta_raises in Es. subst e'. now intros [= <-].
Qed.

Lemma from_datestring_parts datestr :
  from_datestring datestr
  = resolve_parts (hd "" (Py.split_on "." datestr)) (nth 1 (Py.split_on "." datestr) "").
Proof. reflexivity. Qed.

Lemma from_datestring_raises_aux datestr e :
  from_datestring datestr = Raise e -> e = OverflowError.
Proof.
  rewrite from_datestring_parts. unfold resolve_parts.
  set (date := hd "" (Py.split_on "." datestr)).
  set (subseconds := nth 1 (Py.split_on "." datestr) "").
  destruct (parse_offset_bounded (sub group2 date)) as (o1 & E1 & _).
  destruct (parse_offset_bounded (sub group2 subseconds)) as (o2 & E2 & _).
  rewrite E1, E2.
  destruct (offset_search date); destruct (offset_search subseconds);
    cbn [mbind result_bind]; apply resolved_with_raises.
Qed.

Lemma all_chars_split p c s :
  all_chars p s = true -> Forall (fun part => all_chars p part = true) (Py.split_on c s).
Proof.
  induction s as [|a s IH]; simpl; intros H.
  - repeat constructor.
  - apply andb_true_iff in H as [Ha Hs]. specialize (IH Hs).
    destruct (Ascii.eqb a c); [constructor; [reflexivity | exact IH]|].
    destruct (Py.split_on c s) as [|part parts].
    + constructor; [simpl; now rewrite Ha | constructor].
    + inversion IH; subst. constructor; [simpl; now rewrite Ha | assumption].
Qed.

Lemma no_sign_tail c s : no_sign (String c s) = true -> no_sign s = true.
Proof. unfold no_sign. simpl. intros H. now apply andb_true_iff in H as [_ H]. Qed.

Lemma offset_search_no_sign s : no_sign s = true -> offset_search s = false.
Proof.
  intros H. unfold offset_search.
  assert (E : search offset_search_at s = None); [|now rewrite E].
  induction s as [|c s IH]; simpl.
  - reflexivity.
  - unfold offset_search_at at 1. rewrite (greedy_dot_no_sign _ H).
    apply IH. eapply no_sign_tail; eauto.
Qed.

Lemma Forall_hd_nth (P : string -> Prop) (l : list string) :
  P "" -> Forall P l -> P (hd "" l) /\ P (nth 1 l "").
Proof.
  intros H0 H. destruct H as [|a l Ha Hl]; [auto|].
  split; [exact Ha|]. destruct Hl; simpl; auto.
Qed.

(** X3. [from_datestring] raises nothing but OverflowError; on a string
    without a plus or minus sign it does not raise at all, records no offset
    and returns the naive instant of the text before the first period, with
    the text between the first and the second period as sub-seconds. *)
Theorem from_datestring_outcomes (datestr : string) :
  (forall e, from_datestring datestr = Raise e -> e = OverflowError)
  /\ (no_sign datestr = true ->
      exists t,
        naive (hd "" (Py.split_on "." datestr)) = Ok t
        /\ from_datestring datestr
           = Ok (mk_resolved t (nth 1 (Py.split_on "." datestr) "") None)).
Proof.
  split; [intros e; apply from_datestring_raises_aux|].
  intros H. unfold from_datestring.
  destruct (Forall_hd_nth (fun part => all_chars (fun c => negb (is_sign c)) part = true)
              (Py.split_on "." datestr) eq_refl (all_chars_split _ "." _ H)) as [Hd Hs].
  rewrite (offset_search_no_sign _ Hd), (offset_search_no_sign _ Hs).
  cbn [mbind result_bind]. unfold naive.
  destruct (parse_layouts_total (hd "" (Py.split_on "." datestr))
              [layout_colon; layout_hyphen]) as [t ->].
  exists t. split; [reflexivity|]. cbn [mbind result_bind]. now destruct t.
Qed.

Lemma from_datestring_outcomes_witness :
  exists t,
    naive "2017:10:06 01:01:01" = Ok t
    /\ from_datestring "2017:10:06 01:01:01.250" = Ok (mk_resolved t "250" None).
Proof.
  exact (proj2 (from_datestring_outcomes "2017:10:06 01:01:01.250") eq_refl).
Defined.

(** X4. Of a timestamp with more than one period only the text before the
    first and the text between the first and the second are read; what
    follows the second period changes nothing. *)
Theorem later_parts_discarded (date subseconds rest : string) :
  has_char "." date = false -> has_char "." subseconds = false ->
  from_datestring (date ++ String "." (subseconds ++ String "." rest))
  = from_datestring (date ++ String "." subseconds).
Proof.
  intros Hd Hs. unfold from_datestring.
  rewrite !(split_on_first _ _ _ Hd), (split_on_first _ _ _ Hs), (split_on_absent _ _ Hs).
  reflexivity.
Qed.

Lemma later_parts_discarded_witness :
  from_datestring "2017:01:01 01:01:01.123.+05:00"
  = from_datestring "2017:01:01 01:01:01.123".
Proof.
  exact (later_parts_discarded "2017:01:01 01:01:01" "123" "+05:00" eq_refl eq_refl).
Defined.

(** *** The time-zone fields of the record *)

(** A field that the loop over the time-zone fields passes by: missing,
    falsy, or a string in which no offset or a zero offset is found. *)
Definition inert (v : option json) : Prop :=
  match v with
  | None => True
  | Some v =>
      json_truthy v = false
      \/ exists s, v = JStr s
                   /\ (_parse_offset (JStr s) = Ok None \/ _parse_offset (JStr s) = Ok (Some 0))
  end.

Lemma apply_timezone_inert (exif : gmap string json) t key keys :
  inert (exif !! key) ->
  apply_timezone exif t (key :: keys) = apply_timezone exif t keys.
Proof.
  intros H. cbn [apply_timezone]. destruct (exif !! key) as [v|]; [|reflexivity].
  destruct H as [H | (s & -> & [H|H])].
  - now rewrite H.
  - destruct (json_truthy (JStr s)); now rewrite ?H.
  - destruct (json_truthy (JStr s)); now rewrite ?H.
Qed.

Lemma apply_timezone_all_inert (exif : gmap string json) t keys :
  Forall (fun k => inert (exif !! k)) keys -> apply_timezone exif t keys = Ok (t, None).
Proof.
  induction 1 as [|k keys Hk _ IH]; [reflexivity|].
  now rewrite (apply_timezone_inert exif t k keys Hk).
Qed.

Lemma apply_timezone_found (exif : gmap string json) t before key after o :
  Forall (fun k => inert (exif !! k)) before ->
  exif !! key = Some (JStr (render o)) -> well_formed o = true -> seconds_of o <> 0 ->
  apply_timezone exif t (before ++ key :: after)%list
  = (t' ← sub_timedelta t (seconds_of o); Ok (t', Some (seconds_of o))).
Proof.
  intros Hb Hk Ho Hnz. induction Hb as [|k before Hk' _ IH].
  - cbn [app apply_timezone]. rewrite Hk.
    change (json_truthy (JStr (render o))) with true. cbv iota.
    rewrite (parse_offset_render o Ho). cbn [mbind result_bind].
    unfold td_truthy. apply Z.eqb_neq in Hnz. now rewrite Hnz.
  - change ((k :: before) ++ key :: after)%list with (k :: (before ++ key :: after))%list.
    now rewrite (apply_timezone_inert exif t k _ Hk').
Qed.

Lemma apply_timezone_type_error (exif : gmap string json) t before key after v :
  Forall (fun k => inert (exif !! k)) before ->
  exif !! key = Some v -> json_truthy v = true -> (forall s, v <> JStr s) ->
  apply_timezone exif t (before ++ key :: after)%list = Raise TypeError.
Proof.
  intros Hb Hk Hv Hns. induction Hb as [|k before Hk' _ IH].
  - cbn [app apply_timezone]. rewrite Hk, Hv. unfold _parse_offset. rewrite Hv. cbn [negb].
    destruct v; try reflexivity. now destruct (Hns s).
  - change ((k :: before) ++ key :: after)%list with (k :: (before ++ key :: after))%list.
    now rewrite (apply_timezone_inert exif t k _ Hk').
Qed.

(** What [from_exif] does with the instant [t] that the chosen timestamp
    gave when the timestamp carried no recorded offset. *)
Lemma from_exif_zone mt self exif timestamp user_regex date_field s t sub :
  scan exif (keys_of date_field) = Some s ->
  Py.truthy s = true -> Py.startswith s "0000" = false ->
  from_datestring s = Ok (mk_resolved (Some t) sub None) ->
  from_exif mt self exif timestamp user_regex date_field
  = ('(t', off) ← apply_timezone exif t tz_keys; Ok (Some (mk_resolved (Some t') sub off))).
Proof.
  intros Hscan Ht Hz Hfd. unfold from_exif. rewrite Hscan, Ht, Hz, Hfd.
  cbn [negb andb mbind result_bind date offset subseconds].
  destruct (apply_timezone exif t tz_keys) as [[t' off]|e]; reflexivity.
Qed.

(** X5. When the chosen timestamp gave an instant and no offset of its
    own, the fields OffsetTimeOriginal, OffsetTimeDigitized and TimeZone are
    read in that order: the first that holds a well-formed offset other than
    zero, the fields before it being missing, falsy or without a non-zero
    offset, is subtracted from the instant and recorded, whatever the fields
    after it hold; when all three are of the passed-by kind the instant
    stays and no offset is recorded. *)
Theorem zone_fields_in_order mt self (exif : gmap string json) timestamp user_regex date_field
    s t sub :
  scan exif (keys_of date_field) = Some s ->
  Py.truthy s = true -> Py.startswith s "0000" = false ->
  from_datestring s = Ok (mk_resolved (Some t) sub None) ->
  (forall before key after o,
     tz_keys = (before ++ key :: after)%list ->
     Forall (fun k => inert (exif !! k)) before ->
     exif !! key = Some (JStr (render o)) -> well_formed o = true -> seconds_of o <> 0 ->
     from_exif mt self exif timestamp user_regex date_field
     = (t' ← sub_timedelta t (seconds_of o);
        Ok (Some (mk_resolved (Some t') sub (Some (seconds_of o))))))
  /\ (Forall (fun k => inert (exif !! k)) tz_keys ->
      from_exif mt self exif timestamp user_regex date_field
      = Ok (Some (mk_resolved (Some t) sub None))).
Proof.
  intros Hscan Ht Hz Hfd.
  rewrite (from_exif_zone mt self exif timestamp user_regex date_field s t sub Hscan Ht Hz Hfd).
  split.
  - intros before key after o Hkeys Hb Hk Ho Hnz.
    rewrite Hkeys, (apply_timezone_found exif t before key after o Hb Hk Ho Hnz).
    destruct (sub_timedelta t (seconds_of o)); reflexivity.
  - intros Hall. now rewrite (apply_timezone_all_inert exif t tz_keys Hall).
Qed.

Definition zoned_record : gmap string json :=
  <["OffsetTimeOriginal" := JStr "Z"]>
    (<["OffsetTimeDigitized" := JStr "-07:00"]>
       (<["TimeZone" := JInt 5]> {[ "CreateDate" := JStr "2017:01:01 01:01:01" ]})).

Lemma zone_fields_in_order_witness :
  from_exif no_files (Some "x.jpg") zoned_record false None None
  = Ok (Some (mk_resolved (Some (mk_datetime 2017 1 1 8 1 1 0)) "" (Some (- 25200)))).
Proof.
  refine (proj1 (zone_fields_in_order no_files (Some "x.jpg") zoned_record false None None
                   "2017:01:01 01:01:01" (mk_datetime 2017 1 1 1 1 1 0) ""
                   eq_refl eq_refl eq_refl eq_refl)
                ["OffsetTimeOriginal"] "OffsetTimeDigitized" ["TimeZone"]
                (mk_offset_text "-" "0" "7" true "0" "0") eq_refl _ eq_refl eq_refl _).
  - constructor; [|constructor]. right. exists "Z". split; [reflexivity | now left].
  - discriminate.
Defined.

(** X6. When the chosen timestamp gave an instant and no offset of its
    own, and the first time-zone field that is not passed by holds a truthy
    value that is no string (a non-zero number, say), [from_exif] raises
    TypeError. *)
Theorem zone_field_number_raises mt self (exif : gmap string json) timestamp user_regex
    date_field s t sub before key after v :
  scan exif (keys_of date_field) = Some s ->
  Py.truthy s = true -> Py.startswith s "0000" = false ->
  from_datestring s = Ok (mk_resolved (Some t) sub None) ->
  tz_keys = (before ++ key :: after)%list ->
  Forall (fun k => inert (exif !! k)) before ->
  exif !! key = Some v -> json_truthy v = true -> (forall s', v <> JStr s') ->
  from_exif mt self exif timestamp user_regex date_field = Raise TypeError.
Proof.
  intros Hscan Ht Hz Hfd Hkeys Hb Hk Hv Hns.
  rewrite (from_exif_zone mt self exif timestamp user_regex date_field s t sub Hscan Ht Hz Hfd).
  now rewrite Hkeys, (apply_timezone_type_error exif t before key after v Hb Hk Hv Hns).
Qed.

Definition numbered_record : gmap string json :=
  <["TimeZone" := JInt 2]> {[ "CreateDate" := JStr "2017:01:01 01:01:01" ]}.

Lemma zone_field_number_raises_witness :
  from_exif no_files (Some "x.jpg") numbered_record false None None = Raise TypeError.
Proof.
  refine (zone_field_number_raises no_files (Some "x.jpg") numbered_record false None None
            "2017:01:01 01:01:01" (mk_datetime 2017 1 1 1 1 1 0) ""
            ["OffsetTimeOriginal"; "OffsetTimeDigitized"] "TimeZone" [] (JInt 2)
            eq_refl eq_refl eq_refl eq_refl eq_refl _ eq_refl eq_refl _).
  - repeat constructor.
  - discriminate.
Defined.

(** *** Dates from file names, and what the resolver can raise *)

Lemma int_raises s e : Py.int s = Raise e -> e = ValueError.
Proof.
  unfold Py.int.
  destruct (Py.rstrip_by _ _) as [|c r].
  - destruct (Py.int_digits 0 false ""); [discriminate | now intros [= <-]].
  - destruct (Ascii.eqb c "-"); [|destruct (Ascii.eqb c "+")];
      match goal with
      | |- context [Py.int_digits 0 false ?x] => destruct (Py.int_digits 0 false x)
      end; try discriminate; now intros [= <-].
Qed.

Lemma ints_of_raises groups e : ints_of groups = Raise e -> e = ValueError.
Proof.
  induction groups as [|[a x] groups IH]; simpl; [discriminate|].
  destruct (Py.int x) as [n|e'] eqn:E.
  - cbn [mbind result_bind]. destruct (ints_of groups) as [rest|e'']; [discriminate|].
    cbn [mbind result_bind]. intros [= <-]. now apply IH.
  - cbn [mbind result_bind]. intros [= <-]. now apply int_raises in E.
Qed.

Lemma datetime_new_raises y m d H M S e :
  datetime_new y m d H M S = Raise e -> e = ValueError \/ e = OverflowError.
Proof.
  unfold datetime_new. destruct (forallb _ _); [|intros [= <-]; now right].
  destruct (_ && _); [discriminate | intros [= <-]; now left].
Qed.

Lemma build_outcomes date_object :
  (forall e, build date_object = Raise e ->
             e = KeyError \/ e = ValueError \/ e = OverflowError)
  /\ (forall t, build date_object = Ok t -> valid t /\ microsecond t = 0).
Proof.
  unfold build, getitem.
  destruct (date_object !! "year") as [y|];
    [|split; [intros e [= <-]; auto | discriminate]].
  destruct (date_object !! "month") as [m|];
    [|split; [intros e [= <-]; auto | discriminate]].
  destruct (date_object !! "day") as [d|];
    [|split; [intros e [= <-]; auto | discriminate]].
  cbn [mbind result_bind]. split.
  - intros e He. apply datetime_new_raises in He. tauto.
  - intros t Ht. apply datetime_new_valid in Ht as (-> & H1 & H2).
    split; [split; assumption | reflexivity].
Qed.

Lemma pattern_date_outcomes_aux (rx : regex) (name : string) :
  (forall e, pattern_date rx name = Raise e -> e = OverflowError)
  /\ (forall t, pattern_date rx name = Ok (Some t) -> valid t /\ microsecond t = 0).
Proof.
  unfold pattern_date. destruct (rx name) as [m|]; [|split; discriminate].
  destruct (ints_of (groupdict "0" m)) as [match_dir|e0] eqn:Ei.
  - cbn [mbind result_bind].
    destruct (build_outcomes (list_to_map match_dir)) as [Hraise Hok].
    destruct (build (list_to_map match_dir)) as [t|e0].
    + split; [discriminate|]. intros t' [= <-]. now apply Hok.
    + destruct (Hraise e0 eq_refl) as [-> | [-> | ->]]; split; try discriminate.
      now intros e [= <-].
  - apply ints_of_raises in Ei. subst e0. cbn [mbind result_bind]. split; discriminate.
Qed.

(** X7. Whatever the pattern, a date that [from_filename] takes from the
    groups of a match is a date of the calendar with a time of the day, a
    match whose groups are missing, no numbers or out of range gives none,
    and the only exception that leaves the block is OverflowError (a group
    beyond a C int); with the default pattern there is none at all. *)
Theorem pattern_date_outcomes (rx : regex) (name : string) :
  (forall e, pattern_date rx name = Raise e -> e = OverflowError)
  /\ (forall t, pattern_date rx name = Ok (Some t) -> valid t /\ microsecond t = 0)
  /\ (exists found, pattern_date default_regex name = Ok found).
Proof.
  destruct (pattern_date_outcomes_aux rx name) as [H1 H2].
  repeat split; try assumption; try (now apply H2).
  apply pattern_date_default_total.
Qed.

Lemma pattern_date_outcomes_witness :
  valid (mk_datetime 2016 9 15 12 34 56 0).
Proof.
  exact (proj1 (proj1 (proj2 (pattern_date_outcomes default_regex "IMG_20160915_123456.jpg"))
                      (mk_datetime 2016 9 15 12 34 56 0) eq_refl)).
Defined.

Lemma parse_offset_raises v e : _parse_offset v = Raise e -> e = TypeError.
Proof.
  destruct v as [| | |s| |]; unfold _parse_offset;
    try (destruct (negb _); [discriminate | now intros [= <-]]).
  destruct (parse_offset_bounded s) as (o & E & _). unfold _parse_offset in E.
  rewrite E. discriminate.
Qed.

Lemma apply_timezone_raises (exif : gmap string json) t keys e :
  apply_timezone exif t keys = Raise e -> e = TypeError \/ e = OverflowError.
Proof.
  induction keys as [|k keys IH]; simpl; [discriminate|].
  destruct (exif !! k) as [v|]; [|exact IH].
  destruct (json_truthy v); [|exact IH].
  destruct (_parse_offset v) as [[d|]|e'] eqn:E; cbn [mbind result_bind].
  - destruct (td_truthy d); [|exact IH].
    destruct (sub_timedelta t d) as [t'|e''] eqn:Es; [discriminate|].
    apply sub_timedelta_raises in Es. subst. intros [= <-]. now right.
  - exact IH.
  - apply parse_offset_raises in E. subst. intros [= <-]. now left.
Qed.

Lemma from_filename_outcomes mt f user_regex timestamp :
  (forall e, from_filename mt f user_regex timestamp = Raise e ->
             e = OverflowError \/ (timestamp = true /\ mt f = Raise e))
  /\ (forall r, from_filename mt f user_regex timestamp = Ok (Some r) ->
                exists t, date r = Some t).
Proof.
  unfold from_filename.
  destruct (pattern_date_outcomes_aux (from_option id default_regex user_regex)
              (OsPath.basename f)) as [Hraise _].
  destruct (pattern_date _ _) as [[t|]|e0]; cbn [mbind result_bind].
  - split; [discriminate|]. intros r [= <-]. eauto.
  - destruct timestamp; [|split; discriminate].
    unfold from_timestamp. destruct (mt f) as [t|e0]; cbn [mbind result_bind].
    + split; [discriminate|]. intros r [= <-]. eauto.
    + split; [intros e [= <-]; now right | discriminate].
  - split; [|discriminate]. intros e [= <-]. left. now apply Hraise.
Qed.

Lemma from_exif_outcomes_aux mt self (exif : gmap string json) timestamp user_regex date_field :
  (forall e, from_exif mt self exif timestamp user_regex date_field = Raise e ->
             e = TypeError \/ e = OverflowError
             \/ exists f, self = Some f /\ timestamp = true /\ mt f = Raise e)
  /\ (forall f r, self = Some f -> Py.truthy f = true ->
                  from_exif mt self exif timestamp user_regex date_field = Ok (Some r) ->
                  exists t, date r = Some t)
  /\ (self = None ->
      from_exif mt self exif timestamp user_regex date_field <> Ok None).
Proof.
  unfold from_exif.
  set (parsed := match scan exif (keys_of date_field) with
                 | Some s => if Py.truthy s && negb (Py.startswith s "0000")
                             then from_datestring s else Ok unknown_date
                 | None => Ok unknown_date
                 end).
  assert (Hparsed : forall e, parsed = Raise e -> e = OverflowError).
  { subst parsed. intros e. destruct (scan exif (keys_of date_field)) as [s|]; [|discriminate].
    destruct (_ && _); [apply from_datestring_raises_aux | discriminate]. }
  destruct parsed as [pd|e0].
  2:{ cbn [mbind result_bind]. pose proof (Hparsed e0 eq_refl). subst e0.
      repeat split; try discriminate. intros e [= <-]. auto. }
  cbn [mbind result_bind].
  destruct (date pd) as [t|] eqn:Ed.
  - destruct (offset pd) as [d|] eqn:Eo; cbn [mbind result_bind].
    + rewrite Ed. repeat split; try discriminate. intros f r _ _ [= <-]. eauto.
    + destruct (apply_timezone exif t tz_keys) as [[t' off]|e0] eqn:Ez;
        cbn [mbind result_bind date].
      * repeat split; try discriminate. intros f r _ _ [= <-]. eauto.
      * apply apply_timezone_raises in Ez. repeat split; try discriminate.
        intros e [= <-]. tauto.
  - cbn [mbind result_bind]. rewrite Ed.
    destruct self as [f|]; [|repeat split; discriminate].
    destruct (Py.truthy f) eqn:Ef.
    + destruct (from_filename_outcomes mt f user_regex timestamp) as [Hraise Hok].
      repeat split; try discriminate.
      * intros e He. destruct (Hraise e He) as [|[? ?]]; [auto|]. right. right. eauto.
      * intros f' r [= <-] _ Hr. now apply Hok.
    + repeat split; try discriminate. intros f' r [= <-]. congruence.
Qed.

(** X8. [from_exif] raises nothing but TypeError (a time-zone field that
    is no string), OverflowError (an instant moved out of the years 1 to
    9999, or a file-name group beyond a C int), and what reading the
    modification time of the file raises.  A resolver built on a file name
    returns nothing or a record with an instant; one built without a name
    always returns a record. *)
Theorem from_exif_outcomes mt self (exif : gmap string json) timestamp user_regex date_field :
  (forall e, from_exif mt self exif timestamp user_regex date_field = Raise e ->
             e = TypeError \/ e = OverflowError \/ exists f, self = Some f /\ mt f = Raise e)
  /\ (forall f r, self = Some f -> Py.truthy f = true ->
                  from_exif mt self exif timestamp user_regex date_field = Ok (Some r) ->
                  exists t, date r = Some t)
  /\ (self = None ->
      from_exif mt self exif timestamp user_regex date_field <> Ok None).
Proof.
  destruct (from_exif_outcomes_aux mt self exif timestamp user_regex date_field)
    as (Hraise & Hnamed & Hbare).
  repeat split; try assumption.
  intros e He. destruct (Hraise e He) as [|[|(f & ? & _ & ?)]]; eauto.
Qed.

Lemma from_exif_outcomes_witness :
  exists t,
    date (mk_resolved (Some (mk_datetime 2016 9 15 12 34 56 0)) "" None) = Some t.
Proof.
  exact (proj1 (proj2 (from_exif_outcomes no_files (Some "/in/IMG_20160915_123456.jpg") ∅
                         false None None))
               "/in/IMG_20160915_123456.jpg" _ eq_refl eq_refl eq_refl).
Defined.

End DateExtras.
(** ** The per-file pipeline, beyond the claims *)

Module PhockupExtras.
Import Datetime Phockup StringFacts TextFacts.
Import PhockupFacts.

#[local] Arguments String.append : simpl nomatch.

(** *** What one file can do to the state *)

(** The transfer of a companion: no counter moves, a dry run and a transfer
    that is no move keep every file, and the log only grows. *)
Definition companion_step (self : config) (st st' : state) : Prop :=
  files_processed st' = files_processed st
  /\ duplicates_found st' = duplicates_found st
  /\ unknown_found st' = unknown_found st
  /\ files_moved st' = files_moved st
  /\ files_copied st' = files_copied st
  /\ (dry_run self = true -> fs st' = fs st)
  /\ (move self = false -> fs st ⊆ fs st')
  /\ log st `prefix_of` log st'.

Lemma companion_step_refl self st : companion_step self st st.
Proof. unfold companion_step. repeat split; auto. Qed.

Lemma companion_step_trans self a b c :
  companion_step self a b -> companion_step self b c -> companion_step self a c.
Proof.
  unfold companion_step.
  intros (?&?&?&?&?&Hd1&Hm1&Hl1) (?&?&?&?&?&Hd2&Hm2&Hl2).
  repeat split; try congruence.
  - intros Hd. rewrite (Hd2 Hd). auto.
  - intros Hm. etrans; [apply Hm1 | apply Hm2]; exact Hm.
  - etrans; [exact Hl1 | exact Hl2].
Qed.

Lemma companion_step_log self st e : companion_step self st (add_log st e).
Proof.
  unfold companion_step. repeat split; auto. cbn [log add_log]. now apply prefix_app_r.
Qed.

Lemma transfer_companion_step self st original target_path :
  isfile (fs st) original = true ->
  exists st', _transfer_companion self st original target_path = Ok st'
              /\ companion_step self st st'.
Proof.
  unfold isfile. destruct (fs st !! original) as [f|] eqn:Ho; [intros _ | discriminate].
  unfold _transfer_companion.
  destruct (dry_run self) eqn:Hd.
  { eexists. split; [reflexivity | apply companion_step_log]. }
  unfold isfile. cbn [fs add_log].
  destruct (fs st !! target_path) eqn:Ht.
  { eexists. split; [reflexivity|].
    eapply companion_step_trans; apply companion_step_log. }
  assert (Hfresh : fs st ⊆ <[target_path := f]> (fs st)) by now apply insert_subseteq.
  unfold shutil_move, os_link, copy_file. cbn [fs add_log]. rewrite Ho.
  destruct (move self) eqn:Hm; [|destruct (link self)];
    cbn [mbind result_bind]; eexists; (split; [reflexivity|]);
    unfold companion_step; cbn [fs set_fs add_log log files_processed duplicates_found
                                unknown_found files_moved files_copied];
    repeat split; try congruence; try (intros _; exact Hfresh);
    now apply prefix_app_r.
Qed.

Lemma transfer_all_step self output pairs :
  forall st, exists st', transfer_all self st output pairs = Ok st'
                         /\ companion_step self st st'.
Proof.
  induction pairs as [|[original target] rest IH]; intros st.
  - exists st. split; [reflexivity | apply companion_step_refl].
  - cbn [transfer_all].
    destruct (isfile (fs st) original) eqn:Ho; cbn [mbind result_bind].
    + destruct (transfer_companion_step self st original
                  (Py.join OsPath.sep [output; target]) Ho) as (st1 & E1 & H1).
      rewrite E1. cbn [mbind result_bind].
      destruct (IH st1) as (st' & E & H). exists st'. split; [exact E|].
      eapply companion_step_trans; eauto.
    + apply IH.
Qed.

Lemma process_sidecars_step self st original_filename file_name suffix output :
  exists st', process_sidecars self st original_filename file_name suffix output = Ok st'
              /\ companion_step self st st'.
Proof.
  unfold process_sidecars.
  match goal with
  | |- context [transfer_all self st output ?c] =>
      destruct (transfer_all_step self output c st) as (st1 & E1 & H1)
  end.
  rewrite E1. cbn [mbind result_bind].
  match goal with
  | |- context [transfer_all self st1 output ?c] =>
      destruct (transfer_all_step self output c st1) as (st2 & E2 & H2)
  end.
  rewrite E2. cbn [mbind result_bind].
  match goal with
  | |- context [transfer_all self st2 output ?c] =>
      destruct (transfer_all_step self output c st2) as (st3 & E3 & H3)
  end.
  exists st3. split; [exact E3|].
  eapply companion_step_trans; [exact H1|]. eapply companion_step_trans; eauto.
Qed.

(** The end of the loop: the processed counter is not touched, no counter
    goes down and at most one of them goes up, by one; a dry run keeps the
    files as they are, anything but a move keeps every file, and the log only
    grows. *)
Definition file_step (self : config) (st st' : state) : Prop :=
  files_processed st' = files_processed st
  /\ duplicates_found st <= duplicates_found st'
  /\ unknown_found st <= unknown_found st'
  /\ files_moved st <= files_moved st'
  /\ files_copied st <= files_copied st'
  /\ (duplicates_found st' - duplicates_found st) + (unknown_found st' - unknown_found st)
     + (files_moved st' - files_moved st) + (files_copied st' - files_copied st) <= 1
  /\ (dry_run self = true -> fs st' = fs st)
  /\ (move self = false -> fs st ⊆ fs st')
  /\ log st `prefix_of` log st'.

Lemma file_step_companion self st st1 st' :
  file_step self st st1 -> companion_step self st1 st' -> file_step self st st'.
Proof.
  unfold file_step, companion_step.
  intros (?&?&?&?&?&?&Hd1&Hm1&Hl1) (?&?&?&?&?&Hd2&Hm2&Hl2).
  repeat split; try lia.
  - intros Hd. rewrite (Hd2 Hd). auto.
  - intros Hm. etrans; [apply Hm1 | apply Hm2]; exact Hm.
  - etrans; [exact Hl1 | exact Hl2].
Qed.

Ltac counters :=
  unfold file_step;
  cbn [fs set_fs add_log log files_processed duplicates_found unknown_found files_moved
       files_copied incr_duplicates incr_unknown incr_moved incr_copied];
  repeat match goal with |- _ /\ _ => split end;
  try lia; try reflexivity; try (intros; reflexivity); try (now apply prefix_app_r).

Ltac stops := split; [discriminate | split; [intros ? [= <-] | discriminate]].

Lemma filters_outcomes self filename output target_file_type st file_date :
  (forall e, filters self filename output target_file_type st file_date = Raise e ->
             e = TypeError
             /\ exists r, file_date = FdDict r /\ Date.date r = None)
  /\ (forall st', filters self filename output target_file_type st file_date = Ok (Stop st') ->
                  file_step self st st')
  /\ (forall file_date',
        filters self filename output target_file_type st file_date = Ok (Pass file_date') ->
        file_date' = file_date \/ exists t, file_date' = FdInstant t).
Proof.
  unfold filters.
  destruct (match file_type self with
            | Some wanted => negb (bool_decide (Some wanted = target_file_type))
            | None => false
            end).
  { stops. counters. }
  destruct (skip_unknown self && Py.endswith output (no_date_dir self)).
  { stops. counters. }
  destruct (negb _) eqn:Hknown.
  2:{ split; [discriminate | split; [discriminate|]]. intros fd [= <-]. now left. }
  assert (Hcases : (exists t, match file_date with
                              | FdDict r => Date.date r
                              | FdInstant t => t
                              | FdNone => None
                              end = Some t)
                   \/ exists r, file_date = FdDict r /\ Date.date r = None).
  { destruct file_date as [|r|[t|]]; try discriminate Hknown.
    - destruct (Date.date r) eqn:E; eauto.
    - eauto. }
  destruct Hcases as [[t Ht] | (r & -> & Hr)].
  - rewrite Ht. unfold instant_lt, instant_gt.
    destruct (from_date self), (to_date self); cbn [mbind result_bind];
      match goal with
      | |- context [if ?b then _ else _] => destruct b
      end;
      (split; [discriminate | split]);
      try discriminate;
      try (intros fd [= <-]; solve [right; eauto]);
      try (intros st' [= <-]; counters).
  - rewrite Hr. unfold instant_lt, instant_gt.
    destruct (from_date self), (to_date self); cbn [mbind result_bind];
      (split; [|split]); try discriminate;
      try (intros e [= <-]; split; [reflexivity | eauto]);
      try (intros fd [= <-]; right; eauto).
Qed.

Lemma place_outcomes self filename output target_file_name target_file_path
    st file_date suffix target_file :
  (forall e, place self filename output target_file_name target_file_path st file_date
                   suffix target_file = Raise e ->
             e = FileNotFoundError /\ fs st !! filename = None /\ fs st !! target_file = None
             /\ link self = true /\ move self = false /\ dry_run self = false)
  /\ (forall st', place self filename output target_file_name target_file_path st file_date
                        suffix target_file = Ok (Break st') ->
                  file_step self st st')
  /\ (forall file_date' suffix' target_file',
        place self filename output target_file_name target_file_path st file_date
              suffix target_file = Ok (Continue file_date' suffix' target_file') ->
        file_date' = file_date /\ suffix' = suffix + 1
        /\ target_file' = disambiguated target_file_path (suffix + 1)
        /\ isfile (fs st) target_file = true).
Proof.
  unfold place, isfile, stat, remove. cbv zeta.
  destruct (fs st !! target_file) as [target_stats|] eqn:Ht.
  - destruct (fs st !! filename) as [source_stats|] eqn:Hs; cbn [mbind result_bind].
    2:{ stops. counters. }
    destruct (is_duplicate source_stats target_stats).
    2:{ split; [discriminate | split; [discriminate|]].
        intros ? ? ? [= <- <- <-]. repeat split. }
    destruct (movedel self && move self && skip_unknown self) eqn:Hdel.
    2:{ stops. counters. }
    apply andb_true_iff in Hdel as [Hdel _]. apply andb_true_iff in Hdel as [_ Hmove].
    destruct (dry_run self) eqn:Hd; cbn [negb mbind result_bind]; stops; counters;
      congruence.
  - assert (Htransferred : forall st0, file_step self st st0 ->
              exists st1,
                (st1 ← process_sidecars self (add_log st0 (Transferred filename target_file))
                                        filename target_file_name suffix output;
                 Ok (Break st1)) = Ok (Break st1)
                /\ file_step self st st1).
    { intros st0 H0.
      destruct (process_sidecars_step self (add_log st0 (Transferred filename target_file))
                  filename target_file_name suffix output) as (st1 & E & H1).
      rewrite E. exists st1. split; [reflexivity|].
      eapply file_step_companion; [exact H0|].
      eapply companion_step_trans; [apply companion_step_log | exact H1]. }
    assert (Hfresh : forall f, fs st ⊆ <[target_file := f]> (fs st)).
    { intros f. now apply insert_subseteq. }
    unfold shutil_move, os_link, copy_file.
    cbn [fs incr_moved incr_copied].
    destruct (move self) eqn:Hm.
    + destruct (dry_run self) eqn:Hd; cbn [negb].
      * destruct (Htransferred (incr_moved st)) as (st1 & E & H1); [counters|].
        rewrite E. stops. exact H1.
      * destruct (fs st !! filename) as [f|] eqn:Hs.
        -- destruct (Htransferred (set_fs (incr_moved st)
                                          (<[target_file := f]> (delete filename (fs st)))))
             as (st1 & E & H1); [counters; congruence|].
           rewrite E. stops. exact H1.
        -- stops. counters.
    + destruct (link self && negb (dry_run self)) eqn:Hl.
      * apply andb_true_iff in Hl as [Hl Hd]. apply negb_true_iff in Hd.
        destruct (fs st !! filename) as [f|] eqn:Hs; cbn [mbind result_bind].
        -- destruct (Htransferred (set_fs st (<[target_file := f]> (fs st))))
             as (st1 & E & H1); [counters; try congruence; intros; apply Hfresh|].
           rewrite E. stops. exact H1.
        -- split; [|split; discriminate]. intros e [= <-]. repeat split; assumption.
      * destruct (dry_run self) eqn:Hd; cbn [negb].
        -- destruct (Htransferred (incr_copied st)) as (st1 & E & H1); [counters|].
           rewrite E. stops. exact H1.
        -- destruct (fs st !! filename) as [f|] eqn:Hs.
           ++ destruct (Htransferred (set_fs (incr_copied st) (<[target_file := f]> (fs st))))
                as (st1 & E & H1); [counters; try congruence; intros; apply Hfresh|].
              rewrite E. stops. exact H1.
           ++ stops. counters.
Qed.

(** The instant of a date of the resolver is there. *)
Definition dated (file_date : file_date_var) : Prop :=
  match file_date with
  | FdDict r => exists t, Date.date r = Some t
  | FdNone | FdInstant _ => True
  end.

Lemma body_outcomes self filename output target_file_name target_file_path target_file_type
    st file_date suffix target_file :
  dated file_date ->
  (forall e, loop_body self filename output target_file_name target_file_path
                       target_file_type st file_date suffix target_file = Raise e ->
             e = FileNotFoundError /\ fs st !! filename = None /\ fs st !! target_file = None
             /\ link self = true /\ move self = false /\ dry_run self = false)
  /\ (forall st', loop_body self filename output target_file_name target_file_path
                            target_file_type st file_date suffix target_file = Ok (Break st') ->
                  file_step self st st')
  /\ (forall file_date' suffix' target_file',
        loop_body self filename output target_file_name target_file_path
                  target_file_type st file_date suffix target_file
        = Ok (Continue file_date' suffix' target_file') ->
        dated file_date' /\ suffix' = suffix + 1
        /\ target_file' = disambiguated target_file_path (suffix + 1)
        /\ isfile (fs st) target_file = true).
Proof.
  intros Hdated. unfold loop_body.
  destruct (filters_outcomes self filename output target_file_type st file_date)
    as (Hraise & Hstop & Hpass).
  destruct (filters self filename output target_file_type st file_date)
    as [[st0|file_date0]|e0]; cbn [mbind result_bind].
  - split; [discriminate | split; [|discriminate]]. intros st' [= <-]. now apply Hstop.
  - destruct (place_outcomes self filename output target_file_name target_file_path
                st file_date0 suffix target_file) as (Hr & Hb & Hc).
    split; [exact Hr | split; [exact Hb|]].
    intros fd' s' t' H. destruct (Hc fd' s' t' H) as (-> & -> & -> & Hfile).
    repeat split; try assumption.
    destruct (Hpass file_date0 eq_refl) as [-> | [t ->]]; [exact Hdated | exact I].
  - destruct (Hraise e0 eq_refl) as (_ & r & -> & Hr). destruct Hdated as [t Ht]. congruence.
Qed.

Lemma loop_outcomes self filename output target_file_name target_file_path target_file_type st :
  forall fuel file_date suffix target_file res,
    dated file_date ->
    loop fuel self filename output target_file_name target_file_path target_file_type
         st file_date suffix target_file = Some res ->
    match res with
    | Ok st' => file_step self st st'
    | Raise e => e = FileNotFoundError /\ fs st !! filename = None
                 /\ link self = true /\ move self = false /\ dry_run self = false
    end.
Proof.
  induction fuel as [|fuel IH]; intros file_date suffix target_file res Hdated; [discriminate|].
  cbn [loop].
  destruct (body_outcomes self filename output target_file_name target_file_path
              target_file_type st file_date suffix target_file Hdated) as (Hr & Hb & Hc).
  destruct (loop_body self filename output target_file_name target_file_path
              target_file_type st file_date suffix target_file) as [[st'|fd' s' t']|e].
  - intros [= <-]. now apply Hb.
  - intros H. apply (IH fd' s' t' res); [|exact H]. now destruct (Hc fd' s' t' eq_refl).
  - intros [= <-]. destruct (Hr e eq_refl) as (? & ? & _ & ? & ? & ?). auto.
Qed.

(** *** The names the loop tries *)

(** The name that the pass with a given suffix tries. *)
Definition target_of (target_file_path : string) (suffix : Z) : string :=
  if suffix =? 1 then target_file_path else disambiguated target_file_path suffix.

Lemma disambiguated_longer p n : disambiguated p n <> p.
Proof.
  unfold disambiguated. intros H.
  pose proof (splitext_parts p) as Hp.
  destruct (OsPath.splitext p) as [a b]. cbn [fst snd] in *.
  rewrite <- Hp in H. apply append_inv_head in H.
  apply (f_equal String.length) in H. simpl in H.
  rewrite DateFacts.length_append in H. lia.
Qed.

Lemma target_of_inj p i j : 1 <= i -> 1 <= j -> target_of p i = target_of p j -> i = j.
Proof.
  intros Hi Hj. unfold target_of.
  destruct (i =? 1) eqn:Ei; destruct (j =? 1) eqn:Ej;
    try apply Z.eqb_eq in Ei; try apply Z.eqb_eq in Ej; try lia.
  - intros H. symmetry in H. now apply disambiguated_longer in H.
  - intros H. now apply disambiguated_longer in H.
  - unfold disambiguated. destruct (OsPath.splitext p) as [a b]. cbn [fst snd].
    intros H. apply append_inv_head in H. simpl in H. injection H as H.
    apply (f_equal decimal) in H. rewrite !str_tail_decimal in H by lia.
    assert (0 < 10 ^ Z.of_nat (String.length b)) by (apply Z.pow_pos_nonneg; lia). nia.
Qed.

Lemma loop_returns self filename output target_file_name target_file_path target_file_type st :
  forall fuel file_date suffix (seen : gset string),
    1 <= suffix ->
    seen ⊆ dom (fs st) ->
    (forall j, suffix <= j -> target_of target_file_path j ∉ seen) ->
    (size (fs st) < fuel + size seen)%nat ->
    exists res,
      loop fuel self filename output target_file_name target_file_path target_file_type
           st file_date suffix (target_of target_file_path suffix) = Some res.
Proof.
  induction fuel as [|fuel IH]; intros file_date suffix seen Hs Hseen Hfresh Hsize.
  - apply subseteq_size in Hseen. rewrite size_dom in Hseen. lia.
  - cbn [loop].
    destruct (loop_body self filename output target_file_name target_file_path
                target_file_type st file_date suffix (target_of target_file_path suffix))
      as [[st'|fd' s' t']|e] eqn:E; [eauto | | eauto].
    assert (Hc : s' = suffix + 1 /\ t' = disambiguated target_file_path (suffix + 1)
                 /\ isfile (fs st) (target_of target_file_path suffix) = true).
    { unfold loop_body in E.
      destruct (filters self filename output target_file_type st file_date)
        as [[st0|fd0]|e0]; cbn [mbind result_bind] in E; try discriminate.
      destruct (place_outcomes self filename output target_file_name target_file_path
                  st fd0 suffix (target_of target_file_path suffix)) as (_ & _ & Hc).
      destruct (Hc _ _ _ E) as (_ & ? & ? & ?). auto. }
    destruct Hc as (-> & -> & Hfile).
    replace (disambiguated target_file_path (suffix + 1))
      with (target_of target_file_path (suffix + 1))
      by (unfold target_of; destruct (suffix + 1 =? 1) eqn:E1; [lia | reflexivity]).
    apply (IH fd' (suffix + 1) ({[target_of target_file_path suffix]} ∪ seen)).
    + lia.
    + apply union_subseteq. split; [|exact Hseen].
      apply singleton_subseteq_l, elem_of_dom. unfold isfile in Hfile.
      destruct (fs st !! target_of target_file_path suffix); [eauto | discriminate].
    + intros j Hj. rewrite elem_of_union, elem_of_singleton. intros [H | H].
      * apply target_of_inj in H; lia.
      * apply (Hfresh j); [lia | exact H].
    + rewrite size_union, size_singleton; [lia|].
      apply disjoint_singleton_l. apply Hfresh. lia.
Qed.

(** *** Name and path *)

(** The directory of the files without a date. *)
Definition unknown_dir (self : config) : string :=
  OsPath.normpath
    (Py.join OsPath.sep
       (somes [Some (output_dir self); output_prefix self; Some (no_date_dir self);
               output_suffix self])).

Lemma media_name_truthy filename :
  should_inspect_exif filename = true -> Py.truthy filename = true.
Proof. destruct filename; [vm_compute; discriminate | reflexivity]. Qed.

Lemma mtime_raises fromtimestamp (files : gmap string file) (path : string) e :
  mtime_datetime fromtimestamp files path = Raise e ->
  e = FileNotFoundError /\ files !! path = None.
Proof.
  unfold mtime_datetime, stat. destruct (files !! path); [discriminate|].
  cbn [mbind result_bind]. now intros [= <-].
Qed.

Lemma name_and_path_outcomes exif_data_of fromtimestamp self
    (files : gmap string file) (filename : string) :
  (forall e, get_file_name_and_path exif_data_of fromtimestamp self files filename = Raise e ->
             should_inspect_exif filename = true
             /\ (e = TypeError \/ e = OverflowError
                 \/ (e = FileNotFoundError /\ timestamp self = true
                     /\ files !! filename = None)))
  /\ (forall output target_file_name target_file_path target_file_type date,
        get_file_name_and_path exif_data_of fromtimestamp self files filename
        = Ok (output, target_file_name, target_file_path, target_file_type, date) ->
        target_file_path = output ++ "/" ++ target_file_name
        /\ (forall r, date = Some r -> exists t, Date.date r = Some t)
        /\ (date = None ->
            output = unknown_dir self
            /\ (target_file_name = OsPath.basename filename
                \/ target_file_name = Py.lower (OsPath.basename filename)))
        /\ (target_file_type = None ->
            date = None /\ target_file_name = OsPath.basename filename)).
Proof.
  assert (Hplain : forall kind : option file_kind,
    (forall e, (Ok kind ≫= fun target_file_type : option file_kind =>
                (output ← get_output_dir self DateEmptyList;
                 Ok (output, OsPath.basename filename, @None Date.ResolvedDate))
                ≫= fun '(output, target_file_name, date) =>
                     Ok (output, target_file_name,
                         Py.join OsPath.sep [output; target_file_name],
                         target_file_type, date)) = Raise e -> False)
    /\ (forall output target_file_name target_file_path target_file_type date,
          (Ok kind ≫= fun target_file_type : option file_kind =>
            (output ← get_output_dir self DateEmptyList;
             Ok (output, OsPath.basename filename, @None Date.ResolvedDate))
            ≫= fun '(output, target_file_name, date) =>
                 Ok (output, target_file_name,
                     Py.join OsPath.sep [output; target_file_name],
                     target_file_type, date))
          = Ok (output, target_file_name, target_file_path, target_file_type, date) ->
          target_file_path = output ++ "/" ++ target_file_name
          /\ (forall r, date = Some r -> exists t, Date.date r = Some t)
          /\ (date = None ->
              output = unknown_dir self
              /\ (target_file_name = OsPath.basename filename
                  \/ target_file_name = Py.lower (OsPath.basename filename)))
          /\ (target_file_type = None ->
              date = None /\ target_file_name = OsPath.basename filename))).
  { intros kind. cbn [mbind result_bind get_output_dir]. split; [discriminate|].
    intros ? ? ? ? ? [= <- <- <- <- <-].
    split; [reflexivity|]. split; [discriminate|]. split; [|auto]. intros _. auto. }
  unfold get_file_name_and_path.
  destruct (should_inspect_exif filename) eqn:Hmedia.
  2:{ destruct (Hplain None) as [H1 H2].
      split; [intros e He; destruct (H1 e He) | exact H2]. }
  destruct (exif_data_of filename) as [exif|].
  2:{ destruct (Hplain None) as [H1 H2].
      split; [intros e He; destruct (H1 e He) | exact H2]. }
  destruct (exif !! "MIMEType") as [mime|].
  2:{ destruct (Hplain None) as [H1 H2].
      split; [intros e He; destruct (H1 e He) | exact H2]. }
  destruct mime as [| | |mimetype| |];
    try (cbn [mbind result_bind]; split; [intros e [= <-]; auto | discriminate]).
  destruct (get_file_type mimetype) as [kind|].
  2:{ destruct (Hplain None) as [H1 H2].
      split; [intros e He; destruct (H1 e He) | exact H2]. }
  cbn [mbind result_bind].
  destruct (DateExtras.from_exif_outcomes_aux (mtime_datetime fromtimestamp files) (Some filename)
              exif (timestamp self) (date_regex self) (date_field self))
    as (Hraise & Hnamed & _).
  destruct (Date.from_exif (mtime_datetime fromtimestamp files) (Some filename) exif
              (timestamp self) (date_regex self) (date_field self)) as [[r|]|e0].
  - destruct (Hnamed filename r eq_refl (media_name_truthy _ Hmedia) eq_refl) as [t Ht].
    cbn [mbind result_bind date_arg_of]. unfold get_output_dir, get_file_name. rewrite Ht.
    cbn [mbind result_bind].
    destruct (original_filenames self); cbn [mbind result_bind];
      (split; [discriminate|]); intros ? ? ? ? ? [= <- <- <- <- <-];
      (split; [reflexivity|]); (split; [intros ? [= <-]; eauto|]);
      split; discriminate.
  - cbn [mbind result_bind date_arg_of]. unfold get_output_dir, get_file_name.
    cbn [mbind result_bind].
    destruct (original_filenames self); cbn [mbind result_bind];
      (split; [discriminate|]); intros ? ? ? ? ? [= <- <- <- <- <-];
      (split; [reflexivity|]); (split; [discriminate|]);
      (split; [|discriminate]); intros _; auto.
  - cbn [mbind result_bind]. split; [|discriminate]. intros e [= <-].
    split; [reflexivity|].
    destruct (Hraise e0 eq_refl) as [|[|(f & [= <-] & Hts & Hm)]]; auto.
    apply mtime_raises in Hm as [-> Hm]. auto.
Qed.


Lemma process_file_outcomes exif_data_of fromtimestamp fuel self st filename res :
  Py.endswith filename ".xmp" = false ->
  process_file exif_data_of fromtimestamp fuel self st filename = Some res ->
  match res with
  | Ok st' => exists st1, file_step self st st1 /\ st' = incr_processed st1
  | Raise e =>
      (should_inspect_exif filename = true /\ (e = TypeError \/ e = OverflowError))
      \/ (e = FileNotFoundError /\ fs st !! filename = None
          /\ (timestamp self = true
              \/ (link self = true /\ move self = false /\ dry_run self = false)))
  end.
Proof.
  intros Hxmp. unfold process_file. rewrite Hxmp.
  destruct (name_and_path_outcomes exif_data_of fromtimestamp self (fs st) filename)
    as [Hraise Hok].
  destruct (get_file_name_and_path exif_data_of fromtimestamp self (fs st) filename)
    as [[[[[output target_file_name] target_file_path] target_file_type] date]|e].
  - destruct (Hok _ _ _ _ _ eq_refl) as (_ & Hdate & _).
    assert (Hdated : dated (match date with Some r => FdDict r | None => FdNone end)).
    { destruct date as [r|]; [now apply Hdate | exact I]. }
    destruct (loop fuel self filename output target_file_name target_file_path
                target_file_type st _ 1 target_file_path) as [res'|] eqn:E; [|discriminate].
    pose proof (loop_outcomes _ _ _ _ _ _ _ _ _ _ _ _ Hdated E) as H.
    destruct res' as [st1|e]; intros [= <-].
    + eauto.
    + destruct H as (-> & ? & ? & ? & ?). right. repeat split; auto.
  - intros [= <-]. destruct (Hraise e eq_refl) as [Hmedia [-> | [-> | (-> & ? & ?)]]]; auto.
Qed.

(** X10. The loop of [process_file] comes to its end: with more passes
    allowed than there are files, the model returns a result, a state or an
    exception, for every file, state and configuration. *)
Theorem process_file_returns exif_data_of fromtimestamp fuel self st filename :
  (size (fs st) < fuel)%nat ->
  exists res, process_file exif_data_of fromtimestamp fuel self st filename = Some res.
Proof.
  intros Hfuel. unfold process_file.
  destruct (Py.endswith filename ".xmp"); [eauto|].
  destruct (get_file_name_and_path exif_data_of fromtimestamp self (fs st) filename)
    as [[[[[output target_file_name] target_file_path] target_file_type] date]|e]; [|eauto].
  destruct (loop_returns self filename output target_file_name target_file_path
              target_file_type st fuel
              (match date with Some r => FdDict r | None => FdNone end) 1 ∅)
    as [res E].
  - lia.
  - apply empty_subseteq.
  - intros j _. apply not_elem_of_empty.
  - rewrite size_empty. lia.
  - change (target_of target_file_path 1) with target_file_path in E. rewrite E.
    destruct res; eauto.
Qed.

Lemma process_file_returns_witness :
  exists res,
    process_file tool fromtimestamp_utc 4 copying tree "/in/IMG_0001.JPG" = Some res.
Proof.
  apply (process_file_returns tool fromtimestamp_utc 4 copying tree "/in/IMG_0001.JPG").
  vm_compute. lia.
Defined.




(** X12. A file that is no .xmp file and is processed without an
    exception raises files_processed by one; of the four other counters none
    goes down and at most one goes up, by one; the log keeps what it held. *)
Theorem one_file_accounting exif_data_of fromtimestamp fuel self st filename st' :
  Py.endswith filename ".xmp" = false ->
  process_file exif_data_of fromtimestamp fuel self st filename = Some (Ok st') ->
  files_processed st' = files_processed st + 1
  /\ duplicates_found st <= duplicates_found st'
  /\ unknown_found st <= unknown_found st'
  /\ files_moved st <= files_moved st'
  /\ files_copied st <= files_copied st'
  /\ (duplicates_found st' - duplicates_found st) + (unknown_found st' - unknown_found st)
     + (files_moved st' - files_moved st) + (files_copied st' - files_copied st) <= 1
  /\ log st `prefix_of` log st'.
Proof.
  intros Hxmp H.
  destruct (process_file_outcomes _ _ _ _ _ _ _ Hxmp H) as (st1 & Hstep & ->).
  destruct Hstep as (H1 & H2 & H3 & H4 & H5 & H6 & _ & _ & H9).
  cbn [files_processed duplicates_found unknown_found files_moved files_copied log
       incr_processed].
  repeat split; try assumption. lia.
Qed.

(** X13. A dry run leaves every file as it is, whatever the file and the
    other options: none is added, removed or changed. *)
Theorem dry_run_keeps_files exif_data_of fromtimestamp fuel self st filename st' :
  dry_run self = true ->
  process_file exif_data_of fromtimestamp fuel self st filename = Some (Ok st') ->
  fs st' = fs st.
Proof.
  intros Hdry H. destruct (Py.endswith filename ".xmp") eqn:Hxmp.
  - unfold process_file in H. rewrite Hxmp in H. now injection H as <-.
  - destruct (process_file_outcomes _ _ _ _ _ _ _ Hxmp H) as (st1 & Hstep & ->).
    destruct Hstep as (_ & _ & _ & _ & _ & _ & H7 & _). exact (H7 Hdry).
Qed.

(** X14. Unless files are moved, every file that was there is still there
    with its content and time: nothing is removed and nothing is written
    over, by the transfer of the file and of its companions. *)
Theorem copy_keeps_files exif_data_of fromtimestamp fuel self st filename st' :
  move self = false ->
  process_file exif_data_of fromtimestamp fuel self st filename = Some (Ok st') ->
  fs st ⊆ fs st'.
Proof.
  intros Hmove H. destruct (Py.endswith filename ".xmp") eqn:Hxmp.
  - unfold process_file in H. rewrite Hxmp in H. now injection H as <-.
  - destruct (process_file_outcomes _ _ _ _ _ _ _ Hxmp H) as (st1 & Hstep & ->).
    destruct Hstep as (_ & _ & _ & _ & _ & _ & _ & H8 & _). exact (H8 Hmove).
Qed.




Lemma one_file_accounting_witness :
  exists st',
    process_file tool fromtimestamp_utc 4 copying tree "/in/IMG_0001.JPG" = Some (Ok st')
    /\ files_processed st' = files_processed tree + 1
    /\ duplicates_found tree <= duplicates_found st'
    /\ unknown_found tree <= unknown_found st'
    /\ files_moved tree <= files_moved st'
    /\ files_copied tree <= files_copied st'
    /\ (duplicates_found st' - duplicates_found tree) + (unknown_found st' - unknown_found tree)
       + (files_moved st' - files_moved tree) + (files_copied st' - files_copied tree) <= 1
    /\ log tree `prefix_of` log st'.
Proof.
  eexists. split; [vm_compute; reflexivity|].
  apply (one_file_accounting tool fromtimestamp_utc 4 copying tree "/in/IMG_0001.JPG");
    [reflexivity | vm_compute; reflexivity].
Defined.

Lemma dry_run_keeps_files_witness :
  exists st',
    process_file tool fromtimestamp_utc 4 (moving true) tree "/in/IMG_0001.JPG" = Some (Ok st')
    /\ fs st' = fs tree.
Proof.
  eexists. split; [vm_compute; reflexivity|].
  apply (dry_run_keeps_files tool fromtimestamp_utc 4 (moving true) tree "/in/IMG_0001.JPG");
    [reflexivity | vm_compute; reflexivity].
Defined.

Lemma copy_keeps_files_witness :
  exists st',
    process_file tool fromtimestamp_utc 4 copying tree "/in/IMG_0001.JPG" = Some (Ok st')
    /\ fs tree ⊆ fs st'.
Proof.
  eexists. split; [vm_compute; reflexivity|].
  apply (copy_keeps_files tool fromtimestamp_utc 4 copying tree "/in/IMG_0001.JPG");
    [reflexivity | vm_compute; reflexivity].
Defined.



(** *** Media types *)

Definition no_line_feed (s : string) : bool :=
  DateFacts.all_chars (fun c => negb (Ascii.eqb c Py.LF)) s.

Definition no_dot (s : string) : bool :=
  DateFacts.all_chars (fun c => negb (Ascii.eqb c ".")) s.

Lemma line_to_end_plain r : forall n,
  no_line_feed r = true -> (n <= String.length r)%nat -> line_to_end n r = true.
Proof.
  induction r as [|c r IH]; intros n Hr Hn.
  - simpl in *. destruct n; [reflexivity | lia].
  - unfold no_line_feed in Hr. simpl in Hr. apply andb_true_iff in Hr as [Hc Hr].
    apply negb_true_iff in Hc. cbn [line_to_end]. rewrite Hc.
    apply IH; [exact Hr | simpl in Hn; lia].
Qed.

Lemma line_to_end_nonempty r : line_to_end 1 r = true -> r <> "".
Proof. intros H ->. discriminate. Qed.

Lemma dotted_literal pat : forall s r,
  no_dot pat = true -> dotted pat s = Some r -> s = pat ++ r.
Proof.
  induction pat as [|p pat IH]; intros s r Hp H.
  - simpl in H. now injection H as ->.
  - unfold no_dot in Hp. simpl in Hp. apply andb_true_iff in Hp as [Hc Hp].
    apply negb_true_iff in Hc. destruct s as [|c s]; [discriminate|].
    cbn [dotted] in H. rewrite Hc in H. cbn [andb orb negb] in H.
    destruct (Ascii.eqb p c) eqn:E; [|discriminate].
    apply Ascii.eqb_eq in E. subst c. simpl. f_equal. now apply IH.
Qed.

Lemma dotted_app a : forall b s r,
  dotted (a ++ b) s = Some r -> exists r', dotted a s = Some r'.
Proof.
  induction a as [|p a IH]; intros b s r H; [simpl; eauto|].
  destruct s as [|c s]; [discriminate|].
  simpl in H |- *. destruct (_ || _); [eapply IH; eauto | discriminate].
Qed.

(** X16. [get_file_type]: a type that is video/ and anything without a
    line feed after it, nothing included, is a video; image/ and at least
    one character is an image.  Nothing is a video that does not begin with
    video/, and an image begins with image/ and one more character, or with
    application/vnd. *)
Theorem media_kinds (mimetype r : string) :
  (no_line_feed r = true -> get_file_type ("video/" ++ r) = Some Video)
  /\ (no_line_feed r = true -> r <> "" -> get_file_type ("image/" ++ r) = Some Image)
  /\ (get_file_type mimetype = Some Video -> exists rest, mimetype = "video/" ++ rest)
  /\ (get_file_type mimetype = Some Image ->
      (exists rest, mimetype = "image/" ++ rest /\ rest <> "")
      \/ exists rest, mimetype = "application/vnd" ++ rest).
Proof.
  split; [|split; [|split]].
  - intros Hr. unfold get_file_type. simpl.
    rewrite (line_to_end_plain r 0 Hr); [reflexivity | lia].
  - intros Hr Hne. unfold get_file_type. simpl.
    rewrite (line_to_end_plain r 1 Hr); [reflexivity|].
    destruct r; [congruence | simpl; lia].
  - unfold get_file_type.
    destruct (_ || _); [discriminate|].
    destruct (dotted "video/" mimetype) as [rest|] eqn:E; [|discriminate].
    intros _. exists rest. now apply (dotted_literal "video/").
  - unfold get_file_type.
    destruct (dotted "image/" mimetype) as [rest|] eqn:E1.
    + destruct (line_to_end 1 rest) eqn:E2.
      * intros _. left. exists rest. split; [now apply (dotted_literal "image/")|].
        now apply line_to_end_nonempty.
      * cbn [orb].
        destruct (dotted "application/vnd.adobe.photoshop" mimetype) as [rest'|] eqn:E3.
        -- intros _. right.
           destruct (dotted_app "application/vnd" ".adobe.photoshop" _ _ E3) as [r' Hr'].
           exists r'. now apply (dotted_literal "application/vnd").
        -- cbn [orb]. destruct (dotted "video/" mimetype) as [x|]; [|discriminate].
           destruct (line_to_end 0 x); discriminate.
    + cbn [orb].
      destruct (dotted "application/vnd.adobe.photoshop" mimetype) as [rest'|] eqn:E3.
      * intros _. right.
        destruct (dotted_app "application/vnd" ".adobe.photoshop" _ _ E3) as [r' Hr'].
        exists r'. now apply (dotted_literal "application/vnd").
      * cbn [orb]. destruct (dotted "video/" mimetype) as [x|]; [|discriminate].
        destruct (line_to_end 0 x); discriminate.
Qed.

Lemma media_kinds_witness :
  get_file_type "video/quicktime" = Some Video
  /\ get_file_type "image/heic" = Some Image
  /\ exists rest, "video/" = "video/" ++ rest.
Proof.
  pose proof (media_kinds "video/" "quicktime") as (Hv & _ & Hm & _).
  pose proof (media_kinds "video/" "heic") as (_ & Hi & _).
  split; [apply Hv; reflexivity|].
  split; [apply Hi; [reflexivity | discriminate] | apply Hm; reflexivity].
Defined.

End PhockupExtras.

(** ** Timestamps read back *)

Module TimestampExtras.
Import Datetime Date StringFacts TextFacts.
Import DateFacts.
Import DateExtras.

#[local] Arguments String.append : simpl nomatch.

(** The text of an instant in the layout of the metadata: the year in four
    digits, the other fields in two; [sep] stands between year, month and
    day. *)
Definition timestamp_text (sep : ascii) (t : datetime) : string :=
  Py.fmt_d 4 (year t) ++ String sep (Py.fmt_d 2 (month t) ++ String sep (Py.fmt_d 2 (day t)
  ++ String " " (Py.fmt_d 2 (hour t) ++ String ":" (Py.fmt_d 2 (minute t)
  ++ String ":" (Py.fmt_d 2 (second t)))))).

Definition timestamp_layout (sep : ascii) : list directive :=
  [DirY; DirLit sep; Dirm; DirLit sep; Dird; DirSpace; DirH; DirLit ":"; DirM; DirLit ":"; DirS].

Definition digit_chars : list ascii :=
  ["0"; "1"; "2"; "3"; "4"; "5"; "6"; "7"; "8"; "9"]%char.

Lemma digit_cases a : Py.is_digit a = true -> In a digit_chars.
Proof.
  intros H. apply digit_code in H.
  assert (Hc : Py.code a = 48 \/ Py.code a = 49 \/ Py.code a = 50 \/ Py.code a = 51
               \/ Py.code a = 52 \/ Py.code a = 53 \/ Py.code a = 54 \/ Py.code a = 55
               \/ Py.code a = 56 \/ Py.code a = 57) by lia.
  unfold digit_chars. simpl.
  repeat (destruct Hc as [Hc | Hc];
          [ repeat (first [ left; symmetry; apply code_inj; exact Hc | right ]) | ]).
  repeat (first [ left; symmetry; apply code_inj; exact Hc | right ]).
Qed.

(** Two digits at the head of the text, by cases. *)
Ltac by_digits Ha Hb Hr :=
  apply digit_cases in Ha; apply digit_cases in Hb; unfold digit_chars in Ha, Hb;
  simpl in Ha, Hb;
  repeat match goal with
         | H : _ \/ _ |- _ => destruct H as [H | H]
         | H : False |- _ => destruct H
         end;
  subst; first [ discriminate Hr | eexists; reflexivity ].

Definition within (lo hi : Z) (a b : ascii) : bool := (lo <=? two a b) && (two a b <=? hi).

Lemma month_candidates a b rest :
  Py.is_digit a = true -> Py.is_digit b = true -> within 1 12 a b = true ->
  exists others,
    candidates Dirm (String a (String b rest)) = (String a (String b ""), rest) :: others.
Proof. intros Ha Hb Hr. by_digits Ha Hb Hr. Qed.

Lemma day_candidates a b rest :
  Py.is_digit a = true -> Py.is_digit b = true -> within 1 31 a b = true ->
  exists others,
    candidates Dird (String a (String b rest)) = (String a (String b ""), rest) :: others.
Proof. intros Ha Hb Hr. by_digits Ha Hb Hr. Qed.

Lemma hour_candidates a b rest :
  Py.is_digit a = true -> Py.is_digit b = true -> within 0 23 a b = true ->
  exists others,
    candidates DirH (String a (String b rest)) = (String a (String b ""), rest) :: others.
Proof. intros Ha Hb Hr. by_digits Ha Hb Hr. Qed.

Lemma minute_candidates a b rest :
  Py.is_digit a = true -> Py.is_digit b = true -> within 0 59 a b = true ->
  exists others,
    candidates DirM (String a (String b rest)) = (String a (String b ""), rest) :: others.
Proof. intros Ha Hb Hr. by_digits Ha Hb Hr. Qed.

Lemma second_candidates a b rest :
  Py.is_digit a = true -> Py.is_digit b = true -> within 0 59 a b = true ->
  exists others,
    candidates DirS (String a (String b rest)) = (String a (String b ""), rest) :: others.
Proof. intros Ha Hb Hr. by_digits Ha Hb Hr. Qed.

Lemma year_candidates a b c d rest :
  Py.is_digit a = true -> Py.is_digit b = true -> Py.is_digit c = true ->
  Py.is_digit d = true ->
  candidates DirY (String a (String b (String c (String d rest))))
  = [(String a (String b (String c (String d ""))), rest)].
Proof.
  intros Ha Hb Hc Hd. unfold candidates, branches, dig. simpl.
  now rewrite Ha, Hb, Hc, Hd.
Qed.

Lemma literal_candidates c rest :
  candidates (DirLit c) (String c rest) = [(String c "", rest)].
Proof. unfold candidates, branches, chr. simpl. now rewrite Ascii.eqb_refl. Qed.

Lemma literal_mismatch c x rest :
  Ascii.eqb c x = false -> candidates (DirLit c) (String x rest) = [].
Proof. intros H. unfold candidates, branches, chr. simpl. now rewrite H. Qed.

Lemma digit_no_space a : Py.is_digit a = true -> Py.is_space a = false.
Proof.
  intros H. apply digit_code in H. unfold Py.is_space. cbv zeta.
  repeat (apply orb_false_iff; split); try apply andb_false_iff; lia.
Qed.

Lemma space_candidates a rest :
  Py.is_digit a = true ->
  candidates DirSpace (String " " (String a rest)) = [(" ", String a rest)].
Proof.
  intros Ha. unfold candidates. cbn [spaces].
  change (Py.is_space " ") with true. cbv iota. now rewrite (digit_no_space a Ha).
Qed.

(** The first way a directive matches leads the ways the layout does. *)
Lemma matches_head d layout f s txt r others x :
  candidates d s = (txt, r) :: others ->
  hd_error (matches layout (set_field d txt f) r) = Some x ->
  hd_error (matches (d :: layout) f s) = Some x.
Proof.
  intros Hc Hm. cbn [matches]. rewrite Hc. cbn [flat_map].
  destruct (matches layout (set_field d txt f) r); [discriminate | exact Hm].
Qed.

Lemma matches_none d layout f s : candidates d s = [] -> matches (d :: layout) f s = [].
Proof. intros Hc. cbn [matches]. now rewrite Hc. Qed.

(** The two characters of a field below a hundred. *)
Lemma two_chars n :
  0 <= n < 100 ->
  exists a b, Py.fmt_d 2 n = String a (String b "")
              /\ Py.is_digit a = true /\ Py.is_digit b = true /\ two a b = n.
Proof.
  intros Hn. destruct (fmt_d_spec 1 n) as (Hlen & Hall & Hdec); [simpl; lia|].
  destruct (Py.fmt_d 2 n) as [|a [|b [|c s]]]; try discriminate Hlen.
  exists a, b. simpl in Hall. rewrite andb_true_r in Hall.
  apply andb_true_iff in Hall as [Ha Hb].
  repeat split; try assumption. cbn [decimal String.length] in Hdec.
  unfold two. simpl in Hdec. lia.
Qed.

Lemma four_chars n :
  0 <= n < 10000 ->
  exists a b c d,
    Py.fmt_d 4 n = String a (String b (String c (String d "")))
    /\ Py.is_digit a = true /\ Py.is_digit b = true /\ Py.is_digit c = true
    /\ Py.is_digit d = true
    /\ num (String a (String b (String c (String d "")))) = n.
Proof.
  intros Hn. destruct (fmt_d_spec 3 n) as (Hlen & Hall & Hdec); [simpl; lia|].
  destruct (Py.fmt_d 4 n) as [|a [|b [|c [|d [|e s]]]]]; try discriminate Hlen.
  exists a, b, c, d. unfold num. rewrite (int_decimal _ Hall) by discriminate.
  simpl in Hall. rewrite andb_true_r in Hall.
  apply andb_true_iff in Hall as [Ha Hall]. apply andb_true_iff in Hall as [Hb Hall].
  apply andb_true_iff in Hall as [Hc Hd].
  repeat split; assumption.
Qed.

Lemma num_two a b :
  Py.is_digit a = true -> Py.is_digit b = true -> num (String a (String b "")) = two a b.
Proof. intros Ha Hb. unfold num. now rewrite (int_two_digits a b Ha Hb). Qed.

Lemma within_range lo hi a b : lo <= two a b <= hi -> within lo hi a b = true.
Proof. intros H. unfold within. apply andb_true_iff. split; apply Z.leb_le; lia. Qed.

Lemma days_in_month_le y m : days_in_month y m <= 31.
Proof.
  unfold days_in_month. destruct (_ && _); [lia|].
  destruct (Z.to_nat (m - 1)) as [|[|[|[|[|[|[|[|[|[|[|[|k]]]]]]]]]]]]; simpl; try lia.
  destruct k; simpl; lia.
Qed.

Lemma valid_ranges t :
  valid t ->
  1 <= year t <= 9999 /\ 1 <= month t <= 12 /\ 1 <= day t <= 31
  /\ 0 <= hour t <= 23 /\ 0 <= minute t <= 59 /\ 0 <= second t <= 59.
Proof.
  intros [Hd Ht]. unfold valid_date in Hd. unfold valid_time in Ht.
  repeat (apply andb_true_iff in Hd as [Hd ?]).
  repeat (apply andb_true_iff in Ht as [Ht ?]).
  pose proof (days_in_month_le (year t) (month t)).
  repeat match goal with H : (_ <=? _) = true |- _ => apply Z.leb_le in H end.
  lia.
Qed.

(** [strptime] reads the text of an instant back, whatever stands between
    year, month and day in the text and in the layout. *)
Lemma strptime_timestamp sep t :
  valid t -> microsecond t = 0 ->
  strptime (timestamp_text sep t) (timestamp_layout sep) = Ok t.
Proof.
  intros Hvalid Hmicro.
  destruct (valid_ranges t Hvalid) as (HY & Hm & Hd & HH & HM & HS).
  destruct (four_chars (year t)) as (y1 & y2 & y3 & y4 & EY & Hy1 & Hy2 & Hy3 & Hy4 & NY);
    [lia|].
  destruct (two_chars (month t)) as (m1 & m2 & Em & Hm1 & Hm2 & Nm); [lia|].
  destruct (two_chars (day t)) as (d1 & d2 & Ed & Hd1 & Hd2 & Nd); [lia|].
  destruct (two_chars (hour t)) as (h1 & h2 & EH & Hh1 & Hh2 & NH); [lia|].
  destruct (two_chars (minute t)) as (i1 & i2 & EM & Hi1 & Hi2 & NM); [lia|].
  destruct (two_chars (second t)) as (s1 & s2 & ES & Hs1 & Hs2 & NS); [lia|].
  unfold timestamp_text. rewrite EY, Em, Ed, EH, EM, ES. cbn [String.append].
  destruct (second_candidates s1 s2 "" Hs1 Hs2 (within_range 0 59 s1 s2 ltac:(lia))) as [oS ES'].
  destruct (minute_candidates i1 i2 (String ":" (String s1 (String s2 ""))) Hi1 Hi2
              (within_range 0 59 i1 i2 ltac:(lia))) as [oM EM'].
  destruct (hour_candidates h1 h2
              (String ":" (String i1 (String i2 (String ":" (String s1 (String s2 ""))))))
              Hh1 Hh2 (within_range 0 23 h1 h2 ltac:(lia))) as [oH EH'].
  destruct (day_candidates d1 d2
              (String " " (String h1 (String h2 (String ":" (String i1 (String i2
                 (String ":" (String s1 (String s2 "")))))))))
              Hd1 Hd2 (within_range 1 31 d1 d2 ltac:(lia))) as [od Ed'].
  destruct (month_candidates m1 m2
              (String sep (String d1 (String d2 (String " " (String h1 (String h2
                 (String ":" (String i1 (String i2 (String ":" (String s1 (String s2 ""))))))))))))
              Hm1 Hm2 (within_range 1 12 m1 m2 ltac:(lia))) as [om Em'].
  assert (Hmatches :
    hd_error (matches (timestamp_layout sep) no_fields
      (String y1 (String y2 (String y3 (String y4 (String sep (String m1 (String m2
        (String sep (String d1 (String d2 (String " " (String h1 (String h2 (String ":"
          (String i1 (String i2 (String ":" (String s1 (String s2 ""))))))))))))))))))))
    = Some (mk_fields (year t) (month t) (day t) (hour t) (minute t) (second t), "")).
  { unfold timestamp_layout.
    eapply matches_head; [apply (year_candidates y1 y2 y3 y4); assumption|].
    eapply matches_head; [apply literal_candidates|].
    eapply matches_head; [exact Em'|].
    eapply matches_head; [apply literal_candidates|].
    eapply matches_head; [exact Ed'|].
    eapply matches_head; [apply (space_candidates h1); assumption|].
    eapply matches_head; [exact EH'|].
    eapply matches_head; [apply literal_candidates|].
    eapply matches_head; [exact EM'|].
    eapply matches_head; [apply literal_candidates|].
    eapply matches_head; [exact ES'|].
    cbn [matches hd_error set_field no_fields fY fm fd fH fM fS].
    rewrite NY, !num_two by assumption. rewrite Nm, Nd, NH, NM, NS. reflexivity. }
  unfold strptime.
  destruct (matches (timestamp_layout sep) no_fields _) as [|[f rest] ys];
    [discriminate Hmatches|].
  injection Hmatches as -> ->.
  cbn [Py.truthy fY fm fd fH fM fS]. unfold datetime_new.
  destruct Hvalid as [Hdate Htime]. rewrite Hdate, Htime.
  replace (forallb fits_c_int [year t; month t; day t; hour t; minute t; second t]) with true.
  - cbn [andb]. destruct t as [Y m d H M S u]. cbn in Hmicro. now subst u.
  - symmetry. cbn [forallb]. unfold fits_c_int.
    repeat (apply andb_true_iff; split); try apply Z.leb_le; try lia; reflexivity.
Qed.

(** The characters of the text of an instant. *)
Definition stamp (sep y1 y2 y3 y4 m1 m2 d1 d2 h1 h2 i1 i2 s1 s2 : ascii) : string :=
  String y1 (String y2 (String y3 (String y4 (String sep (String m1 (String m2
    (String sep (String d1 (String d2 (String " " (String h1 (String h2 (String ":"
      (String i1 (String i2 (String ":" (String s1 (String s2 "")))))))))))))))))).

Definition digit (c : ascii) : Prop := Py.is_digit c = true.

Lemma timestamp_chars sep t :
  valid t ->
  exists y1 y2 y3 y4 m1 m2 d1 d2 h1 h2 i1 i2 s1 s2,
    timestamp_text sep t = stamp sep y1 y2 y3 y4 m1 m2 d1 d2 h1 h2 i1 i2 s1 s2
    /\ Forall digit [y1; y2; y3; y4; m1; m2; d1; d2; h1; h2; i1; i2; s1; s2]
    /\ negb (String.eqb (String y1 (String y2 (String y3 (String y4 "")))) "0000") = true.
Proof.
  intros Hvalid.
  destruct (valid_ranges t Hvalid) as (HY & Hm & Hd & HH & HM & HS).
  destruct (four_chars (year t)) as (y1 & y2 & y3 & y4 & EY & Hy1 & Hy2 & Hy3 & Hy4 & NY);
    [lia|].
  destruct (two_chars (month t)) as (m1 & m2 & Em & Hm1 & Hm2 & Nm); [lia|].
  destruct (two_chars (day t)) as (d1 & d2 & Ed & Hd1 & Hd2 & Nd); [lia|].
  destruct (two_chars (hour t)) as (h1 & h2 & EH & Hh1 & Hh2 & NH); [lia|].
  destruct (two_chars (minute t)) as (i1 & i2 & EM & Hi1 & Hi2 & NM); [lia|].
  destruct (two_chars (second t)) as (s1 & s2 & ES & Hs1 & Hs2 & NS); [lia|].
  exists y1, y2, y3, y4, m1, m2, d1, d2, h1, h2, i1, i2, s1, s2.
  split; [|split].
  - unfold timestamp_text, stamp. now rewrite EY, Em, Ed, EH, EM, ES.
  - repeat (apply List.Forall_cons; [assumption|]). apply List.Forall_nil.
  - apply negb_true_iff, String.eqb_neq. intros E. rewrite E in NY.
    change (num "0000") with 0 in NY. lia.
Qed.

Ltac digit_facts H :=
  repeat match type of H with
         | Forall _ (_ :: _) => apply Forall_cons in H as [? H]
         end;
  clear H; unfold digit in *.

(** No match of the offset pattern begins in [s]. *)
Fixpoint offset_free (s : string) : bool :=
  match offset_at s with
  | Some _ => false
  | None => match s with
            | String _ r => offset_free r
            | EmptyString => true
            end
  end.

Lemma offset_free_inv c s :
  offset_free (String c s) = true -> offset_at (String c s) = None /\ offset_free s = true.
Proof. cbn [offset_free]. destruct (offset_at (String c s)); [discriminate | auto]. Qed.

Lemma offset_free_greedy s : offset_free s = true -> greedy_dot offset_text_at s = None.
Proof.
  induction s as [|c s IH]; [reflexivity|].
  intros H. apply offset_free_inv in H as [Hhere Hrest].
  cbn [greedy_dot]. rewrite (IH Hrest). unfold offset_text_at. rewrite Hhere.
  now destruct (Ascii.eqb c Py.LF).
Qed.

Lemma offset_free_search s : offset_free s = true -> offset_search s = false.
Proof.
  intros H. unfold offset_search.
  assert (E : search offset_search_at s = None); [|now rewrite E].
  induction s as [|c s IH].
  - reflexivity.
  - cbn [search]. unfold offset_search_at at 1. rewrite (offset_free_greedy _ H).
    apply IH. now apply offset_free_inv in H.
Qed.

Lemma stamp_offset_free sep y1 y2 y3 y4 m1 m2 d1 d2 h1 h2 i1 i2 s1 s2 :
  Forall digit [y1; y2; y3; y4; m1; m2; d1; d2; h1; h2; i1; i2; s1; s2] ->
  sep = ":"%char \/ sep = "-"%char ->
  offset_free (stamp sep y1 y2 y3 y4 m1 m2 d1 d2 h1 h2 i1 i2 s1 s2) = true.
Proof.
  intros H Hsep. digit_facts H.
  repeat match goal with
         | H : Py.is_digit ?c = true |- _ =>
             pose proof (digit_not_sign c H); revert H
         end.
  intros. unfold stamp.
  destruct Hsep as [-> | ->]; cbn [offset_free offset_at digits];
    repeat match goal with
           | H : is_sign ?c = false |- _ => rewrite H
           | H : Py.is_digit ?c = true |- _ => rewrite H
           end; reflexivity.
Qed.

Lemma stamp_no_char c sep y1 y2 y3 y4 m1 m2 d1 d2 h1 h2 i1 i2 s1 s2 :
  Forall digit [y1; y2; y3; y4; m1; m2; d1; d2; h1; h2; i1; i2; s1; s2] ->
  Py.is_digit c = false -> Ascii.eqb sep c = false ->
  Ascii.eqb " " c = false -> Ascii.eqb ":" c = false ->
  has_char c (stamp sep y1 y2 y3 y4 m1 m2 d1 d2 h1 h2 i1 i2 s1 s2) = false.
Proof.
  intros H Hc Hsep Hspace Hcolon. digit_facts H. unfold stamp. cbn [has_char].
  rewrite Hsep, Hspace, Hcolon.
  repeat match goal with
         | H : Py.is_digit ?x = true |- _ => rewrite (digit_neq x c H Hc); clear H
         end.
  reflexivity.
Qed.

Lemma strptime_other_layout sep t :
  valid t -> Ascii.eqb ":" sep = false ->
  strptime (timestamp_text sep t) layout_colon = Raise ValueError.
Proof.
  intros Hvalid Hsep.
  destruct (timestamp_chars sep t Hvalid)
    as (y1 & y2 & y3 & y4 & m1 & m2 & d1 & d2 & h1 & h2 & i1 & i2 & s1 & s2 & -> & H & _).
  digit_facts H. unfold strptime, layout_colon, stamp.
  cbn [matches]. rewrite year_candidates by assumption. cbn [flat_map].
  rewrite (literal_mismatch ":" sep) by exact Hsep. reflexivity.
Qed.

(** The two layouts of [from_datestring] read the text of an instant. *)
Lemma naive_timestamp sep t :
  valid t -> microsecond t = 0 -> sep = ":"%char \/ sep = "-"%char ->
  naive (timestamp_text sep t) = Ok (Some t).
Proof.
  intros Hvalid Hmicro [-> | ->]; unfold naive; cbn [parse_layouts].
  - change layout_colon with (timestamp_layout ":").
    now rewrite (strptime_timestamp ":" t Hvalid Hmicro).
  - rewrite (strptime_other_layout "-" t Hvalid eq_refl).
    change layout_hyphen with (timestamp_layout "-").
    now rewrite (strptime_timestamp "-" t Hvalid Hmicro).
Qed.

Lemma timestamp_plain sep t :
  valid t -> sep = ":"%char \/ sep = "-"%char ->
  offset_search (timestamp_text sep t) = false
  /\ has_char "." (timestamp_text sep t) = false
  /\ has_char Py.LF (timestamp_text sep t) = false
  /\ Py.truthy (timestamp_text sep t) = true
  /\ Py.startswith (timestamp_text sep t) "0000" = false.
Proof.
  intros Hvalid Hsep.
  destruct (timestamp_chars sep t Hvalid)
    as (y1 & y2 & y3 & y4 & m1 & m2 & d1 & d2 & h1 & h2 & i1 & i2 & s1 & s2 & -> & H & Hy).
  split; [|split; [|split; [|split]]].
  - apply offset_free_search. now apply stamp_offset_free.
  - apply stamp_no_char; try assumption; try reflexivity. now destruct Hsep as [-> | ->].
  - apply stamp_no_char; try assumption; try reflexivity. now destruct Hsep as [-> | ->].
  - reflexivity.
  - apply negb_true_iff in Hy. unfold Py.startswith, stamp. cbn [String.prefix].
    cbn [String.eqb] in Hy.
    destruct (Ascii.eqb y1 "0") eqn:E1; [|destruct (ascii_dec "0" y1) as [<-|]; [discriminate E1 | reflexivity]].
    apply Ascii.eqb_eq in E1. subst y1.
    destruct (ascii_dec "0" "0"); [|congruence].
    destruct (Ascii.eqb y2 "0") eqn:E2; [|destruct (ascii_dec "0" y2) as [<-|]; [discriminate E2 | reflexivity]].
    apply Ascii.eqb_eq in E2. subst y2.
    destruct (ascii_dec "0" "0"); [|congruence].
    destruct (Ascii.eqb y3 "0") eqn:E3; [|destruct (ascii_dec "0" y3) as [<-|]; [discriminate E3 | reflexivity]].
    apply Ascii.eqb_eq in E3. subst y3.
    destruct (ascii_dec "0" "0"); [|congruence].
    destruct (Ascii.eqb y4 "0") eqn:E4; [|destruct (ascii_dec "0" y4) as [<-|]; [discriminate E4 | reflexivity]].
    discriminate Hy.
Qed.

Lemma digits_no_sign s : all_chars Py.is_digit s = true -> no_sign s = true.
Proof.
  unfold no_sign. induction s as [|c s IH]; [reflexivity|]. simpl.
  intros H. apply andb_true_iff in H as [Hc Hs]. now rewrite (digit_not_sign c Hc), IH.
Qed.

Lemma digits_no_char c s :
  Py.is_digit c = false -> all_chars Py.is_digit s = true -> has_char c s = false.
Proof.
  intros Hc. induction s as [|a s IH]; [reflexivity|]. simpl.
  intros H. apply andb_true_iff in H as [Ha Hs]. now rewrite (digit_neq a c Ha Hc), IH.
Qed.

Lemma timestamps_read_back_aux t :
  valid t -> microsecond t = 0 ->
  forall sep, sep = ":"%char \/ sep = "-"%char ->
    from_datestring (timestamp_text sep t) = Ok (mk_resolved (Some t) "" None).
Proof.
  intros Hvalid Hmicro sep Hsep.
  destruct (timestamp_plain sep t Hvalid Hsep) as (Hsearch & Hdot & _).
  rewrite (from_datestring_no_dot _ Hdot). unfold resolve_parts. rewrite Hsearch.
  change (offset_search "") with false. cbn [mbind result_bind].
  unfold resolved_with. now rewrite (naive_timestamp sep t Hvalid Hmicro Hsep).
Qed.

(** X17. [from_datestring] reads the text of every instant of the
    calendar back, in the layout with colons and in the layout with hyphens
    between year, month and day: the instant is returned as it is, without
    sub-seconds and without an offset.  Digits after a period are returned
    as the sub-seconds, and a well-formed offset after the text is recorded
    and, unless it is zero, subtracted. *)
Theorem timestamps_read_back (t : datetime) (sub : string) (o : offset_text) :
  valid t -> microsecond t = 0 ->
  from_datestring (timestamp_text ":" t) = Ok (mk_resolved (Some t) "" None)
  /\ from_datestring (timestamp_text "-" t) = Ok (mk_resolved (Some t) "" None)
  /\ (all_chars Py.is_digit sub = true ->
      from_datestring (timestamp_text ":" t ++ String "." sub)
      = Ok (mk_resolved (Some t) sub None))
  /\ (well_formed o = true ->
      from_datestring (timestamp_text ":" t ++ render o)
      = (moved ← minus_offset (Some t) (Some (seconds_of o));
         Ok (mk_resolved moved "" (Some (seconds_of o))))).
Proof.
  intros Hvalid Hmicro.
  pose proof (timestamps_read_back_aux t Hvalid Hmicro) as Hplain.
  destruct (timestamp_plain ":" t Hvalid (or_introl eq_refl)) as (Hsearch & Hdot & Hlf & _).
  split; [apply Hplain; now left|]. split; [apply Hplain; now right|]. split.
  - intros Hsub.
    rewrite (from_datestring_dot _ sub Hdot (digits_no_char "." sub eq_refl Hsub)).
    unfold resolve_parts.
    rewrite Hsearch, (offset_search_no_sign sub (digits_no_sign sub Hsub)).
    cbn [mbind result_bind]. unfold resolved_with.
    now rewrite (naive_timestamp ":" t Hvalid Hmicro (or_introl eq_refl)).
  - intros Ho.
    rewrite (from_datestring_no_dot _ (no_dot_trailing _ o Hdot Ho)).
    rewrite (resolve_parts_primary _ "" o Hlf Ho eq_refl).
    unfold resolved_with.
    now rewrite (naive_timestamp ":" t Hvalid Hmicro (or_introl eq_refl)).
Qed.

Definition leap_day : datetime := mk_datetime 2024 2 29 23 59 59 0.

Lemma timestamps_read_back_witness :
  from_datestring "2024:02:29 23:59:59" = Ok (mk_resolved (Some leap_day) "" None)
  /\ from_datestring "2024-02-29 23:59:59" = Ok (mk_resolved (Some leap_day) "" None)
  /\ from_datestring "2024:02:29 23:59:59.75" = Ok (mk_resolved (Some leap_day) "75" None)
  /\ from_datestring "2024:02:29 23:59:59+01:00"
     = Ok (mk_resolved (Some (mk_datetime 2024 2 29 22 59 59 0)) "" (Some 3600)).
Proof.
  pose proof (timestamps_read_back leap_day "75"
                (mk_offset_text "+" "0" "1" true "0" "0")
                (conj eq_refl eq_refl) eq_refl) as (H1 & H2 & H3 & H4).
  split; [exact H1|]. split; [exact H2|]. split; [exact (H3 eq_refl)|]. exact (H4 eq_refl).
Defined.

Lemma exif_timestamp_resolved_aux mt self (exif : gmap string json) timestamp user_regex
    date_field sep t :
  valid t -> microsecond t = 0 -> sep = ":"%char \/ sep = "-"%char ->
  scan exif (keys_of date_field) = Some (timestamp_text sep t) ->
  Forall (fun k => inert (exif !! k)) tz_keys ->
  from_exif mt self exif timestamp user_regex date_field
  = Ok (Some (mk_resolved (Some t) "" None)).
Proof.
  intros Hvalid Hmicro Hsep Hscan Hzone.
  destruct (timestamp_plain sep t Hvalid Hsep) as (_ & _ & _ & Htruthy & Hzeros).
  assert (Hread : from_datestring (timestamp_text sep t) = Ok (mk_resolved (Some t) "" None)).
  { exact (timestamps_read_back_aux t Hvalid Hmicro sep Hsep). }
  rewrite (from_exif_zone mt self exif timestamp user_regex date_field _ t ""
             Hscan Htruthy Hzeros Hread).
  now rewrite (apply_timezone_all_inert exif t tz_keys Hzone).
Qed.

(** X18. A record whose first usable date field holds the text of an
    instant, and whose time-zone fields are missing, falsy or without a
    non-zero offset, resolves to that instant, whatever the name of the
    file, the pattern for file names and the use of modification times. *)
Theorem exif_timestamp_resolved mt self (exif : gmap string json) timestamp user_regex
    date_field sep t :
  valid t -> microsecond t = 0 -> sep = ":"%char \/ sep = "-"%char ->
  scan exif (keys_of date_field) = Some (timestamp_text sep t) ->
  Forall (fun k => inert (exif !! k)) tz_keys ->
  from_exif mt self exif timestamp user_regex date_field
  = Ok (Some (mk_resolved (Some t) "" None)).
Proof. apply exif_timestamp_resolved_aux. Qed.

Definition leap_record : gmap string json :=
  <["OffsetTimeOriginal" := JStr "+00:00"]> {[ "CreateDate" := JStr "2024-02-29 23:59:59" ]}.

Lemma exif_timestamp_resolved_witness :
  from_exif no_files (Some "/in/IMG_20160915_123456.jpg") leap_record true None None
  = Ok (Some (mk_resolved (Some leap_day) "" None)).
Proof.
  apply (exif_timestamp_resolved no_files (Some "/in/IMG_20160915_123456.jpg") leap_record
           true None None "-" leap_day (conj eq_refl eq_refl) eq_refl (or_intror eq_refl)
           eq_refl).
  repeat (apply List.Forall_cons; [|]); try apply List.Forall_nil.
  - right. exists "+00:00". split; [reflexivity | right; reflexivity].
  - exact I.
  - exact I.
Defined.

End TimestampExtras.

(** ** From the metadata to the destination *)

Module PipelineExtras.
Import Datetime Phockup StringFacts TextFacts.
Import PhockupFacts PhockupExtras TimestampExtras.

#[local] Arguments String.append : simpl nomatch.












(** *** A copy, and the run after it *)








(** *** Files without a date *)

Lemma endswith_from_app a b : Py.endswith_from (String.length a) (a ++ b) b = true.
Proof.
  induction a as [|c a IH]; simpl; [apply String.eqb_refl | exact IH].
Qed.

Lemma endswith_app a b : Py.endswith (a ++ b) b = true.
Proof.
  unfold Py.endswith. rewrite DateFacts.length_append.
  replace (String.length a + String.length b - String.length b)%nat
    with (String.length a) by lia.
  rewrite endswith_from_app, andb_true_r. apply Nat.leb_le. lia.
Qed.

Lemma unknown_dir_plain self root :
  output_prefix self = None -> output_suffix self = None ->
  output_dir self = path_of root -> Forall clean_component root ->
  clean_component (no_date_dir self) ->
  unknown_dir self = output_dir self ++ "/" ++ no_date_dir self.
Proof.
  intros Hpre Hsuf Hroot Hclean Hname. unfold unknown_dir. rewrite Hpre, Hsuf.
  change (somes [Some (output_dir self); None; Some (no_date_dir self); None])
    with [output_dir self; no_date_dir self].
  change (Py.join OsPath.sep [output_dir self; no_date_dir self])
    with (output_dir self ++ "/" ++ no_date_dir self).
  rewrite Hroot.
  apply (normpath_under_root root (no_date_dir self) (no_date_dir self) [] Hclean).
  - apply split_on_absent. apply Hname.
  - cbn [forallb]. now rewrite (clean_kept _ Hname).
  - reflexivity.
  - destruct Hname as (Hslash & Hne & _).
    destruct (no_date_dir self) as [|c s]; [congruence|].
    unfold Py.startswith. cbn [String.prefix].
    destruct (ascii_dec "/" c) as [<-|]; [discriminate Hslash | reflexivity].
Qed.

(** X21. Under skip-unknown, without a filter on the media type, a prefix
    or a suffix, a file for which no date is found (a file that is no media
    file, a file the tool knows nothing of, a media file without a date in
    its record and in its name) is not transferred: it is counted as
    unknown and as processed, the skip is logged, and no file is added,
    removed or changed. *)
Theorem undated_skipped exif_data_of fromtimestamp fuel self st filename root
    output target_file_name target_file_path target_file_type :
  Py.endswith filename ".xmp" = false ->
  get_file_name_and_path exif_data_of fromtimestamp self (fs st) filename
  = Ok (output, target_file_name, target_file_path, target_file_type, None) ->
  file_type self = None -> skip_unknown self = true ->
  output_prefix self = None -> output_suffix self = None ->
  output_dir self = path_of root -> Forall clean_component root ->
  clean_component (no_date_dir self) ->
  process_file exif_data_of fromtimestamp (S fuel) self st filename
  = Some (Ok (incr_processed (add_log (incr_unknown st) (SkippedUnknown filename)))).
Proof.
  intros Hxmp Hg Htype Hskip Hpre Hsuf Hroot Hclean Hname.
  destruct (name_and_path_outcomes exif_data_of fromtimestamp self (fs st) filename)
    as [_ Hok].
  destruct (Hok _ _ _ _ _ Hg) as (_ & _ & Hnone & _).
  destruct (Hnone eq_refl) as [Hout _].
  rewrite (unknown_dir_plain self root Hpre Hsuf Hroot Hclean Hname) in Hout.
  unfold process_file. rewrite Hxmp, Hg. cbn [loop]. unfold loop_body, filters.
  rewrite Htype, Hskip, Hout.
  change (output_dir self ++ "/" ++ no_date_dir self)
    with (output_dir self ++ String "/" (no_date_dir self)).
  replace (output_dir self ++ String "/" (no_date_dir self))
    with ((output_dir self ++ "/") ++ no_date_dir self)
    by (now rewrite append_assoc).
  now rewrite endswith_app.
Qed.

Lemma undated_skipped_witness :
  process_file tool fromtimestamp_utc 1 (moving false) tree "/in/IMG_0001.aae"
  = Some (Ok (incr_processed
                (add_log (incr_unknown tree) (SkippedUnknown "/in/IMG_0001.aae")))).
Proof.
  apply (undated_skipped tool fromtimestamp_utc 0 (moving false) tree "/in/IMG_0001.aae"
           ["out"] "/out/unknown" "IMG_0001.aae" "/out/unknown/IMG_0001.aae" None);
    try reflexivity.
  - repeat constructor; discriminate.
  - repeat constructor; discriminate.
Defined.

(** *** Companions *)

(** The companions that [process_sidecars] looks for, in its order, each
    with its name at the destination. *)
Definition companions (original_filename file_name : string) (suffix : Z)
  : list (string * string) :=
  let suffix_str := if 1 <? suffix then "-" ++ Py.str_of_nonneg suffix else "" in
  let base_no_ext := fst (OsPath.splitext original_filename) in
  let dest_base_no_ext := fst (OsPath.splitext file_name) in
  let second := (base_no_ext ++ ".xmp", dest_base_no_ext ++ suffix_str ++ ".xmp") in
  let xmp_candidates :=
    if String.eqb (original_filename ++ ".xmp") (base_no_ext ++ ".xmp")
    then [second]
    else [(original_filename ++ ".xmp", file_name ++ suffix_str ++ ".xmp"); second] in
  let sidecars :=
    map (fun ext => (base_no_ext ++ ext, dest_base_no_ext ++ suffix_str ++ ext))
        SIDECAR_EXTENSIONS in
  let paired :=
    map (fun ext => (base_no_ext ++ ext, dest_base_no_ext ++ suffix_str ++ ext))
        (paired_exts (Py.lower (snd (OsPath.splitext original_filename)))) in
  (xmp_candidates ++ sidecars ++ paired)%list.







(** X23. When the destination name was taken and the file got a suffix
    above one, the side-car of its full name (the name of the file followed
    by .xmp) is not put beside the file under the name of the file followed
    by .xmp: the suffix goes after the extension of the file in the name of
    the side-car (a.jpg-2.xmp) and before it in the name of the file
    (a-2.jpg).  With the suffix one the two names agree. *)
Theorem full_name_sidecar_elsewhere original_filename file_name suffix output :
  snd (OsPath.splitext original_filename) <> "" ->
  snd (OsPath.splitext (Py.join OsPath.sep [output; file_name])) <> "" ->
  let suffix_str := if 1 <? suffix then "-" ++ Py.str_of_nonneg suffix else "" in
  let target_file :=
    if 1 <? suffix then disambiguated (Py.join OsPath.sep [output; file_name]) suffix
    else Py.join OsPath.sep [output; file_name] in
  let sidecar := Py.join OsPath.sep [output; file_name ++ suffix_str ++ ".xmp"] in
  hd_error (companions original_filename file_name suffix)
  = Some (original_filename ++ ".xmp", file_name ++ suffix_str ++ ".xmp")
  /\ (1 < suffix -> sidecar <> target_file ++ ".xmp")
  /\ (suffix <= 1 -> sidecar = target_file ++ ".xmp").
Proof.
  intros Hext Htarget suffix_str target_file sidecar.
  split; [|split].
  - unfold companions. cbv zeta. fold suffix_str.
    destruct (String.eqb (original_filename ++ ".xmp")
                (fst (OsPath.splitext original_filename) ++ ".xmp")) eqn:E; [|reflexivity].
    exfalso. apply String.eqb_eq in E.
    rewrite <- (splitext_parts original_filename) in E at 1.
    rewrite append_assoc in E. apply append_inv_head in E.
    apply (f_equal String.length) in E. rewrite DateFacts.length_append in E.
    destruct (snd (OsPath.splitext original_filename)); [congruence | simpl in E; lia].
  - intros Hk. subst sidecar target_file suffix_str.
    apply Z.ltb_lt in Hk. rewrite Hk. unfold disambiguated.
    change (Py.join OsPath.sep [output; file_name ++ ("-" ++ Py.str_of_nonneg suffix) ++ ".xmp"])
      with (output ++ "/" ++ file_name ++ ("-" ++ Py.str_of_nonneg suffix) ++ ".xmp").
    set (path := Py.join OsPath.sep [output; file_name]) in *.
    assert (Hpath : output ++ "/" ++ file_name ++ ("-" ++ Py.str_of_nonneg suffix) ++ ".xmp"
                    = path ++ ("-" ++ Py.str_of_nonneg suffix) ++ ".xmp").
    { subst path. change (Py.join OsPath.sep [output; file_name])
        with (output ++ "/" ++ file_name).
      change ("/" ++ ?x) with (String "/" x).
      rewrite !append_assoc. reflexivity. }
    rewrite Hpath. clear Hpath.
    destruct (splitext_ext_dot path) as [E | [e E]]; [congruence|].
    rewrite <- (splitext_parts path) at 1. rewrite E.
    rewrite !append_assoc. intros H. apply append_inv_head in H.
    discriminate H.
  - intros Hk. subst sidecar target_file suffix_str.
    assert (E : (1 <? suffix) = false) by (apply Z.ltb_ge; lia). rewrite E.
    change (Py.join OsPath.sep [output; file_name ++ "" ++ ".xmp"])
      with (output ++ "/" ++ file_name ++ ".xmp").
    change (Py.join OsPath.sep [output; file_name]) with (output ++ "/" ++ file_name).
    change ("/" ++ ?x) with (String "/" x).
    rewrite !append_assoc. reflexivity.
Qed.

Lemma full_name_sidecar_elsewhere_witness :
  hd_error (companions "/in/IMG_0001.JPG" "20170101-010101.jpg" 2)
  = Some ("/in/IMG_0001.JPG.xmp", "20170101-010101.jpg-2.xmp")
  /\ "/out/2017/01/01/20170101-010101.jpg-2.xmp"
     <> "/out/2017/01/01/20170101-010101-2.jpg" ++ ".xmp".
Proof.
  destruct (full_name_sidecar_elsewhere "/in/IMG_0001.JPG" "20170101-010101.jpg" 2
              "/out/2017/01/01") as (H1 & H2 & _); [discriminate | discriminate |].
  split; [exact H1 | exact (H2 eq_refl)].
Defined.





(** *** The date range *)












End PipelineExtras.

(** ** The metadata session and the class [Exif], beyond the claims *)

Module ExifExtras.
Import Exif ExifData ExifFacts.

#[local] Arguments String.append : simpl nomatch.

(** The completion token of the request with a given number. *)
Definition token_of (n : Z) : string := "__PHOCKUP_END__" ++ Py.str_of_nonneg n ++ "__".

(** What [fetch] makes of the lines read before the token. *)
Definition answer (json_loads : string -> result json) (chunks : list string)
  : result (option json) :=
  let data := Py.strip (Py.join "" chunks) in
  if negb (Py.truthy data) then Ok None
  else match (v ← json_loads data; subscript0 v) with
       | Ok record => Ok (Some record)
       | Raise JSONDecodeError | Raise IndexError => Ok None
       | Raise e => Raise e
       end.

Lemma read_until_split token chunk line rest : forall acc,
  Forall (fun l => Py.strip l <> token) chunk -> Py.strip line = token ->
  read_until token (chunk ++ line :: rest) acc = ((acc ++ chunk)%list, rest).
Proof.
  induction chunk as [|l chunk IH]; intros acc Hchunk Hline.
  - cbn [app read_until]. apply String.eqb_eq in Hline. rewrite Hline.
    now rewrite app_nil_r.
  - apply Forall_cons in Hchunk as [Hl Hchunk].
    cbn [app read_until]. apply String.eqb_neq in Hl. rewrite Hl.
    rewrite (IH _ Hchunk Hline). now rewrite <- app_assoc.
Qed.

Lemma fetch_framed json_loads abspath shlex_quote self p filename chunk line rest :
  _process self = Some p -> stdin_closed p = false -> stdin_broken p = false ->
  stdout p = (chunk ++ line :: rest)%list ->
  Forall (fun l => Py.strip l <> token_of (_token self + 1)) chunk ->
  Py.strip line = token_of (_token self + 1) ->
  fetch json_loads abspath shlex_quote self filename
  = (answer json_loads chunk,
     mk_session
       (Some (mk_process false false
                (stdin p ++ [_build_payload abspath shlex_quote filename
                               (token_of (_token self + 1))])%list
                rest))
       (_token self + 1)).
Proof.
  intros Hp Hc Hb Hout Hchunk Hline. unfold fetch. rewrite Hp, Hc, Hb, Hout.
  fold (token_of (_token self + 1)).
  rewrite (read_until_split _ chunk line rest [] Hchunk Hline). cbn [app].
  unfold answer. cbv zeta.
  destruct (negb (Py.truthy (Py.strip (Py.join "" chunk)))); [reflexivity|].
  destruct (json_loads (Py.strip (Py.join "" chunk)) ≫= subscript0) as [r|[]]; reflexivity.
Qed.

(** X26. The answers of the worker are told apart by the token of each
    request: when the worker prints the lines of a first answer, the first
    token, the lines of a second answer and the second token, no line of an
    answer being its token, two requests in a row get the first and the
    second answer, the token has advanced by two, both requests were
    written to the worker, and what it printed after the second token is
    left to be read. *)
Theorem session_answers_in_turn json_loads abspath shlex_quote self p first second
    lines1 line1 lines2 line2 rest :
  _process self = Some p -> stdin_closed p = false -> stdin_broken p = false ->
  stdout p = (lines1 ++ line1 :: lines2 ++ line2 :: rest)%list ->
  Forall (fun l => Py.strip l <> token_of (_token self + 1)) lines1 ->
  Py.strip line1 = token_of (_token self + 1) ->
  Forall (fun l => Py.strip l <> token_of (_token self + 2)) lines2 ->
  Py.strip line2 = token_of (_token self + 2) ->
  let '(answer1, self1) := fetch json_loads abspath shlex_quote self first in
  let '(answer2, self2) := fetch json_loads abspath shlex_quote self1 second in
  answer1 = answer json_loads lines1
  /\ answer2 = answer json_loads lines2
  /\ _token self2 = _token self + 2
  /\ exists p2,
       _process self2 = Some p2
       /\ stdout p2 = rest
       /\ stdin p2 = (stdin p ++ [_build_payload abspath shlex_quote first
                                    (token_of (_token self + 1));
                                  _build_payload abspath shlex_quote second
                                    (token_of (_token self + 2))])%list.
Proof.
  intros Hp Hc Hb Hout H1 Hl1 H2 Hl2.
  rewrite (fetch_framed json_loads abspath shlex_quote self p first lines1 line1
             (lines2 ++ line2 :: rest) Hp Hc Hb Hout H1 Hl1).
  replace (_token self + 2) with (_token self + 1 + 1) in * by lia.
  rewrite (fetch_framed json_loads abspath shlex_quote
             (mk_session
                (Some (mk_process false false
                         (stdin p ++ [_build_payload abspath shlex_quote first
                                        (token_of (_token self + 1))])%list
                         (lines2 ++ line2 :: rest)%list))
                (_token self + 1))
             (mk_process false false
                (stdin p ++ [_build_payload abspath shlex_quote first
                               (token_of (_token self + 1))])%list
                (lines2 ++ line2 :: rest)%list)
             second lines2 line2 rest eq_refl eq_refl eq_refl eq_refl H2 Hl2).
  cbn [_token _process stdout stdin].
  split; [reflexivity|]. split; [reflexivity|]. split; [reflexivity|].
  eexists. split; [reflexivity|]. split; [reflexivity|].
  cbn [stdin]. now rewrite <- app_assoc.
Qed.

Lemma session_answers_in_turn_witness :
  let '(answer1, self1) :=
    fetch read_json id id
          (worker ["[{}]" ++ NL; "__PHOCKUP_END__1__" ++ NL; "[7," ++ NL; "8]" ++ NL;
                   "__PHOCKUP_END__2__" ++ NL])
          "/in/a.jpg" in
  let '(answer2, self2) := fetch read_json id id self1 "/in/b.jpg" in
  answer1 = Ok (Some (JObj [])) /\ answer2 = Ok (Some (JInt 7)) /\ _token self2 = 2.
Proof.
  pose proof (session_answers_in_turn read_json id id
    (worker ["[{}]" ++ NL; "__PHOCKUP_END__1__" ++ NL; "[7," ++ NL; "8]" ++ NL;
             "__PHOCKUP_END__2__" ++ NL])
    (mk_process false false []
       ["[{}]" ++ NL; "__PHOCKUP_END__1__" ++ NL; "[7," ++ NL; "8]" ++ NL;
        "__PHOCKUP_END__2__" ++ NL])
    "/in/a.jpg" "/in/b.jpg" ["[{}]" ++ NL] ("__PHOCKUP_END__1__" ++ NL)
    ["[7," ++ NL; "8]" ++ NL] ("__PHOCKUP_END__2__" ++ NL) []
    eq_refl eq_refl eq_refl eq_refl) as H.
  destruct (fetch read_json id id _ "/in/a.jpg") as [answer1 self1].
  destruct (fetch read_json id id self1 "/in/b.jpg") as [answer2 self2].
  destruct H as (H1 & H2 & H3 & _).
  - repeat constructor. discriminate.
  - reflexivity.
  - repeat constructor; discriminate.
  - reflexivity.
  - rewrite H1, H2, H3. repeat split.
Defined.

(** *** The record of a file *)

(** X27. [Exif.data]: an answer of the session other than None is
    returned as it is and the tool is not run for the file; an exception out
    of the session is passed on.  When the session gives None the tool is
    run once for the file: a failed run, output that is no JSON and a JSON
    array with a first element are treated as in the session, but an empty
    JSON array, that the session answers with None, raises IndexError. *)
Theorem data_outcomes json_loads abspath shlex_quote popen check_output
    (global : option session) (filename : string) :
  let from_session :=
    fst (_data_from_session json_loads abspath shlex_quote popen global (abspath filename)) in
  let result :=
    fst (data json_loads abspath shlex_quote popen check_output global filename) in
  let output := check_output (get_exif_command abspath shlex_quote (abspath filename)) in
  (forall found, from_session = Ok found -> is_none found = false -> result = Ok found)
  /\ (forall e, from_session = Raise e -> result = Raise e)
  /\ (forall found, from_session = Ok found -> is_none found = true ->
      (output = None -> result = Ok None)
      /\ (forall text, output = Some text -> json_loads text = Raise JSONDecodeError ->
                       result = Ok None)
      /\ (forall text, output = Some text -> json_loads text = Ok (JArr []) ->
                       result = Raise IndexError)
      /\ (forall text record rest,
            output = Some text -> json_loads text = Ok (JArr (record :: rest)) ->
            result = Ok (Some record))).
Proof.
  cbv zeta. unfold data.
  destruct (_data_from_session json_loads abspath shlex_quote popen global (abspath filename))
    as [exif global'].
  cbn [fst]. split; [|split].
  - intros found -> Hnone. now rewrite Hnone.
  - now intros e ->.
  - intros found -> Hnone. rewrite Hnone. cbn [fst]. unfold _data_fallback.
    split; [|split; [|split]].
    + now intros ->.
    + now intros text -> ->.
    + now intros text -> ->.
    + now intros text record rest -> ->.
Qed.

(** The tool for the examples: it prints an empty array for every file. *)
Definition prints_nothing (command : string) : option string := Some "[]".

Lemma data_outcomes_witness :
  fst (data read_json id id None prints_nothing None "/in/a.jpg") = Raise IndexError.
Proof.
  apply (proj1 (proj2 (proj2 (proj2 (proj2 (data_outcomes read_json id id None prints_nothing
                                               None "/in/a.jpg")) None eq_refl eq_refl)))
           "[]" eq_refl eq_refl).
Defined.

(** A session whose worker cannot be written to: it did not start, or its
    input stream is closed or broken. *)
Definition unusable (s : session) : Prop :=
  match _process s with
  | Some p => stdin_closed p = true \/ stdin_broken p = true
  | None => True
  end.

Lemma fetch_unusable json_loads abspath shlex_quote s filename :
  unusable s ->
  fst (fetch json_loads abspath shlex_quote s filename) = Ok None
  /\ _process (snd (fetch json_loads abspath shlex_quote s filename)) = _process s.
Proof.
  unfold unusable, fetch. destruct (_process s) as [p|] eqn:Hp.
  - destruct (stdin_closed p) eqn:Hc; [intros _; split; [reflexivity | exact Hp]|].
    destruct (stdin_broken p) eqn:Hb; [intros _; split; reflexivity|].
    intros [H | H]; discriminate H.
  - intros _. split; [reflexivity | exact Hp].
Qed.

(** X28. A worker that cannot be used is never replaced: with a session
    whose worker did not start, or whose input stream is closed or broken,
    every call of [Exif.data] goes to the run of the tool for the file and
    leaves the same worker in the session, also when a worker could be
    started by now; and when the very first start fails, the session
    without a worker is the one that is kept. *)
Theorem unusable_worker_kept json_loads abspath shlex_quote popen check_output
    (s : session) (filename : string) :
  unusable s ->
  let '(exif, global) :=
    data json_loads abspath shlex_quote popen check_output (Some s) filename in
  exif = _data_fallback json_loads abspath shlex_quote check_output (abspath filename)
  /\ (exists s', global = Some s' /\ _process s' = _process s /\ unusable s')
  /\ data json_loads abspath shlex_quote None check_output None filename
     = (_data_fallback json_loads abspath shlex_quote check_output (abspath filename),
        Some (mk_session None 0)).
Proof.
  intros Hs. unfold data, _data_from_session. cbn [_get_persistent_session].
  destruct (fetch_unusable json_loads abspath shlex_quote s (abspath filename) Hs)
    as [Hanswer Hprocess].
  destruct (fetch json_loads abspath shlex_quote s (abspath filename)) as [exif s'].
  cbn [fst snd] in Hanswer, Hprocess. subst exif. cbn [is_none].
  split; [reflexivity|]. split; [|reflexivity].
  exists s'. split; [reflexivity|]. split; [exact Hprocess|].
  unfold unusable in *. now rewrite Hprocess.
Qed.

Lemma unusable_worker_kept_witness :
  let '(exif, global) :=
    data read_json id id (Some (mk_process false false [] [])) prints_nothing
         (Some (mk_session (Some (mk_process true false [] [])) 3)) "/in/a.jpg" in
  exif = Raise IndexError.
Proof.
  pose proof (unusable_worker_kept read_json id id (Some (mk_process false false [] []))
                prints_nothing (mk_session (Some (mk_process true false [] [])) 3)
                "/in/a.jpg" (or_introl eq_refl)) as H.
  destruct (data read_json id id _ prints_nothing _ "/in/a.jpg") as [exif global].
  destruct H as (H & _). rewrite H. reflexivity.
Defined.

Lemma read_until_all token lines : forall acc,
  Forall (fun l => Py.strip l <> token) lines ->
  read_until token lines acc = ((acc ++ lines)%list, []).
Proof.
  induction lines as [|l lines IH]; intros acc H.
  - cbn [read_until]. now rewrite app_nil_r.
  - apply Forall_cons in H as [Hl H]. cbn [read_until].
    apply String.eqb_neq in Hl. rewrite Hl, (IH _ H). now rewrite <- app_assoc.
Qed.

(** X29. The end of the output of the worker ends the wait for the token:
    when none of the lines left is the token of the request, fetch reads
    them all and answers from them as if the token had come, and the next
    request, that finds nothing to read, gives None. *)
Theorem output_ends_without_token json_loads abspath shlex_quote self p filename next :
  _process self = Some p -> stdin_closed p = false -> stdin_broken p = false ->
  Forall (fun l => Py.strip l <> token_of (_token self + 1)) (stdout p) ->
  let '(answer1, self1) := fetch json_loads abspath shlex_quote self filename in
  answer1 = answer json_loads (stdout p)
  /\ (exists p1, _process self1 = Some p1 /\ stdout p1 = [])
  /\ fst (fetch json_loads abspath shlex_quote self1 next) = Ok None.
Proof.
  intros Hp Hc Hb Hlines. unfold fetch at 1. rewrite Hp, Hc, Hb.
  fold (token_of (_token self + 1)).
  rewrite (read_until_all _ (stdout p) [] Hlines). cbn [app].
  assert (Hnext : forall payloads,
    fst (fetch json_loads abspath shlex_quote
           (mk_session (Some (mk_process false false payloads []))
                       (_token self + 1)) next) = Ok None).
  { intros payloads. reflexivity. }
  fold (answer json_loads (stdout p)).
  unfold answer. cbv zeta.
  destruct (negb (Py.truthy (Py.strip (Py.join "" (stdout p))))).
  { split; [reflexivity|]. split; [eexists; split; reflexivity | apply Hnext]. }
  destruct (json_loads (Py.strip (Py.join "" (stdout p))) ≫= subscript0) as [r|[]];
    (split; [reflexivity|]); (split; [eexists; split; reflexivity | apply Hnext]).
Qed.

Lemma output_ends_without_token_witness :
  let '(answer1, self1) :=
    fetch read_json id id (worker ["[{}]" ++ NL]) "/in/a.jpg" in
  answer1 = Ok (Some (JObj []))
  /\ fst (fetch read_json id id self1 "/in/b.jpg") = Ok None.
Proof.
  pose proof (output_ends_without_token read_json id id (worker ["[{}]" ++ NL])
                (mk_process false false [] ["[{}]" ++ NL]) "/in/a.jpg" "/in/b.jpg"
                eq_refl eq_refl eq_refl) as H.
  destruct (fetch read_json id id (worker ["[{}]" ++ NL]) "/in/a.jpg") as [answer1 self1].
  destruct H as (H1 & _ & H2).
  - repeat constructor. discriminate.
  - rewrite H1. split; [reflexivity | exact H2].
Defined.

End ExifExtras.

(** ** Dates in file names *)

Module FilenameExtras.
Import Datetime Date StringFacts TextFacts.
Import DateFacts.
Import DateExtras TimestampExtras.

#[local] Arguments String.append : simpl nomatch.

Definition is_sep (c : ascii) : bool := one_of "_-" c.

(** No match of the tail of the default pattern begins in [s]. *)
Fixpoint stamp_free (s : string) : bool :=
  match stamp_at s with
  | Some _ => false
  | None => match s with
            | String _ r => stamp_free r
            | EmptyString => true
            end
  end.

Lemma stamp_free_cons c s :
  stamp_free (String c s)
  = match stamp_at (String c s) with Some _ => false | None => stamp_free s end.
Proof. reflexivity. Qed.

Lemma stamp_free_inv c s :
  stamp_free (String c s) = true -> stamp_at (String c s) = None /\ stamp_free s = true.
Proof. cbn [stamp_free]. destruct (stamp_at (String c s)); [discriminate | auto]. Qed.

Lemma stamp_free_greedy s : stamp_free s = true -> greedy_dot stamp_at s = None.
Proof.
  induction s as [|c s IH]; [reflexivity|].
  intros H. apply stamp_free_inv in H as [Hhere Hrest].
  cbn [greedy_dot]. rewrite (IH Hrest), Hhere. now destruct (Ascii.eqb c Py.LF).
Qed.

Lemma stamp_at_no_sep c s : is_sep c = false -> stamp_at (String c s) = None.
Proof. intros H. unfold stamp_at. unfold is_sep in H. now rewrite H. Qed.

Lemma no_sep_stamp_free s :
  all_chars (fun c => negb (is_sep c)) s = true -> stamp_free s = true.
Proof.
  induction s as [|c s IH]; [reflexivity|].
  intros H. cbn [all_chars] in H. apply andb_true_iff in H as [Hc Hs].
  apply negb_true_iff in Hc. cbn [stamp_free].
  now rewrite (stamp_at_no_sep c s Hc), (IH Hs).
Qed.

Lemma digit_no_sep c : Py.is_digit c = true -> is_sep c = false.
Proof.
  intros H. unfold is_sep, one_of. simpl.
  now rewrite (digit_neq c "_" H eq_refl), (digit_neq c "-" H eq_refl).
Qed.

Lemma sep_cases c : is_sep c = true -> c = "_"%char \/ c = "-"%char.
Proof.
  unfold is_sep, one_of. simpl. rewrite orb_false_r.
  intros H. apply orb_true_iff in H as [H | H]; apply Ascii.eqb_eq in H; auto.
Qed.

(** The longest run before a match is the whole text before the last
    match. *)
Lemma greedy_dot_last {A : Type} (tail : string -> option A) d c r a :
  has_char Py.LF d = false -> Ascii.eqb c Py.LF = false ->
  greedy_dot tail r = None -> tail (String c r) = Some a ->
  greedy_dot tail (d ++ String c r) = Some (d, a).
Proof.
  intros Hd Hc Hr Ha. induction d as [|x d IH].
  - cbn [String.append]. rewrite (greedy_dot_fallback tail c r Hc Hr), Ha. reflexivity.
  - simpl in Hd. apply orb_false_iff in Hd as [Hx Hd].
    cbn [String.append greedy_dot]. now rewrite Hx, (IH Hd).
Qed.

Lemma digits_two a b r :
  Py.is_digit a = true -> Py.is_digit b = true ->
  digits 2 (String a (String b r)) = Some (String a (String b ""), r).
Proof. intros Ha Hb. cbn [digits]. now rewrite Ha, Hb. Qed.

Lemma digits_four a b c d r :
  Py.is_digit a = true -> Py.is_digit b = true -> Py.is_digit c = true ->
  Py.is_digit d = true ->
  digits 4 (String a (String b (String c (String d r))))
  = Some (String a (String b (String c (String d ""))), r).
Proof. intros Ha Hb Hc Hd. cbn [digits]. now rewrite Ha, Hb, Hc, Hd. Qed.

(** The separator between the date and the time of a name: none, or one. *)
Definition between (sep : option ascii) (r : string) : string :=
  match sep with Some c => String c r | None => r end.

Definition name_rest (sep : option ascii)
    (y1 y2 y3 y4 m1 m2 d1 d2 h1 h2 i1 i2 s1 s2 : ascii) (suffix : string) : string :=
  String y1 (String y2 (String y3 (String y4 (String m1 (String m2
    (String d1 (String d2
       (between sep (String h1 (String h2 (String i1 (String i2
          (String s1 (String s2 suffix)))))))))))))).

Definition name_tail (a : ascii) (sep : option ascii)
    (y1 y2 y3 y4 m1 m2 d1 d2 h1 h2 i1 i2 s1 s2 : ascii) (suffix : string) : string :=
  String a (name_rest sep y1 y2 y3 y4 m1 m2 d1 d2 h1 h2 i1 i2 s1 s2 suffix).

Definition groups_of_name (y1 y2 y3 y4 m1 m2 d1 d2 h1 h2 i1 i2 s1 s2 : ascii)
  : list (string * option string) :=
  [("year", Some (String y1 (String y2 (String y3 (String y4 "")))));
   ("month", Some (String m1 (String m2 "")));
   ("day", Some (String d1 (String d2 "")));
   ("hour", Some (String h1 (String h2 "")));
   ("minute", Some (String i1 (String i2 "")));
   ("second", Some (String s1 (String s2 "")))].

Definition begins_without_digit (s : string) : bool :=
  match s with String c _ => negb (Py.is_digit c) | EmptyString => true end.

Lemma digits_two_none s : begins_without_digit s = true -> digits 2 s = None.
Proof.
  destruct s as [|c s]; [reflexivity|]. simpl. intros H. apply negb_true_iff in H.
  now rewrite H.
Qed.

Section Name.

Variables (a : ascii) (sep : option ascii).
Variables (y1 y2 y3 y4 m1 m2 d1 d2 h1 h2 i1 i2 s1 s2 : ascii) (suffix : string).

Hypothesis Ha : is_sep a = true.
Hypothesis Hsep : match sep with Some c => is_sep c = true | None => True end.
Hypothesis Hdigits : Forall digit [y1; y2; y3; y4; m1; m2; d1; d2; h1; h2; i1; i2; s1; s2].
Hypothesis Hsuffix : all_chars (fun c => negb (is_sep c)) suffix = true.
Hypothesis Hbegin : begins_without_digit suffix = true.

Lemma stamp_at_name :
  stamp_at (name_tail a sep y1 y2 y3 y4 m1 m2 d1 d2 h1 h2 i1 i2 s1 s2 suffix)
  = Some (groups_of_name y1 y2 y3 y4 m1 m2 d1 d2 h1 h2 i1 i2 s1 s2).
Proof.
  pose proof Hdigits as H. digit_facts H.
  unfold name_tail, name_rest, stamp_at. unfold is_sep in Ha. rewrite Ha.
  rewrite digits_four by assumption. cbn [mbind option_bind].
  rewrite digits_two by assumption. cbn [mbind option_bind].
  rewrite digits_two by assumption. cbn [mbind option_bind].
  destruct sep as [c|]; cbn [between].
  - unfold is_sep in Hsep. rewrite Hsep.
    repeat (rewrite digits_two by assumption; cbn [mbind option_bind]). reflexivity.
  - assert (Hh : is_sep h1 = false) by (apply digit_no_sep; assumption).
    unfold is_sep in Hh. rewrite Hh.
    repeat (rewrite digits_two by assumption; cbn [mbind option_bind]). reflexivity.
Qed.

Lemma after_name_free :
  stamp_free (name_rest sep y1 y2 y3 y4 m1 m2 d1 d2 h1 h2 i1 i2 s1 s2 suffix) = true.
Proof.
  pose proof Hdigits as H. digit_facts H. unfold name_rest.
  assert (Htime : stamp_free (String h1 (String h2 (String i1 (String i2
                     (String s1 (String s2 suffix)))))) = true).
  { cbn [stamp_free].
    rewrite !stamp_at_no_sep by (apply digit_no_sep; assumption).
    now apply no_sep_stamp_free. }
  cbn [stamp_free].
  rewrite !stamp_at_no_sep by (apply digit_no_sep; assumption).
  destruct sep as [c|]; cbn [between]; [|exact Htime].
  rewrite stamp_free_cons, Htime.
  unfold stamp_at. unfold is_sep in Hsep. rewrite Hsep.
  rewrite digits_four by assumption. cbn [mbind option_bind].
  rewrite digits_two by assumption. cbn [mbind option_bind].
  now rewrite (digits_two_none suffix Hbegin).
Qed.

Lemma default_regex_name prefix :
  has_char Py.LF prefix = false ->
  default_regex
    (prefix ++ name_tail a sep y1 y2 y3 y4 m1 m2 d1 d2 h1 h2 i1 i2 s1 s2 suffix)
  = Some (groups_of_name y1 y2 y3 y4 m1 m2 d1 d2 h1 h2 i1 i2 s1 s2).
Proof.
  intros Hprefix. unfold default_regex. apply search_head.
  pose proof stamp_at_name as Hat. unfold name_tail in *.
  rewrite (greedy_dot_last stamp_at prefix a
             (name_rest sep y1 y2 y3 y4 m1 m2 d1 d2 h1 h2 i1 i2 s1 s2 suffix)
             (groups_of_name y1 y2 y3 y4 m1 m2 d1 d2 h1 h2 i1 i2 s1 s2) Hprefix);
    [reflexivity| | |exact Hat].
  - destruct (sep_cases a Ha) as [-> | ->]; reflexivity.
  - apply stamp_free_greedy, after_name_free.
Qed.

End Name.

(** The eight digits of the date and the six digits of the time. *)
Definition date8 (t : datetime) : string :=
  Py.fmt_d 4 (year t) ++ Py.fmt_d 2 (month t) ++ Py.fmt_d 2 (day t).

Definition time6 (t : datetime) : string :=
  Py.fmt_d 2 (hour t) ++ Py.fmt_d 2 (minute t) ++ Py.fmt_d 2 (second t).

(** A name such as IMG_20160915_123456.jpg. *)
Definition dated_name (prefix : string) (a : ascii) (sep : option ascii) (t : datetime)
    (suffix : string) : string :=
  prefix ++ String a (date8 t ++ between sep (time6 t ++ suffix)).

Lemma datetime_new_of_valid t :
  valid t -> microsecond t = 0 ->
  datetime_new (year t) (month t) (day t) (hour t) (minute t) (second t) = Ok t.
Proof.
  intros Hvalid Hmicro.
  destruct (valid_ranges t Hvalid) as (HY & Hm & Hd & HH & HM & HS).
  unfold datetime_new. destruct Hvalid as [Hdate Htime]. rewrite Hdate, Htime.
  replace (forallb fits_c_int [year t; month t; day t; hour t; minute t; second t]) with true.
  - cbn [andb]. destruct t as [Y m d H M S u]. cbn in Hmicro. now subst u.
  - symmetry. cbn [forallb]. unfold fits_c_int.
    repeat (apply andb_true_iff; split); try apply Z.leb_le; try lia; reflexivity.
Qed.

Lemma four_digits n :
  0 <= n < 10000 ->
  exists a b c d,
    Py.fmt_d 4 n = String a (String b (String c (String d "")))
    /\ Forall digit [a; b; c; d]
    /\ Py.int (String a (String b (String c (String d "")))) = Ok n.
Proof.
  intros Hn. destruct (fmt_d_spec 3 n) as (Hlen & Hall & Hdec); [simpl; lia|].
  destruct (Py.fmt_d 4 n) as [|a [|b [|c [|d [|e s]]]]]; try discriminate Hlen.
  exists a, b, c, d. split; [reflexivity|].
  rewrite (int_decimal _ Hall) by discriminate. rewrite Hdec.
  split; [|reflexivity].
  simpl in Hall. rewrite andb_true_r in Hall.
  apply andb_true_iff in Hall as [Ha Hall]. apply andb_true_iff in Hall as [Hb Hall].
  apply andb_true_iff in Hall as [Hc Hd].
  repeat (apply List.Forall_cons; [assumption|]). apply List.Forall_nil.
Qed.

Lemma two_digits n :
  0 <= n < 100 ->
  exists a b,
    Py.fmt_d 2 n = String a (String b "")
    /\ Forall digit [a; b]
    /\ Py.int (String a (String b "")) = Ok n.
Proof.
  intros Hn. destruct (two_chars n Hn) as (a & b & E & Ha & Hb & Hv).
  exists a, b. split; [exact E|]. split.
  - repeat (apply List.Forall_cons; [assumption|]). apply List.Forall_nil.
  - now rewrite (int_two_digits a b Ha Hb), Hv.
Qed.

Lemma get_or_zero_lookup (d : gmap string Z) (k : string) v :
  d !! k = Some v -> get_or_zero d k = v.
Proof.
  intros H. unfold get_or_zero. rewrite H. destruct (v =? 0) eqn:E; [|reflexivity].
  apply Z.eqb_eq in E. now subst.
Qed.

Lemma pattern_date_name prefix a sep t suffix :
  valid t -> microsecond t = 0 ->
  is_sep a = true -> match sep with Some c => is_sep c = true | None => True end ->
  has_char Py.LF prefix = false ->
  all_chars (fun c => negb (is_sep c)) suffix = true -> begins_without_digit suffix = true ->
  pattern_date default_regex (dated_name prefix a sep t suffix) = Ok (Some t).
Proof.
  intros Hvalid Hmicro Ha Hsep Hprefix Hsuffix Hbegin.
  destruct (valid_ranges t Hvalid) as (HY & Hm & Hd & HH & HM & HS).
  destruct (four_digits (year t)) as (y1 & y2 & y3 & y4 & EY & DY & NY); [lia|].
  destruct (two_digits (month t)) as (m1 & m2 & Em & Dm & Nm); [lia|].
  destruct (two_digits (day t)) as (d1 & d2 & Ed & Dd & Nd); [lia|].
  destruct (two_digits (hour t)) as (h1 & h2 & EH & DH & NH); [lia|].
  destruct (two_digits (minute t)) as (i1 & i2 & EM & DM & NM); [lia|].
  destruct (two_digits (second t)) as (s1 & s2 & ES & DS & NS); [lia|].
  assert (Hname : dated_name prefix a sep t suffix
                  = prefix ++ name_tail a sep y1 y2 y3 y4 m1 m2 d1 d2 h1 h2 i1 i2 s1 s2 suffix).
  { unfold dated_name, date8, time6, name_tail, name_rest.
    rewrite EY, Em, Ed, EH, EM, ES. reflexivity. }
  assert (Hdigits : Forall digit [y1; y2; y3; y4; m1; m2; d1; d2; h1; h2; i1; i2; s1; s2]).
  { change [y1; y2; y3; y4; m1; m2; d1; d2; h1; h2; i1; i2; s1; s2]
      with ([y1; y2; y3; y4] ++ [m1; m2] ++ [d1; d2] ++ [h1; h2] ++ [i1; i2] ++ [s1; s2])%list.
    repeat (apply Forall_app; split; try assumption). }
  unfold pattern_date.
  rewrite Hname, (default_regex_name a sep y1 y2 y3 y4 m1 m2 d1 d2 h1 h2 i1 i2 s1 s2 suffix
                    Ha Hsep Hdigits Hsuffix Hbegin prefix Hprefix).
  unfold groups_of_name. cbn [groupdict map from_option id ints_of].
  rewrite NY, Nm, Nd, NH, NM, NS. cbn [mbind result_bind].
  unfold build, getitem.
  set (date_object := list_to_map _ : gmap string Z).
  assert (LY : date_object !! "year" = Some (year t)) by reflexivity.
  assert (Lm : date_object !! "month" = Some (month t)) by reflexivity.
  assert (Ld : date_object !! "day" = Some (day t)) by reflexivity.
  assert (LH : date_object !! "hour" = Some (hour t)) by reflexivity.
  assert (LM : date_object !! "minute" = Some (minute t)) by reflexivity.
  assert (LS : date_object !! "second" = Some (second t)) by reflexivity.
  rewrite LY, Lm, Ld. cbn [mbind result_bind].
  rewrite (get_or_zero_lookup _ _ _ LH), (get_or_zero_lookup _ _ _ LM),
          (get_or_zero_lookup _ _ _ LS).
  now rewrite (datetime_new_of_valid t Hvalid Hmicro).
Qed.

(** X30. The default pattern for file names reads the date of a name
    back: for every instant of the calendar, a name made of any one-line
    text, an underscore or a hyphen, the eight digits of the date, at most
    one underscore or hyphen, the six digits of the time and a rest without
    underscores and hyphens that does not begin with a digit (IMG, an
    underscore, the digits and .jpg, say) gives that instant.  So does the
    resolver for a file of that name whose record holds no usable date,
    whether modification times are to be used or not. *)
Theorem file_names_read_back mt (f : string) (exif : gmap string json) timestamp date_field
    prefix a sep t suffix :
  valid t -> microsecond t = 0 ->
  is_sep a = true -> match sep with Some c => is_sep c = true | None => True end ->
  has_char Py.LF prefix = false ->
  all_chars (fun c => negb (is_sep c)) suffix = true -> begins_without_digit suffix = true ->
  OsPath.basename f = dated_name prefix a sep t suffix ->
  pattern_date default_regex (OsPath.basename f) = Ok (Some t)
  /\ from_filename mt f None timestamp = Ok (Some (mk_resolved (Some t) "" None))
  /\ (Forall (fun k => usable (exif !! k) = None) (keys_of date_field) ->
      from_exif mt (Some f) exif timestamp None date_field
      = Ok (Some (mk_resolved (Some t) "" None))).
Proof.
  intros Hvalid Hmicro Ha Hsep Hprefix Hsuffix Hbegin Hname.
  pose proof (pattern_date_name prefix a sep t suffix Hvalid Hmicro Ha Hsep Hprefix
                Hsuffix Hbegin) as Hdate.
  rewrite <- Hname in Hdate.
  assert (Hfile : from_filename mt f None timestamp
                  = Ok (Some (mk_resolved (Some t) "" None))).
  { unfold from_filename. cbn [from_option id]. now rewrite Hdate. }
  split; [exact Hdate|]. split; [exact Hfile|].
  intros Hnone. rewrite (from_exif_unusable mt (Some f) exif timestamp None date_field Hnone).
  destruct f as [|c f]; [|exact Hfile].
  exfalso. change (OsPath.basename "") with "" in Hname.
  unfold dated_name in Hname. destruct prefix; discriminate Hname.
Qed.

Lemma file_names_read_back_witness :
  from_exif no_files (Some "/in/IMG_20160915_123456.jpg") ∅ false None None
  = Ok (Some (mk_resolved (Some (mk_datetime 2016 9 15 12 34 56 0)) "" None)).
Proof.
  apply (proj2 (proj2 (file_names_read_back no_files "/in/IMG_20160915_123456.jpg" ∅ false
                         None "IMG" "_" (Some "_"%char) (mk_datetime 2016 9 15 12 34 56 0)
                         ".jpg" (conj eq_refl eq_refl) eq_refl eq_refl eq_refl eq_refl eq_refl
                         eq_refl eq_refl))).
  repeat (apply List.Forall_cons; [reflexivity|]). apply List.Forall_nil.
Defined.

End FilenameExtras.
